(** * 2FAuto: the OTP microservice's authentication and verification core

    A shallow embedding of
      - [app/core/config.py]      (Settings, Settings._validate),
      - [app/core/totp.py]        (get_otp, verify_otp),
      - [app/middleware/auth.py]  (require_api_key, require_hmac_signature),
      - [app/routes/otp.py]       (the four routes and their dependencies),
      - [app/main.py]             (create_app, unhandled_exception_handler),
      - [totp_a360.py]            (get_totp),
    together with the parts of the Python standard library and of [pyotp]
    that those functions call ([int], [str], [hmac], [hashlib], [base64],
    [datetime], [pyotp.TOTP]).

    Conventions of the embedding.
      - The str of a header value or of an environment variable is a Rocq
        [string] read as a sequence of code points below 256.  This is
        exactly what an HTTP header value is once the framework has decoded
        it (latin-1); environment variables are covered for code points up
        to U+00FF.
      - The str handed to [verify_otp] is a str in general: the list of its
        code points, which may be any, lone surrogates included.
      - Python [bytes] are lists of integers in [0, 256).
      - Python [int] is [Z]; 32-bit words of the hash functions are [Z]
        reduced with [Z.land _ 0xFFFFFFFF].
      - A call either returns or raises: [result].  The dependencies of
        [auth.py] additionally record, in order, the library primitives they
        call (the clock, [hmac.new], [hmac.compare_digest]).
      - The clock is an argument: every reading a function takes is a
        parameter holding unix time in seconds.  [get_otp] reads the clock
        twice and so has two of them.
      - [pyotp] takes the time from [datetime.now()], a naive local time
        that it maps back to unix time with [time.mktime]; the time zone
        rules of the C library and the Unicode database that
        [strings_equal] normalises with are a parameter, [Platform.t]. *)

From Stdlib Require Import ZArith List String Ascii Bool Lia.
Import ListNotations.
Local Open Scope Z_scope.

(* ------------------------------------------------------------------ *)
(** ** Python values: exceptions, str, bytes, int                      *)
(* ------------------------------------------------------------------ *)

Inductive exn : Type :=
| HTTPException (status_code : Z) (detail : string)
| TypeError
| ValueError
| BinasciiError
| OverflowError
| OSError
| UnicodeEncodeError
| SystemExit (code : Z).

Inductive result (A : Type) : Type :=
| Ok (a : A)
| Raise (e : exn).
Arguments Ok {A} a.
Arguments Raise {A} e.

Definition rbind {A B} (r : result A) (k : A -> result B) : result B :=
  match r with
  | Ok a => k a
  | Raise e => Raise e
  end.

Notation "x <- r ;; k" := (rbind r (fun x => k))
  (at level 61, r at next level, right associativity).

Definition bytes := list Z.
Definition is_byte (b : Z) : Prop := 0 <= b < 256.

Module PyStr.

Definition ord (c : ascii) : Z := Z.of_N (N_of_ascii c).
Definition chr (z : Z) : ascii := ascii_of_N (Z.to_N z).

Fixpoint codepoints (s : string) : list Z :=
  match s with
  | EmptyString => []
  | String c r => ord c :: codepoints r
  end.

Fixpoint of_codepoints (l : list Z) : string :=
  match l with
  | [] => EmptyString
  | c :: r => String (chr c) (of_codepoints r)
  end.

(** [str.isascii()] *)
Definition isascii (s : string) : bool :=
  forallb (fun c => c <? 128) (codepoints s).

(** UTF-8 encoding of one code point that is not a surrogate. *)
Definition utf8_char (c : Z) : bytes :=
  if c <? 0x80 then [c]
  else if c <? 0x800 then
    [Z.lor 0xC0 (Z.shiftr c 6); Z.lor 0x80 (Z.land c 0x3F)]
  else if c <? 0x10000 then
    [Z.lor 0xE0 (Z.shiftr c 12);
     Z.lor 0x80 (Z.land (Z.shiftr c 6) 0x3F);
     Z.lor 0x80 (Z.land c 0x3F)]
  else
    [Z.lor 0xF0 (Z.shiftr c 18);
     Z.lor 0x80 (Z.land (Z.shiftr c 12) 0x3F);
     Z.lor 0x80 (Z.land (Z.shiftr c 6) 0x3F);
     Z.lor 0x80 (Z.land c 0x3F)].

Definition utf8 (l : list Z) : bytes := flat_map utf8_char l.

(** A str in general is the list of its code points; a lone surrogate
    (U+D800 to U+DFFF) can be one of them. *)
Definition is_surrogate (c : Z) : bool := (0xD800 <=? c) && (c <=? 0xDFFF).

(** [s.encode("utf-8")] on a str in general: surrogates are refused. *)
Definition encode_utf8 (l : list Z) : result bytes :=
  if existsb is_surrogate l then Raise UnicodeEncodeError else Ok (utf8 l).

(** The strs of ASCII characters. *)
Definition ascii_only (l : list Z) : bool :=
  forallb (fun c => (0 <=? c) && (c <? 128)) l.

(** [s.encode()] (UTF-8 is the default encoding) *)
Definition encode (s : string) : bytes := utf8 (codepoints s).

(** *** [int(s)] for a str argument, base 10 *)

(** The characters [int] skips around the literal. *)
Definition is_space (c : Z) : bool :=
  ((9 <=? c) && (c <=? 13)) || (c =? 32) || (c =? 0x85) || (c =? 0xA0).

Definition is_digit (c : Z) : bool := (48 <=? c) && (c <=? 57).

Fixpoint lstrip (l : list Z) : list Z :=
  match l with
  | c :: r => if is_space c then lstrip r else l
  | [] => []
  end.

(** Digits, single underscores allowed between two digits.  Returns the
    value, the number of digits read and what follows the literal. *)
Fixpoint scan_digits (l : list Z) (acc n : Z) : option (Z * Z * list Z) :=
  match l with
  | c :: r =>
      if is_digit c then scan_digits r (10 * acc + (c - 48)) (n + 1)
      else if c =? 95 then
        match r with
        | d :: _ => if is_digit d then scan_digits r acc n else None
        | [] => None
        end
      else Some (acc, n, l)
  | [] => Some (acc, n, [])
  end.

(** sys.get_int_max_str_digits() *)
Definition MAX_STR_DIGITS : Z := 4300.

Definition int_unsigned (l : list Z) : option Z :=
  match l with
  | c :: _ =>
      if is_digit c then
        match scan_digits l 0 0 with
        | Some (v, n, rest) =>
            match lstrip rest with
            | [] => if n <=? MAX_STR_DIGITS then Some v else None
            | _ :: _ => None
            end
        | None => None
        end
      else None
  | [] => None
  end.

(** [None] stands for ValueError. *)
Definition int (s : string) : option Z :=
  match lstrip (codepoints s) with
  | c :: r =>
      if c =? 43 then int_unsigned r
      else if c =? 45 then option_map Z.opp (int_unsigned r)
      else int_unsigned (c :: r)
  | [] => None
  end.

(** *** [str(n)] for an int *)

Fixpoint str_digits (fuel : nat) (n : Z) (acc : string) : string :=
  match fuel with
  | O => acc
  | S f =>
      let acc' := String (chr (48 + n mod 10)) acc in
      if n / 10 =? 0 then acc' else str_digits f (n / 10) acc'
  end.

Definition str (n : Z) : string :=
  if n <? 0
  then String "-" (str_digits (S (Z.to_nat (Z.log2 (- n)))) (- n) EmptyString)
  else str_digits (S (Z.to_nat (Z.log2 n))) n EmptyString.

(** [s[-k:]] *)
Definition last_chars (k : nat) (s : string) : string :=
  substring (String.length s - k) k s.

(** [bytes.hex()] / [hexdigest] formatting, lower case *)
Definition hex_digit (d : Z) : ascii :=
  if d <? 10 then chr (48 + d) else chr (87 + d).

Fixpoint hex (b : bytes) : string :=
  match b with
  | [] => EmptyString
  | x :: r => String (hex_digit (Z.shiftr x 4)) (String (hex_digit (Z.land x 15)) (hex r))
  end.

End PyStr.

(* ------------------------------------------------------------------ *)
(** ** hashlib: SHA-1 and SHA-256 (FIPS 180-4)                         *)
(* ------------------------------------------------------------------ *)

Module Hashlib.

Definition w32 (x : Z) : Z := Z.land x 0xFFFFFFFF.
Definition add32 (x y : Z) : Z := w32 (x + y).
Definition rotl (n x : Z) : Z :=
  w32 (Z.lor (Z.shiftl x n) (Z.shiftr x (32 - n))).
Definition rotr (n x : Z) : Z :=
  w32 (Z.lor (Z.shiftr x n) (Z.shiftl x (32 - n))).
Definition not32 (x : Z) : Z := Z.lxor x 0xFFFFFFFF.

(** Big-endian bytes of a word. *)
Definition be_bytes (n : nat) (x : Z) : bytes :=
  map (fun k => Z.land (Z.shiftr x (8 * Z.of_nat k)) 255) (rev (seq 0 n)).

Fixpoint be_words (b : bytes) : list Z :=
  match b with
  | b0 :: b1 :: b2 :: b3 :: r =>
      Z.lor (Z.shiftl b0 24) (Z.lor (Z.shiftl b1 16) (Z.lor (Z.shiftl b2 8) b3))
      :: be_words r
  | _ => []
  end.

(** Message padding: 0x80, zeros up to 56 mod 64, the bit length on 8 bytes. *)
Definition pad (m : bytes) : bytes :=
  let len := Z.of_nat (List.length m) in
  m ++ [0x80] ++ repeat 0 (Z.to_nat ((55 - len) mod 64)) ++ be_bytes 8 (8 * len).

(** Folding a compression function over the 16-word blocks. *)
Fixpoint blocks {S : Type} (f : S -> list Z -> S) (n : nat) (ws : list Z) (st : S) : S :=
  match n with
  | O => st
  | Datatypes.S n' => blocks f n' (skipn 16 ws) (f st (firstn 16 ws))
  end.

(** *** SHA-1 *)

Definition sha1_f (t b c d : Z) : Z :=
  if t <? 20 then Z.lor (Z.land b c) (Z.land (not32 b) d)
  else if t <? 40 then Z.lxor b (Z.lxor c d)
  else if t <? 60 then Z.lor (Z.land b c) (Z.lor (Z.land b d) (Z.land c d))
  else Z.lxor b (Z.lxor c d).

Definition sha1_k (t : Z) : Z :=
  if t <? 20 then 0x5A827999
  else if t <? 40 then 0x6ED9EBA1
  else if t <? 60 then 0x8F1BBCDC
  else 0xCA62C1D6.

Definition sha1_state : Type := (Z * Z * Z * Z * Z)%type.

(** [w] holds W[t] .. W[t+15]. *)
Fixpoint sha1_rounds (n : nat) (t : Z) (w : list Z) (st : sha1_state) : sha1_state :=
  match n with
  | O => st
  | S n' =>
      let '(a, b, c, d, e) := st in
      let wt := nth 0 w 0 in
      let tmp := add32 (add32 (add32 (add32 (rotl 5 a) (sha1_f t b c d)) e) (sha1_k t)) wt in
      let next := rotl 1 (Z.lxor (nth 13 w 0) (Z.lxor (nth 8 w 0) (Z.lxor (nth 2 w 0) wt))) in
      sha1_rounds n' (t + 1) (tl w ++ [next]) (tmp, a, rotl 30 b, c, d)
  end.

Definition sha1_compress (st : sha1_state) (block : list Z) : sha1_state :=
  let '(h0, h1, h2, h3, h4) := st in
  let '(a, b, c, d, e) := sha1_rounds 80 0 block st in
  (add32 h0 a, add32 h1 b, add32 h2 c, add32 h3 d, add32 h4 e).

Definition sha1_init : sha1_state :=
  (0x67452301, 0xEFCDAB89, 0x98BADCFE, 0x10325476, 0xC3D2E1F0).

Definition sha1 (m : bytes) : bytes :=
  let ws := be_words (pad m) in
  let '(h0, h1, h2, h3, h4) := blocks sha1_compress (List.length ws / 16) ws sha1_init in
  flat_map (be_bytes 4) [h0; h1; h2; h3; h4].

(** *** SHA-256 *)

(** The round constants are the first 32 bits of the fractional parts of
    the cube roots of the first 64 primes, and the initial hash value those
    of the square roots of the first 8. *)
Definition is_prime (n : nat) : bool :=
  forallb (fun d => negb (Nat.eqb (n mod d) 0)) (seq 2 (n - 2)).

Definition first_primes (n : nat) : list Z :=
  map Z.of_nat (firstn n (filter is_prime (seq 2 310))).

(** The integer cube root, one bit at a time from bit [k - 1] down. *)
Fixpoint cbrt_bits (k : nat) (r n : Z) : Z :=
  match k with
  | O => r
  | S k' =>
      let r' := r + 2 ^ Z.of_nat k' in
      if r' * r' * r' <=? n then cbrt_bits k' r' n else cbrt_bits k' r n
  end.

Definition frac_cbrt32 (p : Z) : Z := w32 (cbrt_bits 40 0 (p * 2 ^ 96)).
Definition frac_sqrt32 (p : Z) : Z := w32 (Z.sqrt (p * 2 ^ 64)).

Definition sha256_K : list Z := Eval vm_compute in map frac_cbrt32 (first_primes 64).

Definition Ch (x y z : Z) : Z := Z.lxor (Z.land x y) (Z.land (not32 x) z).
Definition Maj (x y z : Z) : Z :=
  Z.lxor (Z.land x y) (Z.lxor (Z.land x z) (Z.land y z)).
Definition Sigma0 (x : Z) : Z := Z.lxor (rotr 2 x) (Z.lxor (rotr 13 x) (rotr 22 x)).
Definition Sigma1 (x : Z) : Z := Z.lxor (rotr 6 x) (Z.lxor (rotr 11 x) (rotr 25 x)).
Definition sigma0 (x : Z) : Z := Z.lxor (rotr 7 x) (Z.lxor (rotr 18 x) (Z.shiftr x 3)).
Definition sigma1 (x : Z) : Z := Z.lxor (rotr 17 x) (Z.lxor (rotr 19 x) (Z.shiftr x 10)).

Definition sha256_state : Type := list Z.

(** [w] holds W[t] .. W[t+15]; [ks] holds K[t] onwards. *)
Fixpoint sha256_rounds (ks : list Z) (w : list Z) (st : sha256_state) : sha256_state :=
  match ks with
  | [] => st
  | k :: ks' =>
      match st with
      | [a; b; c; d; e; f; g; h] =>
          let wt := nth 0 w 0 in
          let t1 := add32 (add32 (add32 (add32 h (Sigma1 e)) (Ch e f g)) k) wt in
          let t2 := add32 (Sigma0 a) (Maj a b c) in
          let next := add32 (add32 (add32 (sigma1 (nth 14 w 0)) (nth 9 w 0))
                                   (sigma0 (nth 1 w 0))) wt in
          sha256_rounds ks' (tl w ++ [next])
            [add32 t1 t2; a; b; c; add32 d t1; e; f; g]
      | _ => st
      end
  end.

Fixpoint add32s (xs ys : list Z) : list Z :=
  match xs, ys with
  | x :: xs', y :: ys' => add32 x y :: add32s xs' ys'
  | _, _ => []
  end.

Definition sha256_compress (st : sha256_state) (block : list Z) : sha256_state :=
  add32s st (sha256_rounds sha256_K block st).

Definition sha256_init : sha256_state :=
  Eval vm_compute in map frac_sqrt32 (first_primes 8).

Definition sha256 (m : bytes) : bytes :=
  let ws := be_words (pad m) in
  flat_map (be_bytes 4) (blocks sha256_compress (List.length ws / 16) ws sha256_init).

End Hashlib.

(* ------------------------------------------------------------------ *)
(** ** hmac                                                             *)
(* ------------------------------------------------------------------ *)

Module Hmac.

Definition block_size : nat := 64.

Definition xor_with (x : Z) (b : bytes) : bytes := map (Z.lxor x) b.

(** [hmac.new(key, msg, digestmod).digest()] (RFC 2104) *)
Definition digest (H : bytes -> bytes) (key msg : bytes) : bytes :=
  let k0 := if (block_size <? List.length key)%nat then H key else key in
  let k := k0 ++ repeat 0 (block_size - List.length k0) in
  H (xor_with 0x5C k ++ H (xor_with 0x36 k ++ msg)).

Definition hexdigest (H : bytes -> bytes) (key msg : bytes) : string :=
  PyStr.hex (digest H key msg).

Definition bytes_eqb (a b : bytes) : bool :=
  if list_eq_dec Z.eq_dec a b then true else false.

(** [hmac.compare_digest(a, b)] on two str arguments: both must be
    ASCII-only, otherwise TypeError; the answer is equality. *)
Definition compare_digest_str (a b : string) : result bool :=
  if PyStr.isascii a && PyStr.isascii b then Ok (String.eqb a b)
  else Raise TypeError.

(** [hmac.compare_digest(a, b)] on two bytes arguments. *)
Definition compare_digest_bytes (a b : bytes) : bool := bytes_eqb a b.

End Hmac.

(* ------------------------------------------------------------------ *)
(** ** base64.b32decode                                                 *)
(* ------------------------------------------------------------------ *)

Module Base64.

(** Value of a character of the RFC 4648 base32 alphabet A-Z, 2-7. *)
Definition b32rev (c : Z) : option Z :=
  if (65 <=? c) && (c <=? 90) then Some (c - 65)
  else if (50 <=? c) && (c <=? 55) then Some (c - 24)
  else None.

(** [bytes.upper()] on one byte *)
Definition upper (c : Z) : Z := if (97 <=? c) && (c <=? 122) then c - 32 else c.

Definition PAD : Z := 61.

(** [s.rstrip(b'=')] *)
Fixpoint rstrip_pad (l : list Z) : list Z :=
  match l with
  | [] => []
  | c :: r =>
      match rstrip_pad r with
      | [] => if c =? PAD then [] else [c]
      | r' => c :: r'
      end
  end.

(** The inner loop over one quantum; [None] is the KeyError. *)
Fixpoint quantum_acc (q : list Z) (acc : Z) : option Z :=
  match q with
  | [] => Some acc
  | c :: r =>
      match b32rev c with
      | Some v => quantum_acc r (Z.shiftl acc 5 + v)
      | None => None
      end
  end.

(** The loop over the quanta: the decoded bytes so far and the last [acc]. *)
Fixpoint decode_quanta (fuel : nat) (s : list Z) (decoded : bytes) (acc : Z)
  : option (bytes * Z) :=
  match fuel, s with
  | S fuel', _ :: _ =>
      match quantum_acc (firstn 8 s) 0 with
      | Some a => decode_quanta fuel' (skipn 8 s) (decoded ++ Hashlib.be_bytes 5 a) a
      | None => None
      end
  | _, _ => Some (decoded, acc)
  end.

Definition valid_padchars (p : nat) : bool :=
  match p with
  | 0 | 1 | 3 | 4 | 6 => true
  | _ => false
  end%nat.

(** [base64.b32decode(s, casefold=True)] for a str argument *)
Definition b32decode_casefold (s : string) : result bytes :=
  if negb (PyStr.isascii s) then Raise ValueError
  else
    let s0 := PyStr.codepoints s in
    if negb (Nat.eqb (List.length s0 mod 8) 0) then Raise BinasciiError
    else
      let s1 := map upper s0 in
      let l := List.length s1 in
      let s2 := rstrip_pad s1 in
      let padchars := (l - List.length s2)%nat in
      match decode_quanta (List.length s2) s2 [] 0 with
      | None => Raise BinasciiError
      | Some (decoded, acc) =>
          if negb (Nat.eqb (l mod 8) 0) || negb (valid_padchars padchars)
          then Raise BinasciiError
          else
            match padchars, decoded with
            | O, _ | _, [] => Ok decoded
            | _, _ =>
                let last := Hashlib.be_bytes 5 (Z.shiftl acc (5 * Z.of_nat padchars)) in
                let leftover := ((43 - 5 * padchars) / 8)%nat in
                Ok (firstn (List.length decoded - 5) decoded ++ firstn leftover last)
            end
      end.

End Base64.

(* ------------------------------------------------------------------ *)
(** ** The platform under the interpreter                               *)
(* ------------------------------------------------------------------ *)

Module Platform.

(** What the program takes from the machine it runs on besides the clock:
    the time zone rules of the C library and the Unicode database. *)
Record t : Type := mk {
  (** seconds east of UTC of local time at a unix time ([localtime]) *)
  utcoffset : Z -> Z;
  (** [time.mktime] on the time tuple of a naive local time: the unix time
      the C library picks for a wall-clock reading, no DST flag given.  For
      a reading that local time takes twice, when clocks are set back, its
      pick follows the conversions the process has made before: the field
      holds the picks of the process at hand *)
  mktime : Z -> Z;
  (** [unicodedata.normalize("NFKC", .)] *)
  normalize_NFKC : list Z -> list Z;
  (** a str of ASCII characters is its own normal form *)
  NFKC_ascii : forall l : list Z, PyStr.ascii_only l = true -> normalize_NFKC l = l
}.

End Platform.

(* ------------------------------------------------------------------ *)
(** ** datetime                                                         *)
(* ------------------------------------------------------------------ *)

Module Datetime.

(** A naive datetime, to the second: the seconds its calendar fields
    count from 1970-01-01 00:00:00 (the microseconds play no part below). *)
Definition datetime : Type := Z.

(** 0001-01-01 00:00:00 and 9999-12-31 23:59:59 *)
Definition MIN : datetime := -62135596800.
Definition MAX : datetime := 253402300799.

(** The first and the last second of the years a C [struct tm] holds. *)
Definition TM_MIN : datetime := -67768040609740800.
Definition TM_MAX : datetime := 67768036191676799.

Definition max_fold_seconds : Z := 24 * 3600.

(** [localtime] followed by the check of the year: OSError when the C
    library cannot express the year, ValueError outside the years 1 to 9999. *)
Definition local (pl : Platform.t) (u : Z) : result datetime :=
  let wall := u + Platform.utcoffset pl u in
  if (wall <? TM_MIN) || (TM_MAX <? wall) then Raise OSError
  else if (wall <? MIN) || (MAX <? wall) then Raise ValueError
  else Ok wall.

(** [datetime.fromtimestamp(t)] for an int [t]: the local time, after the
    probes that look for a repeated hour. *)
Definition fromtimestamp (pl : Platform.t) (t : Z) : result datetime :=
  if (t <? - 2 ^ 63) || (2 ^ 63 <=? t) then Raise OverflowError
  else
    result_seconds <- local pl t ;;
    probe_seconds <- local pl (t - max_fold_seconds) ;;
    let transition := result_seconds - probe_seconds - max_fold_seconds in
    if transition <? 0
    then _ <- local pl (t + transition) ;; Ok result_seconds
    else Ok result_seconds.

(** [datetime.now()] when the clock reads [clock] *)
Definition now (pl : Platform.t) (clock : Z) : result datetime :=
  fromtimestamp pl clock.

(** [time.mktime(d.timetuple())] *)
Definition mktime (pl : Platform.t) (d : datetime) : Z := Platform.mktime pl d.

End Datetime.

(* ------------------------------------------------------------------ *)
(** ** pyotp: OTP.generate_otp, TOTP.now / at / verify                  *)
(* ------------------------------------------------------------------ *)

Module Pyotp.

Record TOTP : Type := mkTOTP {
  secret : string;
  digits : nat;
  interval : Z
}.

(** [pyotp.TOTP(s)]: six digits, SHA-1, thirty seconds. *)
Definition new (s : string) : TOTP :=
  {| secret := s; digits := 6; interval := 30 |}.

(** [OTP.byte_secret]: pad with '=' to a multiple of eight, then decode. *)
Definition byte_secret (t : TOTP) : result bytes :=
  let s := secret t in
  let missing_padding := (String.length s mod 8)%nat in
  let s' := if Nat.eqb missing_padding 0 then s
            else (s ++ PyStr.of_codepoints (repeat Base64.PAD (8 - missing_padding)))%string in
  Base64.b32decode_casefold s'.

Fixpoint itb_loop (fuel : nat) (i : Z) (acc : bytes) : bytes :=
  match fuel with
  | O => acc
  | S f => if i =? 0 then acc else itb_loop f (Z.shiftr i 8) (Z.land i 0xFF :: acc)
  end.

(** [OTP.int_to_bytestring(i, padding=8)]: big-endian, left-padded to 8 bytes *)
Definition int_to_bytestring (i : Z) : bytes :=
  let b := itb_loop (S (Z.to_nat (Z.log2 i))) i [] in
  repeat 0 (8 - List.length b) ++ b.

(** The dynamic truncation of RFC 4226 on the HMAC-SHA1 value. *)
Definition truncate (h : bytes) : Z :=
  let offset := Z.to_nat (Z.land (last h 0) 0xF) in
  Z.lor (Z.shiftl (Z.land (nth offset h 0) 0x7F) 24)
    (Z.lor (Z.shiftl (Z.land (nth (offset + 1) h 0) 0xFF) 16)
       (Z.lor (Z.shiftl (Z.land (nth (offset + 2) h 0) 0xFF) 8)
          (Z.land (nth (offset + 3) h 0) 0xFF))).

(** The passcode for a key and a counter. *)
Definition hotp (digits : nat) (key : bytes) (input : Z) : string :=
  let code := truncate (Hmac.digest Hashlib.sha1 key (int_to_bytestring input)) in
  let str_code := PyStr.str (10000000000 + code mod 10 ^ Z.of_nat digits) in
  PyStr.last_chars digits str_code.

(** [OTP.generate_otp(input)] *)
Definition generate_otp (t : TOTP) (input : Z) : result string :=
  if input <? 0 then Raise ValueError
  else
    key <- byte_secret t ;;
    Ok (hotp (digits t) key input).

(** [TOTP.timecode(for_time)] for a naive [for_time]:
    [int(time.mktime(for_time.timetuple()) / self.interval)], the quotient
    truncated by [int]. *)
Definition timecode (t : TOTP) (pl : Platform.t) (for_time : Datetime.datetime) : Z :=
  Z.quot (Datetime.mktime pl for_time) (interval t).

(** [TOTP.at(for_time, counter_offset)] for a datetime *)
Definition at_ (t : TOTP) (pl : Platform.t) (for_time : Datetime.datetime)
    (counter_offset : Z) : result string :=
  generate_otp t (timecode t pl for_time + counter_offset).

(** [TOTP.now()], the clock reading [clock] *)
Definition now (t : TOTP) (pl : Platform.t) (clock : Z) : result string :=
  for_time <- Datetime.now pl clock ;;
  generate_otp t (timecode t pl for_time).

(** [pyotp.utils.strings_equal(s1, s2)] *)
Definition strings_equal (pl : Platform.t) (s1 s2 : list Z) : result bool :=
  let s1 := Platform.normalize_NFKC pl s1 in
  let s2 := Platform.normalize_NFKC pl s2 in
  b1 <- PyStr.encode_utf8 s1 ;;
  b2 <- PyStr.encode_utf8 s2 ;;
  Ok (Hmac.compare_digest_bytes b1 b2).

(** [range(lo, hi)] *)
Definition range (lo hi : Z) : list Z :=
  map (fun k => lo + Z.of_nat k) (seq 0 (Z.to_nat (hi - lo))).

Fixpoint verify_loop (t : TOTP) (pl : Platform.t) (otp : list Z)
    (for_time : Datetime.datetime) (offsets : list Z) : result bool :=
  match offsets with
  | [] => Ok false
  | i :: rest =>
      code <- at_ t pl for_time i ;;
      same <- strings_equal pl otp (PyStr.codepoints code) ;;
      if same then Ok true
      else verify_loop t pl otp for_time rest
  end.

(** [TOTP.verify(otp, for_time=None, valid_window)]: [for_time] is
    [datetime.now()], the clock reading [clock]. *)
Definition verify (t : TOTP) (pl : Platform.t) (otp : list Z) (clock : Z)
    (valid_window : Z) : result bool :=
  for_time <- Datetime.now pl clock ;;
  if negb (valid_window =? 0)
  then verify_loop t pl otp for_time (range (- valid_window) (valid_window + 1))
  else
    code <- at_ t pl for_time 0 ;;
    strings_equal pl otp (PyStr.codepoints code).

End Pyotp.

(* ------------------------------------------------------------------ *)
(** ** app/core/config.py                                               *)
(* ------------------------------------------------------------------ *)

Module Config.

Record Settings : Type := mkSettings {
  API_KEY : string;
  OTP_SECRET : string;
  HOST : string;
  PORT : Z;
  ENABLE_DOCS : bool
}.

(** The process environment, once [load_dotenv()] has run. *)
Definition environ : Type := string -> option string.

(** [os.getenv(name, default)] *)
Definition getenv (env : environ) (name default : string) : string :=
  match env name with
  | Some v => v
  | None => default
  end.

(** What a start-up call does: the lines printed, then a value or an
    exception ([sys.exit(1)] raises [SystemExit 1]). *)
Definition startup (A : Type) : Type := (list string * result A)%type.

Definition dquote : string := String (ascii_of_nat 34) EmptyString.

Definition MSG_MISSING (missing : list string) : string :=
  ("[FATAL] Missing required environment variables: " ++ String.concat ", " missing
   ++ ". Set them in your .env file and restart.")%string.

Definition MSG_BASE32 : string :=
  ("[FATAL] OTP_SECRET is not a valid base32-encoded TOTP secret. "
   ++ "Generate one with: python -c " ++ dquote
   ++ "import pyotp; print(pyotp.random_base32())" ++ dquote)%string.

(** [not s] for a str *)
Definition is_empty (s : string) : bool :=
  match s with
  | EmptyString => true
  | String _ _ => false
  end.

(** [Settings._validate(self)]; [clock] is the reading [totp.now()] takes. *)
Definition _validate (self : Settings) (pl : Platform.t) (clock : Z) : startup unit :=
  let missing :=
    (if is_empty (API_KEY self) then ["API_KEY"%string] else [])
    ++ (if is_empty (OTP_SECRET self) then ["OTP_SECRET"%string] else []) in
  match missing with
  | _ :: _ => ([MSG_MISSING missing], Raise (SystemExit 1))
  | [] =>
      let totp := Pyotp.new (OTP_SECRET self) in
      match Pyotp.now totp pl clock with
      | Ok _ => ([], Ok tt)
      | Raise _ => ([MSG_BASE32], Raise (SystemExit 1))
      end
  end.

(** [str.lower()], as far as the comparison with "true" can tell. *)
Definition lower_char (c : ascii) : ascii :=
  let n := PyStr.ord c in
  if (65 <=? n) && (n <=? 90) then PyStr.chr (n + 32) else c.

Fixpoint lower (s : string) : string :=
  match s with
  | EmptyString => EmptyString
  | String c r => String (lower_char c) (lower r)
  end.

(** [Settings.__init__(self)], and so the module-level [settings = Settings()]. *)
Definition Settings_init (env : environ) (pl : Platform.t) (clock : Z) : startup Settings :=
  match PyStr.int (getenv env "PORT" "8000") with
  | None => ([], Raise ValueError)
  | Some port =>
      let self :=
        {| API_KEY := getenv env "API_KEY" "";
           OTP_SECRET := getenv env "OTP_SECRET" "";
           HOST := getenv env "HOST" "0.0.0.0";
           PORT := port;
           ENABLE_DOCS := String.eqb (lower (getenv env "ENABLE_DOCS" "false")) "true" |} in
      match _validate self pl clock with
      | (out, Ok _) => (out, Ok self)
      | (out, Raise e) => (out, Raise e)
      end
  end.

End Config.

(* ------------------------------------------------------------------ *)
(** ** app/core/totp.py                                                 *)
(* ------------------------------------------------------------------ *)

Module Totp.

Import Config.

Definition _totp (settings : Settings) : Pyotp.TOTP :=
  Pyotp.new (OTP_SECRET settings).

(** The dict that [get_otp] returns. *)
Record otp_dict : Type := mkOtp {
  otp : string;
  valid_for_seconds : Z;
  timestamp : Z
}.

(** [get_otp()].  The function reads the clock twice: [totp.now()] takes
    [clock_totp], then [int(time.time())] is [clock_time]. *)
Definition get_otp (pl : Platform.t) (settings : Settings) (clock_totp clock_time : Z)
  : result otp_dict :=
  let totp := _totp settings in
  code <- Pyotp.now totp pl clock_totp ;;
  let now := clock_time in
  let valid_for_seconds := 30 - now mod 30 in
  Ok {| otp := code; valid_for_seconds := valid_for_seconds; timestamp := now |}.

(** [verify_otp(code)] for a str [code], given by its code points;
    [clock] is the reading [totp.verify] takes. *)
Definition verify_otp (pl : Platform.t) (settings : Settings) (code : list Z) (clock : Z)
  : result bool :=
  let totp := _totp settings in
  Pyotp.verify totp pl code clock 1.

End Totp.

(* ------------------------------------------------------------------ *)
(** ** app/middleware/auth.py                                           *)
(* ------------------------------------------------------------------ *)

Module Auth.

Import Config.

(** The library primitives a dependency calls, in the order of the calls. *)
Inductive event : Type :=
| TimeTime
| HmacNew (key msg : bytes)
| CompareDigest (a b : string).

Definition M (A : Type) : Type := (list event * result A)%type.

Definition ret {A} (a : A) : M A := ([], Ok a).
Definition raise {A} (e : exn) : M A := ([], Raise e).
Definition bind {A B} (m : M A) (k : A -> M B) : M B :=
  match m with
  | (tr, Ok a) => let '(tr', r) := k a in (tr ++ tr', r)
  | (tr, Raise e) => (tr, Raise e)
  end.

Notation "x <~ m ;; k" := (bind m (fun x => k))
  (at level 61, m at next level, right associativity).

Definition trace {A} (m : M A) : list event := fst m.
Definition outcome {A} (m : M A) : result A := snd m.

(** [int(time.time())], the clock reading [clock] *)
Definition time_time (clock : Z) : M Z := ([TimeTime], Ok clock).

(** [hmac.compare_digest(a, b)] *)
Definition compare_digest (a b : string) : M bool :=
  ([CompareDigest a b], Hmac.compare_digest_str a b).

(** [hmac.new(key, msg, hashlib.sha256).hexdigest()] *)
Definition hmac_new_sha256_hexdigest (key msg : bytes) : M string :=
  ([HmacNew key msg], Ok (Hmac.hexdigest Hashlib.sha256 key msg)).

Definition SIGNATURE_MAX_AGE_SECONDS : Z := 30.

(** [require_api_key(x_api_key)]; [None] is the absent header. *)
Definition require_api_key (settings : Settings) (x_api_key : option string) : M string :=
  match x_api_key with
  | None => raise (HTTPException 401 "X-API-Key header is required")
  | Some x_api_key =>
      same <~ compare_digest x_api_key (API_KEY settings) ;;
      if negb same then raise (HTTPException 403 "Invalid API key")
      else ret x_api_key
  end.

(** [require_hmac_signature(api_key, x_timestamp, x_signature)], [api_key]
    being what [require_api_key] returned. *)
Definition require_hmac_signature
    (api_key : string) (x_timestamp x_signature : option string) (clock : Z) : M unit :=
  match x_timestamp with
  | None => raise (HTTPException 401 "X-Timestamp header is required")
  | Some x_timestamp =>
  match x_signature with
  | None => raise (HTTPException 401 "X-Signature header is required")
  | Some x_signature =>
  match PyStr.int x_timestamp with
  | None => raise (HTTPException 400 "X-Timestamp must be a unix integer")
  | Some request_time =>
      now <~ time_time clock ;;
      let age := Z.abs (now - request_time) in
      if age >? SIGNATURE_MAX_AGE_SECONDS
      then raise (HTTPException 401 "Request timestamp is expired")
      else
        expected <~ hmac_new_sha256_hexdigest (PyStr.encode api_key) (PyStr.encode x_timestamp) ;;
        same <~ compare_digest x_signature expected ;;
        if negb same then raise (HTTPException 403 "Invalid request signature")
        else ret tt
  end end end.

(** [Depends(require_hmac_signature)]: the framework first resolves the
    sub-dependency [Depends(require_api_key)] and hands its value over. *)
Definition depends_hmac_signature
    (settings : Settings) (x_api_key x_timestamp x_signature : option string) (clock : Z)
  : M unit :=
  api_key <~ require_api_key settings x_api_key ;;
  require_hmac_signature api_key x_timestamp x_signature clock.

(** The status of the response when a dependency raised: an HTTPException
    carries its own, anything else reaches the handler of [app/main.py]. *)
Definition status_of (e : exn) : Z :=
  match e with
  | HTTPException status_code _ => status_code
  | _ => 500
  end.

End Auth.

(* ------------------------------------------------------------------ *)
(** ** Vocabulary of the specification                                  *)
(* ------------------------------------------------------------------ *)

Module Spec.

(** A passcode: a string of exactly six decimal digits. *)
Definition is_passcode (s : string) : bool :=
  Nat.eqb (String.length s) 6 && forallb PyStr.is_digit (PyStr.codepoints s).

(** A character of the base32 alphabet A-Z, 2-7. *)
Definition b32_defined (c : Z) : bool :=
  match Base64.b32rev c with
  | Some _ => true
  | None => false
  end.

(** A character of the base32 alphabet, in either case. *)
Definition b32_char (c : Z) : bool := b32_defined (Base64.upper c).

(** Base32 text as the service accepts it: [n] characters of the alphabet
    with [n mod 8] one of 0, 2, 4, 5, 7 (the lengths an encoder produces),
    followed by '=' signs, no more of them than complete the last group of
    eight. *)
Definition valid_base32 (s : string) : bool :=
  let cs := PyStr.codepoints s in
  let data := Base64.rstrip_pad cs in
  let n := List.length data in
  let pads := (List.length cs - n)%nat in
  forallb b32_char data
  && existsb (Nat.eqb (n mod 8)) [0; 2; 4; 5; 7]%nat
  && (pads <=? (8 - n mod 8) mod 8)%nat.

(** The time-step of a unix time. *)
Definition time_step (unix_time : Z) : Z := unix_time / 30.

(** The unix time [pyotp] counts time-steps from at a clock reading: the
    local time of [datetime.now()], mapped back by [time.mktime]. *)
Definition totp_time (pl : Platform.t) (clock : Z) : result Z :=
  for_time <- Datetime.now pl clock ;;
  Ok (Datetime.mktime pl for_time).

(** A clock reading that comes back from local time: [time.mktime] maps
    the local time of [datetime.now()] to the reading itself.  It does
    whenever local time takes its wall-clock reading once; of two instants
    with one wall-clock reading, an hour apart when clocks are set back,
    one at most comes back. *)
Definition round_trip (pl : Platform.t) (clock : Z) : Prop :=
  totp_time pl clock = Ok clock.

(** A str and a code with one NFKC normal form (compared, as pyotp does,
    through its UTF-8 bytes). *)
Definition same_normal_form (pl : Platform.t) (s : list Z) (code : string) : Prop :=
  PyStr.utf8 (Platform.normalize_NFKC pl s)
  = PyStr.utf8 (Platform.normalize_NFKC pl (PyStr.codepoints code)).

(** The same, decided. *)
Definition same_normal_formb (pl : Platform.t) (s : list Z) (code : string) : bool :=
  Hmac.bytes_eqb (PyStr.utf8 (Platform.normalize_NFKC pl s))
    (PyStr.utf8 (Platform.normalize_NFKC pl (PyStr.codepoints code))).

(** A str whose normal form holds a lone surrogate. *)
Definition has_surrogate (pl : Platform.t) (s : list Z) : bool :=
  existsb PyStr.is_surrogate (Platform.normalize_NFKC pl s).

(** A str of exactly six decimal digits, given by its code points. *)
Definition six_digits (s : list Z) : bool :=
  Nat.eqb (List.length s) 6 && forallb PyStr.is_digit s.

(** The rejections of section 4.2. *)
Definition EXPIRED : exn := HTTPException 401 "Request timestamp is expired".
Definition INVALID_SIGNATURE : exn := HTTPException 403 "Invalid request signature".
Definition INVALID_API_KEY : exn := HTTPException 403 "Invalid API key".

(** The HMAC-SHA256 hex digest keyed by the API key, over the timestamp
    header as the client sent it. *)
Definition expected_signature (api_key x_timestamp : string) : string :=
  Hmac.hexdigest Hashlib.sha256 (PyStr.encode api_key) (PyStr.encode x_timestamp).

End Spec.

(* ------------------------------------------------------------------ *)
(** ** Concrete inputs used below                                       *)
(* ------------------------------------------------------------------ *)

Module Sample.

(** A configuration with the secret of pyotp's documentation, the
    base32 text of the bytes "Hello!" DE AD BE EF. *)
Definition settings : Config.Settings :=
  {| Config.API_KEY := "k1";
     Config.OTP_SECRET := "JBSWY3DPEHPK3PXP";
     Config.HOST := "0.0.0.0";
     Config.PORT := 8000;
     Config.ENABLE_DOCS := false |}.

Definition key : bytes := [72; 101; 108; 108; 111; 33; 222; 173; 190; 239].

(** 2024-01-29 18:30:00 UTC, the first second of time-step 56885100. *)
Definition clock : Z := 1706553000.

(** A header value holding the two bytes C3 A9 (the UTF-8 form of
    e-acute), as the framework hands it over: two code points above 127. *)
Definition non_ascii : string := PyStr.of_codepoints [195; 169].

(** Superscript two (U+00B2) followed by "56847". *)
Definition superscript_candidate : list Z := [178; 53; 54; 56; 52; 55].

(** [unicodedata.normalize("NFKC", .)] on the code points the examples
    use: the compatibility decompositions of the Latin-1 block and of the
    full-width digits (U+FF10 to U+FF19); any other code point of the
    examples is its own normal form, and none combines with a neighbour. *)
Definition nfkc_char (c : Z) : list Z :=
  if c <? 0x80 then [c]
  else if (0xFF10 <=? c) && (c <=? 0xFF19) then [c - 0xFF10 + 0x30]
  else
    match c with
    | 0xA0 => [0x20]
    | 0xA8 => [0x20; 0x308]
    | 0xAA => [0x61]
    | 0xAF => [0x20; 0x304]
    | 0xB2 => [0x32]
    | 0xB3 => [0x33]
    | 0xB4 => [0x20; 0x301]
    | 0xB5 => [0x3BC]
    | 0xB8 => [0x20; 0x327]
    | 0xB9 => [0x31]
    | 0xBA => [0x6F]
    | 0xBC => [0x31; 0x2044; 0x34]
    | 0xBD => [0x31; 0x2044; 0x32]
    | 0xBE => [0x33; 0x2044; 0x34]
    | _ => [c]
    end.

Definition normalize_NFKC (s : list Z) : list Z := flat_map nfkc_char s.

Definition normalize_NFKC_ascii (l : list Z) :
  PyStr.ascii_only l = true -> normalize_NFKC l = l.
Proof.
  unfold PyStr.ascii_only, normalize_NFKC.
  induction l as [|c r IH]; cbn [forallb flat_map]; [reflexivity|].
  intros H. apply andb_true_iff in H as [Hc Hr].
  apply andb_true_iff in Hc as [_ Hc].
  unfold nfkc_char at 1. rewrite Hc. cbn [app]. f_equal. now apply IH.
Qed.

(** A machine on UTC. *)
Definition utc : Platform.t :=
  {| Platform.utcoffset := fun _ => 0;
     Platform.mktime := fun d => d;
     Platform.normalize_NFKC := normalize_NFKC;
     Platform.NFKC_ascii := normalize_NFKC_ascii |}.

(** A machine on the time of Paris, with the rules in force from
    2024-03-31 to 2025-03-30: UTC+2 until unix time 1729990800 (03:00 on
    2024-10-27, when clocks go back to 02:00), UTC+1 from then on.  Of the
    two instants that share a wall-clock reading of the repeated hour,
    [mktime] picks the earlier one: so does glibc in a process whose
    previous conversion was of a summer time, such as a service started
    before the change (it calls [totp.now()] when it starts). *)
Definition europe_paris : Platform.t :=
  {| Platform.utcoffset := fun u => if u <? 1729990800 then 7200 else 3600;
     Platform.mktime := fun d => if d <? 1729990800 + 7200 then d - 7200 else d - 3600;
     Platform.normalize_NFKC := normalize_NFKC;
     Platform.NFKC_ascii := normalize_NFKC_ascii |}.

(** The same machine, for a process started during the repeated hour or
    after it: with no conversion of a summer time behind it, glibc picks the
    later of the two instants. *)
Definition europe_paris_restarted : Platform.t :=
  {| Platform.utcoffset := fun u => if u <? 1729990800 then 7200 else 3600;
     Platform.mktime := fun d => if d <? 1729987200 + 7200 then d - 7200 else d - 3600;
     Platform.normalize_NFKC := normalize_NFKC;
     Platform.NFKC_ascii := normalize_NFKC_ascii |}.

(** Full-width "256847" (U+FF12 U+FF15 ...). *)
Definition fullwidth_candidate : list Z := [0xFF12; 0xFF15; 0xFF16; 0xFF18; 0xFF14; 0xFF17].

(** "256" followed by a lone surrogate, U+D800. *)
Definition surrogate_candidate : list Z := [50; 53; 54; 0xD800].

Definition environ (api_key otp_secret : option string) : Config.environ :=
  fun name =>
    if String.eqb name "API_KEY" then api_key
    else if String.eqb name "OTP_SECRET" then otp_secret
    else None.

End Sample.

(* ------------------------------------------------------------------ *)
(** ** totp_a360.py                                                     *)
(* ------------------------------------------------------------------ *)

Module Totp_a360.

(** [str.isspace()] on one code point below 256 *)
Definition isspace (c : Z) : bool :=
  ((9 <=? c) && (c <=? 13)) || ((28 <=? c) && (c <=? 32)) || (c =? 0x85) || (c =? 0xA0).

Fixpoint lstrip (l : list Z) : list Z :=
  match l with
  | c :: r => if isspace c then lstrip r else l
  | [] => []
  end.

(** [s.strip()] *)
Definition strip (s : string) : string :=
  PyStr.of_codepoints (rev (lstrip (rev (lstrip (PyStr.codepoints s))))).

(** [s.replace(" ", "")] *)
Definition remove_spaces (s : string) : string :=
  PyStr.of_codepoints (filter (fun c => negb (c =? 32)) (PyStr.codepoints s)).

(** [get_totp(secret_key)]; [clock] is the reading [totp.now()] takes. *)
Definition get_totp (pl : Platform.t) (secret_key : string) (clock : Z) : result string :=
  let secret := remove_spaces (strip secret_key) in
  let totp := Pyotp.new secret in
  Pyotp.now totp pl clock.

End Totp_a360.

(* ------------------------------------------------------------------ *)
(** ** app/main.py                                                      *)
(* ------------------------------------------------------------------ *)

Module Main.

(** JSON values and objects, as far as the responses use them. *)
Inductive jvalue : Type :=
| JStr (s : string)
| JInt (n : Z)
| JBool (b : bool).

Definition dict : Type := list (string * jvalue).

Record JSONResponse : Type := mkResponse {
  status_code : Z;
  content : dict
}.

(** The arguments [create_app] passes to [FastAPI(...)] that depend on the
    settings. *)
Record FastAPI : Type := mkApp {
  docs_url : option string;
  redoc_url : option string;
  openapi_url : option string
}.

(** [create_app()] *)
Definition create_app (settings : Config.Settings) : FastAPI :=
  {| docs_url := if Config.ENABLE_DOCS settings then Some "/docs"%string else None;
     redoc_url := if Config.ENABLE_DOCS settings then Some "/redoc"%string else None;
     openapi_url :=
       if Config.ENABLE_DOCS settings then Some "/openapi.json"%string else None |}.

(** [unhandled_exception_handler(request, exc)] *)
Definition unhandled_exception_handler (exc : exn) : JSONResponse :=
  {| status_code := 500;
     content := [("error"%string, JStr "Internal server error")] |}.

(** What the application answers when a dependency or an endpoint has
    returned or raised: the framework serialises a returned dict with status
    200 and an HTTPException with its own status and detail; any other
    exception goes to [unhandled_exception_handler]. *)
Definition respond (r : result dict) : JSONResponse :=
  match r with
  | Ok d => {| status_code := 200; content := d |}
  | Raise (HTTPException status detail) =>
      {| status_code := status; content := [("detail"%string, JStr detail)] |}
  | Raise e => unhandled_exception_handler e
  end.

End Main.

(* ------------------------------------------------------------------ *)
(** ** app/routes/otp.py                                                *)
(* ------------------------------------------------------------------ *)

Module Routes.

Import Main.

(** [VerifyRequest]: the field [otp] is a str, given by its code points. *)
Record VerifyRequest : Type := mkVerifyRequest { otp : list Z }.

(** The dict of [totp_core.get_otp()] as a JSON object. *)
Definition otp_json (d : Totp.otp_dict) : dict :=
  [("otp"%string, JStr (Totp.otp d));
   ("valid_for_seconds"%string, JInt (Totp.valid_for_seconds d));
   ("timestamp"%string, JInt (Totp.timestamp d))].

(** [health_check()] *)
Definition health_check (clock : Z) : result dict :=
  Ok [("status"%string, JStr "ok"); ("timestamp"%string, JInt clock)].

(** [get_otp()] *)
Definition get_otp (pl : Platform.t) (settings : Config.Settings)
    (clock_totp clock_time : Z) : result dict :=
  d <- Totp.get_otp pl settings clock_totp clock_time ;;
  Ok (otp_json d).

(** [verify_otp(body)]; [clock_verify] is read by [totp.verify], then
    [clock_time] by [int(time.time())]. *)
Definition verify_otp (pl : Platform.t) (settings : Config.Settings) (body : VerifyRequest)
    (clock_verify clock_time : Z) : result dict :=
  valid <- Totp.verify_otp pl settings (otp body) clock_verify ;;
  Ok [("valid"%string, JBool valid); ("timestamp"%string, JInt clock_time)].

(** [get_otp_secure()] *)
Definition get_otp_secure (pl : Platform.t) (settings : Config.Settings)
    (clock_totp clock_time : Z) : result dict :=
  d <- Totp.get_otp pl settings clock_totp clock_time ;;
  Ok (otp_json d).

(** An endpoint behind [dependencies=[Depends(dep)]]: the dependency runs
    first and the endpoint only when it has returned. *)
Definition behind {A : Type} (dep : Auth.M A) (endpoint : result dict) : result dict :=
  match Auth.outcome dep with
  | Ok _ => endpoint
  | Raise e => Raise e
  end.

(** GET /health *)
Definition GET_health (clock : Z) : JSONResponse := respond (health_check clock).

(** GET /otp *)
Definition GET_otp (pl : Platform.t) (settings : Config.Settings)
    (x_api_key : option string) (clock_totp clock_time : Z) : JSONResponse :=
  respond (behind (Auth.require_api_key settings x_api_key)
             (get_otp pl settings clock_totp clock_time)).

(** POST /otp/verify, the body being a well-formed [VerifyRequest] *)
Definition POST_otp_verify (pl : Platform.t) (settings : Config.Settings)
    (x_api_key : option string) (body : VerifyRequest) (clock_verify clock_time : Z)
  : JSONResponse :=
  respond (behind (Auth.require_api_key settings x_api_key)
             (verify_otp pl settings body clock_verify clock_time)).

(** GET /otp/secure; [clock_auth] is read by the signature check. *)
Definition GET_otp_secure (pl : Platform.t) (settings : Config.Settings)
    (x_api_key x_timestamp x_signature : option string)
    (clock_auth clock_totp clock_time : Z) : JSONResponse :=
  respond (behind (Auth.depends_hmac_signature settings x_api_key x_timestamp x_signature
                     clock_auth)
             (get_otp_secure pl settings clock_totp clock_time)).

End Routes.

(* ------------------------------------------------------------------ *)
(** ** Further vocabulary                                               *)
(* ------------------------------------------------------------------ *)

Module Shape.

(** A lower-case hexadecimal digit. *)
Definition is_lower_hex (c : Z) : bool :=
  ((48 <=? c) && (c <=? 57)) || ((97 <=? c) && (c <=? 102)).

(** A hex digest of 32 bytes: 64 lower-case hexadecimal digits. *)
Definition is_sha256_hex (s : string) : bool :=
  Nat.eqb (String.length s) 64 && forallb is_lower_hex (PyStr.codepoints s).

(** The four letters of "true", each in either case. *)
Definition spells_true (s : string) : Prop :=
  exists c1 c2 c3 c4 : ascii,
    s = String c1 (String c2 (String c3 (String c4 EmptyString)))
    /\ (c1 = "t" \/ c1 = "T")%char /\ (c2 = "r" \/ c2 = "R")%char
    /\ (c3 = "u" \/ c3 = "U")%char /\ (c4 = "e" \/ c4 = "E")%char.

(** The characters [s.replace(" ", "")] keeps. *)
Definition keep (c : Z) : bool := negb (c =? 32).

(** [str.lower()] on one code point, as [Config.lower_char] has it. *)
Definition lower_code (c : Z) : Z := if (65 <=? c) && (c <=? 90) then c + 32 else c.

(** A configuration that differs from [s] in the secret only. *)
Definition with_secret (s : Config.Settings) (secret : string) : Config.Settings :=
  {| Config.API_KEY := Config.API_KEY s;
     Config.OTP_SECRET := secret;
     Config.HOST := Config.HOST s;
     Config.PORT := Config.PORT s;
     Config.ENABLE_DOCS := Config.ENABLE_DOCS s |}.

End Shape.

(* ================================================================== *)
(** * Test vectors                                                      *)
(* ================================================================== *)

Example sha1_abc :
  PyStr.hex (Hashlib.sha1 (PyStr.encode "abc")) = "a9993e364706816aba3e25717850c26c9cd0d89d"%string.
Proof. vm_compute. reflexivity. Qed.

Example sha256_constants :
  firstn 2 Hashlib.sha256_K = [0x428a2f98; 0x71374491]
  /\ last Hashlib.sha256_K 0 = 0xc67178f2
  /\ List.length Hashlib.sha256_K = 64%nat
  /\ firstn 2 Hashlib.sha256_init = [0x6a09e667; 0xbb67ae85].
Proof. vm_compute. repeat split; reflexivity. Qed.

Example sha256_abc :
  PyStr.hex (Hashlib.sha256 (PyStr.encode "abc"))
  = "ba7816bf8f01cfea414140de5dae2223b00361a396177a9cb410ff61f20015ad"%string.
Proof. vm_compute. reflexivity. Qed.

Example hmac_sha256_k1 :
  Hmac.hexdigest Hashlib.sha256 (PyStr.encode "k1") (PyStr.encode "1700000000")
  = "a56caf8668ee5e3099710111777aab5278caa63d6725568d4ea4562dc7c3316f"%string.
Proof. vm_compute. reflexivity. Qed.

Example int_examples :
  PyStr.int " +1_2 " = Some 12 /\ PyStr.int "1__0" = None /\ PyStr.int "-0" = Some 0
  /\ PyStr.int "" = None /\ PyStr.int "+" = None /\ PyStr.int "1 2" = None
  /\ PyStr.int "1700000000" = Some 1700000000 /\ PyStr.int "_1" = None
  /\ PyStr.int "1_" = None /\ PyStr.int "0x10" = None.
Proof. vm_compute. repeat split; reflexivity. Qed.

Example str_examples :
  PyStr.str 0 = "0"%string /\ PyStr.str 10000123456 = "10000123456"%string
  /\ PyStr.str (-45) = "-45"%string /\ PyStr.last_chars 6 (PyStr.str 10000123456) = "123456"%string.
Proof. vm_compute. repeat split; reflexivity. Qed.

Example b32_hello :
  Base64.b32decode_casefold "JBSWY3DPEHPK3PXP" = Ok [72; 101; 108; 108; 111; 33; 222; 173; 190; 239].
Proof. vm_compute. reflexivity. Qed.

Example b32_padded :
  Pyotp.byte_secret (Pyotp.new "me") = Ok [97]
  /\ Pyotp.byte_secret (Pyotp.new "MFRGG") = Ok [97; 98; 99]
  /\ Pyotp.byte_secret (Pyotp.new "MFRGGZA=") = Ok [97; 98; 99; 100]
  /\ Pyotp.byte_secret (Pyotp.new "A") = Raise BinasciiError
  /\ Pyotp.byte_secret (Pyotp.new "JBSW Y3DP") = Raise BinasciiError
  /\ Pyotp.byte_secret (Pyotp.new "MFRGGZA==") = Raise BinasciiError
  /\ Pyotp.byte_secret (Pyotp.new "M=======") = Raise BinasciiError.
Proof. vm_compute. repeat split; reflexivity. Qed.

(** RFC 4226, appendix D, and RFC 6238, appendix B (SHA-1, last six digits). *)
Example rfc_vectors :
  let key := PyStr.encode "12345678901234567890" in
  Pyotp.hotp 6 key 0 = "755224"%string /\ Pyotp.hotp 6 key 1 = "287082"%string
  /\ Pyotp.hotp 6 key 9 = "520489"%string
  /\ Pyotp.hotp 6 key (1111111109 / 30) = "081804"%string
  /\ Pyotp.hotp 6 key (20000000000 / 30) = "353130"%string.
Proof. vm_compute. repeat split; reflexivity. Qed.

(** [datetime.fromtimestamp] at the edges of its domain, on UTC. *)
Example fromtimestamp_utc :
  Datetime.fromtimestamp Sample.utc 253402300799 = Ok 253402300799
  /\ Datetime.fromtimestamp Sample.utc 253402300800 = Raise ValueError
  /\ Datetime.fromtimestamp Sample.utc (-62135510400) = Ok (-62135510400)
  /\ Datetime.fromtimestamp Sample.utc (-62135510401) = Raise ValueError
  /\ Datetime.fromtimestamp Sample.utc 67768036191676799 = Raise ValueError
  /\ Datetime.fromtimestamp Sample.utc 67768036191676800 = Raise OSError
  /\ Datetime.fromtimestamp Sample.utc (-67768040609740801) = Raise OSError
  /\ Datetime.fromtimestamp Sample.utc (2 ^ 63 - 1) = Raise OSError
  /\ Datetime.fromtimestamp Sample.utc (2 ^ 63) = Raise OverflowError
  /\ Datetime.fromtimestamp Sample.utc (- 2 ^ 63 - 1) = Raise OverflowError.
Proof. vm_compute. repeat split; reflexivity. Qed.

(** The unix time [pyotp] works with on the time of Paris, around the
    return to winter time of 2024-10-27: in a process that has run since
    before it, an hour less than the clock during the hour that local time
    repeats; in a process started later, an hour more than the clock during
    the hour that local time is to repeat. *)
Example totp_time_europe_paris :
  Spec.totp_time Sample.europe_paris 1706553000 = Ok 1706553000
  /\ Spec.totp_time Sample.europe_paris 1729987200 = Ok 1729987200
  /\ Spec.totp_time Sample.europe_paris 1729990799 = Ok 1729990799
  /\ Spec.totp_time Sample.europe_paris 1729990800 = Ok (1729990800 - 3600)
  /\ Spec.totp_time Sample.europe_paris 1729992600 = Ok (1729992600 - 3600)
  /\ Spec.totp_time Sample.europe_paris 1729994399 = Ok (1729994399 - 3600)
  /\ Spec.totp_time Sample.europe_paris 1729994400 = Ok 1729994400
  /\ Spec.totp_time Sample.europe_paris_restarted 1729987199 = Ok 1729987199
  /\ Spec.totp_time Sample.europe_paris_restarted 1729987200 = Ok (1729987200 + 3600)
  /\ Spec.totp_time Sample.europe_paris_restarted 1729990799 = Ok (1729990799 + 3600)
  /\ Spec.totp_time Sample.europe_paris_restarted 1729990800 = Ok 1729990800
  /\ Spec.totp_time Sample.europe_paris_restarted 1729992600 = Ok 1729992600.
Proof. vm_compute. repeat split; reflexivity. Qed.

(** NFKC on the examples, and the encoder on a lone surrogate. *)
Example normalize_examples :
  Sample.normalize_NFKC Sample.superscript_candidate = PyStr.codepoints "256847"
  /\ Sample.normalize_NFKC Sample.fullwidth_candidate = PyStr.codepoints "256847"
  /\ Sample.normalize_NFKC Sample.surrogate_candidate = Sample.surrogate_candidate
  /\ PyStr.encode_utf8 Sample.surrogate_candidate = Raise UnicodeEncodeError
  /\ PyStr.encode_utf8 [0xE9; 0x20AC] = Ok [0xC3; 0xA9; 0xE2; 0x82; 0xAC].
Proof. vm_compute. repeat split; reflexivity. Qed.

(* ================================================================== *)
(** * Lemmas on the Python primitives                                   *)
(* ================================================================== *)

Section StrLemmas.

Import PyStr.

Lemma ord_range (a : ascii) : 0 <= ord a < 256.
Proof.
  unfold ord. pose proof (N_ascii_bounded a). lia.
Qed.

Lemma ord_chr (z : Z) : 0 <= z < 256 -> ord (chr z) = z.
Proof.
  intros Hz. unfold ord, chr.
  rewrite N_ascii_embedding by lia. lia.
Qed.

Lemma chr_ord (a : ascii) : chr (ord a) = a.
Proof.
  unfold ord, chr. rewrite N2Z.id. apply ascii_N_embedding.
Qed.

Lemma codepoints_inj (s1 s2 : string) : codepoints s1 = codepoints s2 -> s1 = s2.
Proof.
  revert s2. induction s1 as [|a r IH]; intros [|b r'] H; simpl in H;
    try discriminate; [reflexivity|].
  injection H as Hab Hr.
  rewrite <- (chr_ord a), <- (chr_ord b), Hab. f_equal. now apply IH.
Qed.

Lemma codepoints_length (s : string) : List.length (codepoints s) = String.length s.
Proof. induction s; simpl; congruence. Qed.

Lemma codepoints_append (s1 s2 : string) :
  codepoints (s1 ++ s2) = codepoints s1 ++ codepoints s2.
Proof. induction s1; simpl; congruence. Qed.

Lemma codepoints_of_codepoints (l : list Z) :
  Forall (fun c => 0 <= c < 256) l -> codepoints (of_codepoints l) = l.
Proof.
  induction 1 as [|c r Hc _ IH]; simpl; [reflexivity|].
  now rewrite ord_chr, IH.
Qed.

Lemma utf8_ascii (l : list Z) :
  forallb (fun c => c <? 128) l = true -> utf8 l = l.
Proof.
  induction l as [|c r IH]; simpl; [reflexivity|].
  intros H. apply andb_true_iff in H as [Hc Hr].
  unfold utf8_char. replace (c <? 0x80) with true by (symmetry; exact Hc).
  simpl. f_equal. now apply IH.
Qed.

(** Digits are ASCII. *)
Lemma digits_ascii (l : list Z) :
  forallb is_digit l = true -> forallb (fun c => c <? 128) l = true.
Proof.
  induction l as [|c r IH]; simpl; [reflexivity|].
  intros H. apply andb_true_iff in H as [Hc Hr].
  rewrite IH by assumption. unfold is_digit in Hc.
  apply andb_true_iff in Hc as [_ Hc]. apply andb_true_iff. split; [|reflexivity].
  apply Z.ltb_lt. apply Z.leb_le in Hc. lia.
Qed.

(** *** [str] on a non-negative integer *)

Lemma str_digits_length (k : nat) :
  forall (fuel : nat) (n : Z) (acc : string),
    10 ^ Z.of_nat k <= n < 10 ^ Z.of_nat (S k) -> (k < fuel)%nat ->
    String.length (str_digits fuel n acc) = (S k + String.length acc)%nat.
Proof.
  induction k as [|k IH]; intros fuel n acc Hn Hf;
    (destruct fuel as [|fuel]; [lia|]); simpl str_digits.
  - change (10 ^ Z.of_nat 0) with 1 in Hn. change (10 ^ Z.of_nat 1) with 10 in Hn.
    replace (n / 10) with 0 by (symmetry; apply Z.div_small; lia).
    reflexivity.
  - assert (Hq : 10 ^ Z.of_nat k <= n / 10 < 10 ^ Z.of_nat (S k)).
    { rewrite !Nat2Z.inj_succ, !Z.pow_succ_r in Hn by lia.
      rewrite Nat2Z.inj_succ, Z.pow_succ_r by lia.
      split.
      - apply Z.div_le_lower_bound; lia.
      - apply Z.div_lt_upper_bound; lia. }
    assert (Hpos : 0 < 10 ^ Z.of_nat k) by (apply Z.pow_pos_nonneg; lia).
    destruct (Z.eqb_spec (n / 10) 0) as [E|_]; [lia|].
    rewrite IH by (try assumption; lia). simpl. lia.
Qed.

Lemma str_digits_digits (fuel : nat) :
  forall (n : Z) (acc : string),
    0 <= n -> forallb is_digit (codepoints acc) = true ->
    forallb is_digit (codepoints (str_digits fuel n acc)) = true.
Proof.
  induction fuel as [|fuel IH]; intros n acc Hn Hacc; simpl str_digits; [assumption|].
  assert (Hd : forallb is_digit (codepoints (String (chr (48 + n mod 10)) acc)) = true).
  { cbn [codepoints forallb]. rewrite Hacc, andb_true_r.
    pose proof (Z.mod_pos_bound n 10 ltac:(lia)) as Hm.
    rewrite ord_chr by lia. unfold is_digit.
    apply andb_true_iff; split; apply Z.leb_le; lia. }
  destruct (n / 10 =? 0); [assumption|].
  apply IH; [|assumption]. apply Z.div_pos; lia.
Qed.

(** *** The slice [s[-k:]] *)

Lemma substring_0_length (k : nat) :
  forall s : string, (k <= String.length s)%nat -> String.length (substring 0 k s) = k.
Proof.
  induction k as [|k IH]; intros [|c s] H; simpl in *; try reflexivity; try lia.
  rewrite IH by lia. reflexivity.
Qed.

Lemma substring_digits (n k : nat) :
  forall s : string,
    forallb is_digit (codepoints s) = true ->
    forallb is_digit (codepoints (substring n k s)) = true.
Proof.
  revert k. induction n as [|n IHn]; intros k.
  - induction k as [|k IHk]; intros [|c s] H; simpl in *; try reflexivity.
    apply andb_true_iff in H as [Hc Hs]. rewrite Hc. simpl. now apply IHk.
  - intros [|c s] H; simpl in *; [destruct k; reflexivity|].
    apply andb_true_iff in H as [_ Hs]. now apply IHn.
Qed.

Lemma substring_skip_length (n k : nat) :
  forall s : string, (n + k <= String.length s)%nat ->
    String.length (substring n k s) = k.
Proof.
  induction n as [|n IH]; intros s H.
  - apply substring_0_length. lia.
  - destruct s as [|c s]; simpl in *; [lia|]. apply IH. lia.
Qed.

Lemma last_chars_passcode (s : string) :
  (6 <= String.length s)%nat -> forallb is_digit (codepoints s) = true ->
  Spec.is_passcode (last_chars 6 s) = true.
Proof.
  intros Hl Hd. unfold Spec.is_passcode, last_chars.
  rewrite substring_skip_length by lia. simpl.
  now apply substring_digits.
Qed.

End StrLemmas.

(* ================================================================== *)
(** * Lemmas on pyotp                                                   *)
(* ================================================================== *)

Section PyotpLemmas.

Import PyStr Pyotp.

Variable pl : Platform.t.

Lemma ascii_only_codepoints (s : string) :
  isascii s = true -> ascii_only (codepoints s) = true.
Proof.
  unfold isascii, ascii_only.
  induction s as [|a r IH]; cbn [codepoints forallb]; [reflexivity|].
  intros H. apply andb_true_iff in H as [Ha Hr].
  rewrite Ha, IH by assumption.
  pose proof (ord_range a) as Hr'.
  replace (0 <=? ord a) with true by (symmetry; apply Z.leb_le; lia).
  reflexivity.
Qed.

Lemma ascii_only_below_128 (l : list Z) :
  ascii_only l = true -> forallb (fun c => c <? 128) l = true.
Proof.
  unfold ascii_only.
  induction l as [|c r IH]; cbn [forallb]; [reflexivity|].
  intros H. apply andb_true_iff in H as [Hc Hr].
  apply andb_true_iff in Hc as [_ Hc]. rewrite Hc, IH by assumption. reflexivity.
Qed.

Lemma ascii_only_no_surrogate (l : list Z) :
  ascii_only l = true -> existsb is_surrogate l = false.
Proof.
  unfold ascii_only.
  induction l as [|c r IH]; cbn [forallb existsb]; [reflexivity|].
  intros H. apply andb_true_iff in H as [Hc Hr].
  apply andb_true_iff in Hc as [_ Hc]. apply Z.ltb_lt in Hc.
  rewrite IH by assumption. unfold is_surrogate.
  replace (0xD800 <=? c) with false by (symmetry; apply Z.leb_gt; lia).
  reflexivity.
Qed.

(** A str of ASCII characters is normalised to itself and encoded to its
    own code points. *)
Lemma normalize_NFKC_ascii (l : list Z) :
  ascii_only l = true -> Platform.normalize_NFKC pl l = l.
Proof. apply Platform.NFKC_ascii. Qed.

Lemma encode_utf8_NFKC_ascii (l : list Z) :
  ascii_only l = true -> encode_utf8 (Platform.normalize_NFKC pl l) = Ok l.
Proof.
  intros H. rewrite normalize_NFKC_ascii by assumption.
  unfold encode_utf8. rewrite ascii_only_no_surrogate by assumption.
  rewrite utf8_ascii by now apply ascii_only_below_128. reflexivity.
Qed.

Lemma bytes_eqb_eq (a b : bytes) : Hmac.bytes_eqb a b = true <-> a = b.
Proof.
  unfold Hmac.bytes_eqb. destruct (list_eq_dec Z.eq_dec a b); split; congruence.
Qed.

Lemma same_normal_formb_spec (c : list Z) (code : string) :
  Spec.same_normal_formb pl c code = true <-> Spec.same_normal_form pl c code.
Proof. unfold Spec.same_normal_formb, Spec.same_normal_form. apply bytes_eqb_eq. Qed.

(** [strings_equal] of any str with a code: UnicodeEncodeError when the
    normal form of the str holds a surrogate, the comparison otherwise. *)
Lemma strings_equal_code (c : list Z) (code : string) :
  isascii code = true ->
  strings_equal pl c (codepoints code)
  = if Spec.has_surrogate pl c then Raise UnicodeEncodeError
    else Ok (Spec.same_normal_formb pl c code).
Proof.
  intros Hcode. apply ascii_only_codepoints in Hcode.
  unfold strings_equal, Spec.has_surrogate, Spec.same_normal_formb. cbv zeta.
  unfold encode_utf8 at 1.
  destruct (existsb is_surrogate (Platform.normalize_NFKC pl c)); [reflexivity|].
  cbn [rbind]. rewrite encode_utf8_NFKC_ascii by assumption. cbn [rbind].
  unfold Hmac.compare_digest_bytes.
  rewrite (normalize_NFKC_ascii (codepoints code)) by assumption.
  rewrite (utf8_ascii (codepoints code)) by now apply ascii_only_below_128.
  reflexivity.
Qed.

(** On strs of ASCII characters, one normal form means equality. *)
Lemma same_normal_form_ascii (c : list Z) (code : string) :
  ascii_only c = true -> isascii code = true ->
  (Spec.same_normal_form pl c code <-> c = codepoints code).
Proof.
  intros Hc Hcode. apply ascii_only_codepoints in Hcode.
  unfold Spec.same_normal_form.
  rewrite !normalize_NFKC_ascii by assumption.
  rewrite !utf8_ascii by now apply ascii_only_below_128.
  reflexivity.
Qed.

Lemma has_surrogate_ascii (c : list Z) :
  ascii_only c = true -> Spec.has_surrogate pl c = false.
Proof.
  intros H. unfold Spec.has_surrogate.
  rewrite normalize_NFKC_ascii by assumption. now apply ascii_only_no_surrogate.
Qed.

Lemma passcode_ascii (s : string) : Spec.is_passcode s = true -> isascii s = true.
Proof.
  unfold Spec.is_passcode, isascii. intros H.
  apply andb_true_iff in H as [_ H]. now apply digits_ascii.
Qed.

Lemma passcode_six_digits (s : string) :
  Spec.is_passcode s = Spec.six_digits (codepoints s).
Proof. unfold Spec.is_passcode, Spec.six_digits. now rewrite codepoints_length. Qed.

(** Every value of [hotp] with six digits is a passcode. *)
Lemma hotp_passcode (key : bytes) (input : Z) :
  Spec.is_passcode (hotp 6 key input) = true.
Proof.
  unfold hotp.
  set (code := truncate _).
  change (10 ^ Z.of_nat 6) with 1000000.
  pose proof (Z.mod_pos_bound code 1000000 ltac:(lia)) as Hm.
  set (n := 10000000000 + code mod 1000000) in *.
  assert (Hn : 10 ^ Z.of_nat 10 <= n < 10 ^ Z.of_nat 11).
  { change (10 ^ Z.of_nat 10) with 10000000000.
    change (10 ^ Z.of_nat 11) with 100000000000. lia. }
  assert (Hlog : 33 <= Z.log2 n).
  { change 33 with (Z.log2 10000000000). apply Z.log2_le_mono. lia. }
  unfold str. destruct (Z.ltb_spec n 0) as [Hneg|_]; [lia|].
  apply last_chars_passcode.
  - rewrite (str_digits_length 10) by (try exact Hn; lia). simpl. lia.
  - apply str_digits_digits; [lia | reflexivity].
Qed.

Lemma hotp_ascii (key : bytes) (input : Z) : isascii (hotp 6 key input) = true.
Proof. apply passcode_ascii, hotp_passcode. Qed.

Lemma generate_otp_ok (t : TOTP) (key : bytes) (input : Z) :
  byte_secret t = Ok key -> 0 <= input ->
  generate_otp t input = Ok (hotp (digits t) key input).
Proof.
  intros Hk Hi. unfold generate_otp.
  destruct (Z.ltb_spec input 0) as [Hneg|_]; [lia|].
  rewrite Hk. reflexivity.
Qed.

(** What [totp_time] says of [datetime.now()]. *)
Lemma totp_time_inv (clock m : Z) :
  Spec.totp_time pl clock = Ok m ->
  exists d, Datetime.now pl clock = Ok d /\ Datetime.mktime pl d = m.
Proof.
  unfold Spec.totp_time. destruct (Datetime.now pl clock) as [d|e]; cbn [rbind].
  - intros H. injection H as <-. eauto.
  - discriminate.
Qed.

Lemma timecode_nonneg (s : string) (d : Datetime.datetime) :
  0 <= Datetime.mktime pl d ->
  timecode (new s) pl d = Spec.time_step (Datetime.mktime pl d).
Proof.
  intros H. unfold timecode, Spec.time_step. simpl interval.
  apply Z.quot_div_nonneg; lia.
Qed.

Lemma time_step_ge_1 (m : Z) : 30 <= m -> 1 <= Spec.time_step m.
Proof.
  intros H. unfold Spec.time_step.
  change 1 with (30 / 30). apply Z.div_le_mono; lia.
Qed.

(** [TOTP.now()] is the code of the time-step of [totp_time]. *)
Lemma now_at (s : string) (key : bytes) (clock m : Z) :
  byte_secret (new s) = Ok key -> Spec.totp_time pl clock = Ok m -> 0 <= m ->
  now (new s) pl clock = Ok (hotp 6 key (Spec.time_step m)).
Proof.
  intros Hk Hm H0. apply totp_time_inv in Hm as [d [Hd Hmk]]. subst m.
  unfold now. rewrite Hd. cbn [rbind].
  rewrite timecode_nonneg by assumption.
  rewrite (generate_otp_ok _ key) by (try assumption; apply Z.div_pos; lia).
  reflexivity.
Qed.

(** [verify] with a window of one step compares with three codes, the
    earliest first. *)
Lemma verify_window_1 (s : string) (key : bytes) (c : list Z) (clock m : Z) :
  byte_secret (new s) = Ok key -> Spec.totp_time pl clock = Ok m -> 30 <= m ->
  verify (new s) pl c clock 1
  = if Spec.has_surrogate pl c then Raise UnicodeEncodeError
    else Ok (Spec.same_normal_formb pl c (hotp 6 key (Spec.time_step m - 1))
             || Spec.same_normal_formb pl c (hotp 6 key (Spec.time_step m))
             || Spec.same_normal_formb pl c (hotp 6 key (Spec.time_step m + 1))).
Proof.
  intros Hk Hm Hc. pose proof (time_step_ge_1 m Hc) as HT.
  apply totp_time_inv in Hm as [d [Hd Hmk]]. subst m.
  unfold verify. rewrite Hd. cbn [rbind].
  change (negb (1 =? 0)) with true. cbv iota.
  change (range (- (1)) (1 + 1)) with [-1; 0; 1].
  unfold verify_loop, at_. rewrite timecode_nonneg by lia.
  rewrite !(generate_otp_ok _ key) by (try exact Hk; lia).
  change (digits (new s)) with 6%nat. cbn [rbind].
  rewrite !strings_equal_code by apply hotp_ascii.
  replace (Spec.time_step (Datetime.mktime pl d) + -1)
    with (Spec.time_step (Datetime.mktime pl d) - 1) by lia.
  replace (Spec.time_step (Datetime.mktime pl d) + 0)
    with (Spec.time_step (Datetime.mktime pl d)) by lia.
  destruct (Spec.has_surrogate pl c); [reflexivity|]. cbn [rbind].
  destruct (Spec.same_normal_formb pl c (hotp 6 key (Spec.time_step (Datetime.mktime pl d) - 1)));
    destruct (Spec.same_normal_formb pl c (hotp 6 key (Spec.time_step (Datetime.mktime pl d))));
    destruct (Spec.same_normal_formb pl c (hotp 6 key (Spec.time_step (Datetime.mktime pl d) + 1)));
    reflexivity.
Qed.

(** UTF-8 bytes that are ASCII characters come from these characters. *)
Lemma utf8_char_head (c : Z) :
  0x80 <= c -> exists b r, utf8_char c = b :: r /\ Z.testbit b 7 = true.
Proof.
  intros Hc. unfold utf8_char.
  destruct (Z.ltb_spec c 0x80) as [H|_]; [lia|].
  destruct (c <? 0x800); [|destruct (c <? 0x10000)];
    eexists; eexists; (split; [reflexivity|]);
    rewrite Z.lor_spec; reflexivity.
Qed.

Lemma testbit_7_ascii (b : Z) : 0 <= b < 128 -> Z.testbit b 7 = false.
Proof.
  intros H. destruct (Z.eq_dec b 0) as [->|Hn]; [reflexivity|].
  apply Z.bits_above_log2; [lia|].
  apply Z.log2_lt_pow2; [lia|]. change (2 ^ 7) with 128. lia.
Qed.

Lemma utf8_ascii_inv (l a : list Z) :
  ascii_only a = true -> utf8 l = a -> l = a.
Proof.
  revert a. induction l as [|c r IH]; intros a Ha H.
  - exact H.
  - unfold utf8 in H. cbn [flat_map] in H. fold (utf8 r) in H.
    destruct (Z.ltb_spec c 0x80) as [Hlt|Hge].
    + unfold utf8_char in H. replace (c <? 0x80) with true in H
        by (symmetry; apply Z.ltb_lt; exact Hlt).
      cbn [app] in H. destruct a as [|b a']; [discriminate|].
      injection H as <- H. unfold ascii_only in Ha. cbn [forallb] in Ha.
      apply andb_true_iff in Ha as [_ Ha]. f_equal. now apply IH.
    + destruct (utf8_char_head c Hge) as [b [rest [E Hb]]].
      rewrite E in H. cbn [app] in H. destruct a as [|b' a']; [discriminate|].
      injection H as <- _. unfold ascii_only in Ha. cbn [forallb] in Ha.
      apply andb_true_iff in Ha as [Hb' _].
      apply andb_true_iff in Hb' as [H0 H1].
      apply Z.leb_le in H0. apply Z.ltb_lt in H1.
      rewrite testbit_7_ascii in Hb by lia. discriminate.
Qed.

(** A str has the normal form of a code when its normal form is the code. *)
Lemma same_normal_form_code (c : list Z) (code : string) :
  isascii code = true ->
  (Spec.same_normal_form pl c code <-> Platform.normalize_NFKC pl c = codepoints code).
Proof.
  intros Hcode. apply ascii_only_codepoints in Hcode.
  unfold Spec.same_normal_form.
  rewrite (normalize_NFKC_ascii (codepoints code)) by assumption.
  rewrite (utf8_ascii (codepoints code)) by now apply ascii_only_below_128.
  split; [now apply utf8_ascii_inv|].
  intros ->. apply utf8_ascii. now apply ascii_only_below_128.
Qed.

Lemma same_normal_form_no_surrogate (c : list Z) (code : string) :
  isascii code = true -> Spec.same_normal_form pl c code ->
  Spec.has_surrogate pl c = false.
Proof.
  intros Hcode H. apply same_normal_form_code in H; [|assumption].
  unfold Spec.has_surrogate. rewrite H.
  now apply ascii_only_no_surrogate, ascii_only_codepoints.
Qed.

(** Before the second time-step the earliest counter is negative. *)
Lemma verify_first_step_raises (s : string) (c : list Z) (clock m : Z) :
  Spec.totp_time pl clock = Ok m -> 0 <= m < 30 ->
  verify (new s) pl c clock 1 = Raise ValueError.
Proof.
  intros Hm H. apply totp_time_inv in Hm as [d [Hd Hmk]]. subst m.
  unfold verify. rewrite Hd. cbn [rbind].
  change (negb (1 =? 0)) with true. cbv iota.
  change (range (- (1)) (1 + 1)) with [-1; 0; 1].
  unfold verify_loop, at_. rewrite timecode_nonneg by lia.
  unfold Spec.time_step. rewrite Z.div_small by lia.
  reflexivity.
Qed.

End PyotpLemmas.

(* ================================================================== *)
(** * Lemmas on hashlib and hmac                                        *)
(* ================================================================== *)

Section HmacLemmas.

Import PyStr.

Lemma land_255_byte (x : Z) : is_byte (Z.land x 255).
Proof.
  unfold is_byte. change 255 with (Z.ones 8).
  rewrite Z.land_ones by lia. apply Z.mod_pos_bound. lia.
Qed.

Lemma be_bytes_range (n : nat) (x : Z) : Forall is_byte (Hashlib.be_bytes n x).
Proof.
  unfold Hashlib.be_bytes. apply Forall_map, Forall_forall.
  intros k _. apply land_255_byte.
Qed.

Lemma flat_map_be_bytes_range (ws : list Z) :
  Forall is_byte (flat_map (Hashlib.be_bytes 4) ws).
Proof.
  induction ws as [|w r IH]; [constructor|].
  change (flat_map (Hashlib.be_bytes 4) (w :: r))
    with (Hashlib.be_bytes 4 w ++ flat_map (Hashlib.be_bytes 4) r).
  apply Forall_app. split; [apply be_bytes_range | exact IH].
Qed.

Lemma sha256_range (m : bytes) : Forall is_byte (Hashlib.sha256 m).
Proof. unfold Hashlib.sha256. apply flat_map_be_bytes_range. Qed.

Lemma hex_digit_ascii (d : Z) : 0 <= d < 16 -> (ord (hex_digit d) <? 128) = true.
Proof.
  intros H. unfold hex_digit. apply Z.ltb_lt.
  destruct (Z.ltb_spec d 10); rewrite ord_chr; lia.
Qed.

Lemma hex_ascii (b : bytes) : Forall is_byte b -> isascii (hex b) = true.
Proof.
  unfold isascii.
  induction 1 as [|x r Hx _ IH]; [reflexivity|].
  cbn [hex codepoints forallb]. rewrite IH, andb_true_r.
  unfold is_byte in Hx.
  rewrite !hex_digit_ascii; [reflexivity| |].
  - pose proof (land_255_byte x) as Hb. change 15 with (Z.ones 4).
    rewrite Z.land_ones by lia. apply Z.mod_pos_bound. lia.
  - rewrite Z.shiftr_div_pow2 by lia. change (2 ^ 4) with 16.
    split; [apply Z.div_pos; lia | apply Z.div_lt_upper_bound; lia].
Qed.

(** An HMAC-SHA256 hex digest is an ASCII string. *)
Lemma hexdigest_sha256_ascii (key msg : bytes) :
  isascii (Hmac.hexdigest Hashlib.sha256 key msg) = true.
Proof.
  unfold Hmac.hexdigest, Hmac.digest. apply hex_ascii, sha256_range.
Qed.

Lemma compare_digest_str_ascii (a b : string) :
  isascii a = true -> isascii b = true ->
  Hmac.compare_digest_str a b = Ok (String.eqb a b).
Proof.
  intros Ha Hb. unfold Hmac.compare_digest_str. now rewrite Ha, Hb.
Qed.

Lemma compare_digest_str_non_ascii_l (a b : string) :
  isascii a = false -> Hmac.compare_digest_str a b = Raise TypeError.
Proof.
  intros Ha. unfold Hmac.compare_digest_str. now rewrite Ha.
Qed.

End HmacLemmas.

(* ================================================================== *)
(** * Lemmas on app/middleware/auth.py                                  *)
(* ================================================================== *)

Section AuthLemmas.

Import PyStr Auth Spec.

(** A stale timestamp ends the dependency right after the clock is read. *)
Lemma hmac_signature_stale (api_key ts sig : string) (clock t : Z) :
  PyStr.int ts = Some t -> 30 < Z.abs (clock - t) ->
  require_hmac_signature api_key (Some ts) (Some sig) clock
  = ([TimeTime], Raise EXPIRED).
Proof.
  intros Hts Hage. unfold require_hmac_signature. rewrite Hts.
  unfold bind, time_time, raise, SIGNATURE_MAX_AGE_SECONDS.
  rewrite Z.gtb_ltb. destruct (Z.ltb_spec 30 (Z.abs (clock - t))); [reflexivity | lia].
Qed.

(** A fresh timestamp leads to the digest and to its comparison, whose
    answer decides. *)
Lemma hmac_signature_fresh (api_key ts sig : string) (clock t : Z) :
  PyStr.int ts = Some t -> Z.abs (clock - t) <= 30 ->
  require_hmac_signature api_key (Some ts) (Some sig) clock
  = ([TimeTime; HmacNew (encode api_key) (encode ts);
      CompareDigest sig (expected_signature api_key ts)],
     match Hmac.compare_digest_str sig (expected_signature api_key ts) with
     | Ok true => Ok tt
     | Ok false => Raise INVALID_SIGNATURE
     | Raise e => Raise e
     end).
Proof.
  intros Hts Hage. unfold require_hmac_signature. rewrite Hts.
  unfold bind, time_time, raise, ret, hmac_new_sha256_hexdigest, compare_digest,
    SIGNATURE_MAX_AGE_SECONDS.
  rewrite Z.gtb_ltb. destruct (Z.ltb_spec 30 (Z.abs (clock - t))); [lia|].
  fold (expected_signature api_key ts).
  destruct (Hmac.compare_digest_str sig (expected_signature api_key ts)) as [[|]|e];
    reflexivity.
Qed.

End AuthLemmas.

(* ================================================================== *)
(** * Lemmas on base32 secrets                                          *)
(* ================================================================== *)

Section Base32Lemmas.

Import PyStr Base64 Spec.

Lemma repeat_pad_rstrip (k : nat) : rstrip_pad (repeat PAD k) = [].
Proof. induction k as [|k IH]; simpl; [reflexivity | now rewrite IH]. Qed.

Lemma rstrip_pad_app_pads (l : list Z) (k : nat) :
  rstrip_pad (l ++ repeat PAD k) = rstrip_pad l.
Proof.
  induction l as [|c r IH]; simpl; [apply repeat_pad_rstrip | now rewrite IH].
Qed.

Lemma rstrip_pad_decomp (l : list Z) :
  l = rstrip_pad l ++ repeat PAD (List.length l - List.length (rstrip_pad l)).
Proof.
  induction l as [|c r IH]; simpl; [reflexivity|].
  destruct (rstrip_pad r) as [|d r'] eqn:E.
  - simpl in IH. rewrite Nat.sub_0_r in IH.
    destruct (Z.eqb_spec c PAD) as [->|_]; simpl.
    + now rewrite <- IH.
    + now rewrite Nat.sub_0_r, <- IH.
  - simpl in *. now rewrite <- IH.
Qed.

Lemma upper_pad (c : Z) : (upper c =? PAD) = (c =? PAD).
Proof.
  unfold upper, PAD.
  destruct (Z.leb_spec 97 c), (Z.leb_spec c 122); simpl;
    destruct (Z.eqb_spec c 61), (Z.eqb_spec (c - 32) 61); try reflexivity; lia.
Qed.

Lemma rstrip_pad_map_upper (l : list Z) :
  rstrip_pad (map upper l) = map upper (rstrip_pad l).
Proof.
  induction l as [|c r IH]; simpl; [reflexivity|].
  rewrite IH, upper_pad.
  destruct (rstrip_pad r); simpl; [destruct (c =? PAD)|]; reflexivity.
Qed.

Lemma quantum_acc_defined (q : list Z) :
  forall acc, (exists a, quantum_acc q acc = Some a) <-> forallb b32_defined q = true.
Proof.
  induction q as [|c r IH]; intros acc; simpl.
  - split; [reflexivity | intros _; now exists acc].
  - unfold b32_defined at 1. destruct (b32rev c) as [v|]; simpl.
    + apply IH.
    + split; [intros [a Ha]; discriminate | discriminate].
Qed.

Lemma decode_quanta_defined (fuel : nat) :
  forall (s : list Z) (d : bytes) (a : Z),
    (List.length s <= fuel)%nat ->
    ((exists r, decode_quanta fuel s d a = Some r) <-> forallb b32_defined s = true).
Proof.
  induction fuel as [|fuel IH]; intros s d a Hlen.
  - destruct s; [|simpl in Hlen; lia]. simpl. split; [reflexivity | eauto].
  - destruct s as [|c r]; [simpl; split; [reflexivity | eauto]|].
    remember (c :: r) as s eqn:Es.
    assert (Hskip : (List.length (skipn 8 s) <= fuel)%nat).
    { rewrite length_skipn. subst s. simpl in *. lia. }
    assert (Hsplit : forallb b32_defined s
                     = forallb b32_defined (firstn 8 s) && forallb b32_defined (skipn 8 s)).
    { now rewrite <- forallb_app, firstn_skipn. }
    rewrite Hsplit.
    replace (decode_quanta (S fuel) s d a)
      with (match quantum_acc (firstn 8 s) 0 with
            | Some a' => decode_quanta fuel (skipn 8 s) (d ++ Hashlib.be_bytes 5 a') a'
            | None => None
            end) by (subst s; reflexivity).
    pose proof (quantum_acc_defined (firstn 8 s) 0) as Hq.
    destruct (quantum_acc (firstn 8 s) 0) as [a'|].
    + rewrite (IH _ (d ++ Hashlib.be_bytes 5 a') a' Hskip).
      destruct Hq as [Hq _]. rewrite Hq by eauto. reflexivity.
    + split; [intros [x Hx]; discriminate|].
      intros H. apply andb_true_iff in H as [H _].
      apply Hq in H as [x Hx]. discriminate.
Qed.

Lemma forallb_defined_upper (l : list Z) :
  forallb b32_defined (map upper l) = forallb Spec.b32_char l.
Proof. induction l as [|c r IH]; simpl; [reflexivity | now rewrite IH]. Qed.

Lemma b32_char_ascii (c : Z) : Spec.b32_char c = true -> (c <? 128) = true.
Proof.
  intros H. destruct (Z.ltb_spec c 128) as [|Hge]; [reflexivity|]. exfalso.
  unfold Spec.b32_char, b32_defined, b32rev, upper in H.
  replace (c <=? 122) with false in H by (symmetry; apply Z.leb_gt; lia).
  rewrite andb_false_r in H.
  replace (c <=? 90) with false in H by (symmetry; apply Z.leb_gt; lia).
  replace (c <=? 55) with false in H by (symmetry; apply Z.leb_gt; lia).
  rewrite !andb_false_r in H. discriminate H.
Qed.

Lemma valid_padchars_spec (p : nat) :
  valid_padchars p = true <-> (p = 0 \/ p = 1 \/ p = 3 \/ p = 4 \/ p = 6)%nat.
Proof.
  do 7 (destruct p as [|p]; [simpl; split; [intros; lia | intros; first [reflexivity | lia]]|]).
  simpl. split; [discriminate | lia].
Qed.

End Base32Lemmas.

Section SecretLemmas.

Import PyStr Base64 Spec.

Lemma forallb_ascii_pads (k : nat) : forallb (fun c => c <? 128) (repeat PAD k) = true.
Proof. induction k as [|k IH]; simpl; [reflexivity | exact IH]. Qed.

Lemma pads_in_range (k : nat) : Forall (fun c => 0 <= c < 256) (repeat PAD k).
Proof. induction k; simpl; constructor; [unfold PAD; lia | assumption]. Qed.

Lemma rstrip_pad_length (l : list Z) : (List.length (rstrip_pad l) <= List.length l)%nat.
Proof. pose proof (f_equal (@List.length Z) (rstrip_pad_decomp l)) as H.
       rewrite length_app, repeat_length in H. lia. Qed.

Lemma b32decode_ok_iff (s' : string) (cs : list Z) (k : nat) :
  codepoints s' = cs ++ repeat PAD k ->
  ((List.length cs + k) mod 8 = 0)%nat ->
  ((exists key, b32decode_casefold s' = Ok key)
   <-> forallb (fun c => c <? 128) cs = true
       /\ forallb b32_char (rstrip_pad cs) = true
       /\ valid_padchars (List.length cs + k - List.length (rstrip_pad cs)) = true).
Proof.
  intros Hcp Hlen. unfold b32decode_casefold, isascii. cbv zeta. rewrite Hcp.
  rewrite forallb_app, forallb_ascii_pads, andb_true_r.
  destruct (forallb (fun c => c <? 128) cs); cbn [negb Nat.eqb orb]; cbv iota.
  2:{ split; [intros [key H]; discriminate | intros [H _]; discriminate]. }
  rewrite !length_map, !length_app, !repeat_length, Hlen. cbn [negb Nat.eqb orb]. cbv iota.
  rewrite rstrip_pad_map_upper, rstrip_pad_app_pads, length_map.
  pose proof (decode_quanta_defined (List.length (rstrip_pad cs))
                (map upper (rstrip_pad cs)) [] 0) as Hdq.
  rewrite length_map, forallb_defined_upper in Hdq. specialize (Hdq (le_n _)).
  destruct (decode_quanta (List.length (rstrip_pad cs)) (map upper (rstrip_pad cs)) [] 0)
    as [[decoded acc]|].
  - destruct Hdq as [Hdq _]. rewrite Hdq by eauto. cbn [negb Nat.eqb orb].
    destruct (valid_padchars (List.length cs + k - List.length (rstrip_pad cs))).
    + cbn [negb Nat.eqb orb]. cbv iota. split; [intros _; auto|intros _].
      destruct (List.length cs + k - List.length (rstrip_pad cs))%nat, decoded; eauto.
    + cbn [negb Nat.eqb orb]. cbv iota.
      split; [intros [key H]; discriminate | intros [_ [_ H]]; discriminate].
  - split; [intros [key H]; discriminate|].
    intros [_ [H _]]. apply Hdq in H as [r Hr]. discriminate.
Qed.

Lemma padchars_arith (L n : nat) :
  (n <= L)%nat ->
  let k := if Nat.eqb (L mod 8) 0 then 0%nat else (8 - L mod 8)%nat in
  valid_padchars (L + k - n) = true
  <-> existsb (Nat.eqb (n mod 8)) [0; 2; 4; 5; 7]%nat = true
      /\ (L - n <=? (8 - n mod 8) mod 8)%nat = true.
Proof.
  intros Hle k. rewrite valid_padchars_spec. cbn [existsb].
  rewrite orb_false_r, !orb_true_iff, !Nat.eqb_eq, Nat.leb_le.
  subst k. destruct (Nat.eqb_spec (L mod 8) 0) as [E|E].
  - pose proof (Nat.div_mod_eq L 8). pose proof (Nat.div_mod_eq n 8).
    pose proof (Nat.mod_upper_bound n 8 ltac:(lia)).
    pose proof (Nat.div_mod_eq (8 - n mod 8) 8).
    pose proof (Nat.mod_upper_bound (8 - n mod 8) 8 ltac:(lia)).
    lia.
  - pose proof (Nat.div_mod_eq L 8). pose proof (Nat.div_mod_eq n 8).
    pose proof (Nat.mod_upper_bound n 8 ltac:(lia)).
    pose proof (Nat.mod_upper_bound L 8 ltac:(lia)).
    pose proof (Nat.div_mod_eq (8 - n mod 8) 8).
    pose proof (Nat.mod_upper_bound (8 - n mod 8) 8 ltac:(lia)).
    lia.
Qed.

End SecretLemmas.

Section ConfigLemmas.

Import PyStr Base64 Spec Config.

(** The secrets [pyotp] decodes are the valid base32 texts. *)
Lemma byte_secret_ok_iff (s : string) :
  (exists key, Pyotp.byte_secret (Pyotp.new s) = Ok key) <-> valid_base32 s = true.
Proof.
  unfold Pyotp.byte_secret. cbn [Pyotp.secret Pyotp.new]. cbv zeta.
  set (cs := codepoints s).
  set (k := if Nat.eqb (List.length cs mod 8) 0 then 0%nat
            else (8 - List.length cs mod 8)%nat).
  assert (Hk : ((List.length cs + k) mod 8 = 0)%nat).
  { subst k. destruct (Nat.eqb_spec (List.length cs mod 8) 0) as [E|E].
    - now rewrite Nat.add_0_r.
    - pose proof (Nat.div_mod_eq (List.length cs) 8) as H1.
      pose proof (Nat.mod_upper_bound (List.length cs) 8 ltac:(lia)) as H2.
      replace (List.length cs + (8 - List.length cs mod 8))%nat
        with (0 + (List.length cs / 8 + 1) * 8)%nat by lia.
      now rewrite Nat.Div0.mod_add. }
  assert (Hdec : (exists key,
                    b32decode_casefold
                      (if Nat.eqb (String.length s mod 8) 0 then s
                       else (s ++ of_codepoints
                                    (repeat PAD (8 - String.length s mod 8)))%string)
                    = Ok key)
                 <-> forallb (fun c => c <? 128) cs = true
                     /\ forallb b32_char (rstrip_pad cs) = true
                     /\ valid_padchars (List.length cs + k - List.length (rstrip_pad cs))
                        = true).
  { apply b32decode_ok_iff; [|exact Hk].
    subst k cs. rewrite codepoints_length.
    destruct (Nat.eqb (String.length s mod 8) 0).
    - simpl repeat. now rewrite app_nil_r.
    - rewrite codepoints_append, codepoints_of_codepoints by apply pads_in_range.
      reflexivity. }
  rewrite Hdec. clear Hdec.
  unfold valid_base32. cbv zeta. fold cs.
  pose proof (padchars_arith (List.length cs) (List.length (rstrip_pad cs))
                (rstrip_pad_length cs)) as Ha.
  cbv zeta in Ha. fold k in Ha. rewrite Ha. rewrite !andb_true_iff.
  split; [tauto|]. intros [[Hb He] Hp]. repeat split; try assumption.
  rewrite (rstrip_pad_decomp cs), forallb_app, forallb_ascii_pads, andb_true_r.
  apply forallb_forall. intros c Hc. apply b32_char_ascii.
  rewrite forallb_forall in Hb. now apply Hb.
Qed.

Lemma is_empty_spec (s : string) : is_empty s = true <-> s = EmptyString.
Proof. destruct s; simpl; split; congruence. Qed.

(** [_validate] lets a configuration through exactly when both variables
    are set and [totp.now()] returns. *)
Lemma validate_outcome (self : Settings) (pl : Platform.t) (clock : Z) :
  snd (_validate self pl clock)
  = if is_empty (API_KEY self) || is_empty (OTP_SECRET self) then Raise (SystemExit 1)
    else match Pyotp.now (Pyotp.new (OTP_SECRET self)) pl clock with
         | Ok _ => Ok tt
         | Raise _ => Raise (SystemExit 1)
         end.
Proof.
  unfold _validate.
  destruct (is_empty (API_KEY self)), (is_empty (OTP_SECRET self)); try reflexivity.
  cbn [app orb]. destruct (Pyotp.now _ pl clock); reflexivity.
Qed.

Lemma now_ok (s : string) (pl : Platform.t) (clock : Z) (code : string) :
  Pyotp.now (Pyotp.new s) pl clock = Ok code ->
  exists key, Pyotp.byte_secret (Pyotp.new s) = Ok key.
Proof.
  unfold Pyotp.now, Pyotp.generate_otp.
  destruct (Datetime.now pl clock) as [d|e]; cbn [rbind]; [|discriminate].
  destruct (_ <? 0); [discriminate|].
  destruct (Pyotp.byte_secret (Pyotp.new s)) as [key|e]; [eauto | discriminate].
Qed.

End ConfigLemmas.

(* ================================================================== *)
(** * The TOTP engine: get_otp and verify_otp                           *)
(* ================================================================== *)

Section TotpEngine.

Import PyStr Spec Config.

Lemma get_otp_at (pl : Platform.t) (settings : Settings) (key : bytes) (clock_totp clock_time m : Z) :
  Pyotp.byte_secret (Totp._totp settings) = Ok key ->
  totp_time pl clock_totp = Ok m -> 0 <= m ->
  Totp.get_otp pl settings clock_totp clock_time
  = Ok {| Totp.otp := Pyotp.hotp 6 key (time_step m);
          Totp.valid_for_seconds := 30 - clock_time mod 30;
          Totp.timestamp := clock_time |}.
Proof.
  intros Hk Hm H0.
  unfold Totp.get_otp, Totp._totp in *. cbv zeta.
  rewrite (now_at pl _ key clock_totp m) by assumption.
  reflexivity.
Qed.

(** What [verify_otp] answers for any candidate, from the second
    time-step on. *)
Lemma verify_otp_window (pl : Platform.t) (settings : Settings) (key : bytes) (code : list Z) (clock m : Z) :
  Pyotp.byte_secret (Totp._totp settings) = Ok key ->
  totp_time pl clock = Ok m -> 30 <= m ->
  Totp.verify_otp pl settings code clock
  = if has_surrogate pl code then Raise UnicodeEncodeError
    else Ok (same_normal_formb pl code (Pyotp.hotp 6 key (time_step m - 1))
             || same_normal_formb pl code (Pyotp.hotp 6 key (time_step m))
             || same_normal_formb pl code (Pyotp.hotp 6 key (time_step m + 1))).
Proof.
  intros Hk Hm Hc. unfold Totp.verify_otp, Totp._totp in *. cbv zeta.
  now apply verify_window_1.
Qed.

(** [verify_otp] returns true exactly for the strs with the normal form of
    one of the three codes. *)
Lemma verify_otp_true_iff (pl : Platform.t) (settings : Settings) (key : bytes) (code : list Z) (clock m : Z) :
  Pyotp.byte_secret (Totp._totp settings) = Ok key ->
  totp_time pl clock = Ok m -> 30 <= m ->
  (Totp.verify_otp pl settings code clock = Ok true
   <-> same_normal_form pl code (Pyotp.hotp 6 key (time_step m - 1))
       \/ same_normal_form pl code (Pyotp.hotp 6 key (time_step m))
       \/ same_normal_form pl code (Pyotp.hotp 6 key (time_step m + 1))).
Proof.
  intros Hk Hm Hc. rewrite (verify_otp_window pl settings key code clock m) by assumption.
  rewrite <- !same_normal_formb_spec. split.
  - destruct (has_surrogate pl code); [discriminate|].
    intros H. injection H as H. rewrite !orb_true_iff in H. tauto.
  - intros H.
    assert (Hs : has_surrogate pl code = false).
    { destruct H as [H|[H|H]]; apply same_normal_formb_spec in H;
        eapply same_normal_form_no_surrogate; try exact H; apply hotp_ascii. }
    rewrite Hs. f_equal. rewrite !orb_true_iff. tauto.
Qed.

Lemma verify_otp_ascii (pl : Platform.t) (settings : Settings) (key : bytes) (code : list Z) (clock m : Z) :
  Pyotp.byte_secret (Totp._totp settings) = Ok key ->
  totp_time pl clock = Ok m -> 30 <= m ->
  ascii_only code = true ->
  exists b,
    Totp.verify_otp pl settings code clock = Ok b
    /\ (b = true <-> code = codepoints (Pyotp.hotp 6 key (time_step m - 1))
                     \/ code = codepoints (Pyotp.hotp 6 key (time_step m))
                     \/ code = codepoints (Pyotp.hotp 6 key (time_step m + 1))).
Proof.
  intros Hk Hm Hc Ha. rewrite (verify_otp_window pl settings key code clock m) by assumption.
  rewrite has_surrogate_ascii by assumption.
  eexists; split; [reflexivity|].
  rewrite !orb_true_iff, !same_normal_formb_spec.
  rewrite !same_normal_form_ascii by (try assumption; apply hotp_ascii).
  tauto.
Qed.

(** What [verify_otp] answers for a code of [pyotp]. *)
Lemma verify_otp_code (pl : Platform.t) (settings : Settings) (key : bytes) (code : string) (clock m : Z) :
  Pyotp.byte_secret (Totp._totp settings) = Ok key ->
  totp_time pl clock = Ok m -> 30 <= m ->
  isascii code = true ->
  exists b,
    Totp.verify_otp pl settings (codepoints code) clock = Ok b
    /\ (b = true <-> code = Pyotp.hotp 6 key (time_step m - 1)
                     \/ code = Pyotp.hotp 6 key (time_step m)
                     \/ code = Pyotp.hotp 6 key (time_step m + 1)).
Proof.
  intros Hk Hm Hc Ha.
  destruct (verify_otp_ascii pl settings key (codepoints code) clock m Hk Hm Hc)
    as [b [Hb Hiff]]; [now apply ascii_only_codepoints|].
  exists b. split; [exact Hb|]. rewrite Hiff.
  split; (intros [H|[H|H]]; [left|right; left|right; right]);
    solve [now apply codepoints_inj | now rewrite H].
Qed.

(** C5.  On a machine on the time of Paris, in a process that has run
    since before clocks went back, [get_otp] called at unix time 1729992600
    (on 2024-10-27, when local time reads 02:30 for the second time) returns
    the code "377159", the code of the time-step one hour earlier, whereas
    the code of time-step floor(now/30) is "542654"; [valid_for_seconds]
    and the timestamp are 30 - (now mod 30) and now. *)
Theorem C5_get_otp_repeated_hour :
  Totp.get_otp Sample.europe_paris Sample.settings 1729992600 1729992600
  = Ok {| Totp.otp := "377159"; Totp.valid_for_seconds := 30 - 1729992600 mod 30;
          Totp.timestamp := 1729992600 |}
  /\ Pyotp.byte_secret (Totp._totp Sample.settings) = Ok Sample.key
  /\ Pyotp.hotp 6 Sample.key (time_step 1729992600) = "542654"%string
  /\ Pyotp.hotp 6 Sample.key (time_step (1729992600 - 3600)) = "377159"%string.
Proof. vm_compute. repeat split; reflexivity. Qed.

(** In a process started while local time reads, for the first time, the
    hour it is to repeat, the code is the one of the time-step an hour
    later. *)
Example get_otp_started_in_repeated_hour :
  Totp.get_otp Sample.europe_paris_restarted Sample.settings 1729988100 1729988100
  = Ok {| Totp.otp := Pyotp.hotp 6 Sample.key (time_step (1729988100 + 3600));
          Totp.valid_for_seconds := 30; Totp.timestamp := 1729988100 |}
  /\ Pyotp.hotp 6 Sample.key (time_step (1729988100 + 3600))
     <> Pyotp.hotp 6 Sample.key (time_step 1729988100).
Proof. split; [vm_compute; reflexivity | vm_compute; discriminate]. Qed.

(** What every call of [get_otp] returns, for a secret that decodes:
    the six-digit code of the time-step of the unix time that [pyotp] derives
    from local time at the first reading of the clock, and, from the second
    reading, the seconds left in its time-step and the timestamp.  When the
    first reading comes back from local time and the second reading falls
    in the same time-step, the code is the one of the time-step of the
    timestamp. *)
Theorem get_otp_every_call
    (pl : Platform.t) (settings : Settings) (key : bytes) (clock_totp clock_time m : Z) :
  Pyotp.byte_secret (Totp._totp settings) = Ok key ->
  totp_time pl clock_totp = Ok m ->
  0 <= m ->
  Totp.get_otp pl settings clock_totp clock_time
  = Ok {| Totp.otp := Pyotp.hotp 6 key (time_step m);
          Totp.valid_for_seconds := 30 - clock_time mod 30;
          Totp.timestamp := clock_time |}
  /\ is_passcode (Pyotp.hotp 6 key (time_step m)) = true
  /\ 1 <= 30 - clock_time mod 30 <= 30
  /\ (round_trip pl clock_totp -> time_step clock_time = time_step clock_totp ->
      Pyotp.hotp 6 key (time_step m) = Pyotp.hotp 6 key (clock_time / 30)).
Proof.
  intros Hk Hm H0. split; [|split; [|split]].
  - now apply get_otp_at.
  - apply hotp_passcode.
  - pose proof (Z.mod_pos_bound clock_time 30 ltac:(lia)). lia.
  - intros Hu Hs. unfold round_trip in Hu. rewrite Hm in Hu. injection Hu as ->.
    now rewrite <- Hs.
Qed.

Lemma get_otp_every_call_witness :
  Totp.get_otp Sample.utc Sample.settings 1706553000 1706553001
  = Ok {| Totp.otp := "256847"; Totp.valid_for_seconds := 29;
          Totp.timestamp := 1706553001 |}.
Proof.
  refine (eq_trans
            (proj1 (get_otp_every_call Sample.utc Sample.settings Sample.key
                      1706553000 1706553001 1706553000 _ _ _)) _).
  - vm_compute. reflexivity.
  - vm_compute. reflexivity.
  - vm_compute. discriminate.
  - vm_compute. reflexivity.
Defined.

(** The two clock readings of [get_otp] can fall on either side of a change
    of time-step: the code is then the one of the step that has just ended,
    with thirty seconds announced for it. *)
Example get_otp_across_steps :
  Totp.get_otp Sample.utc Sample.settings 1706553029 1706553030
  = Ok {| Totp.otp := Pyotp.hotp 6 Sample.key 56885100; Totp.valid_for_seconds := 30;
          Totp.timestamp := 1706553030 |}
  /\ time_step 1706553030 = 56885101
  /\ Pyotp.hotp 6 Sample.key 56885100 <> Pyotp.hotp 6 Sample.key 56885101.
Proof.
  split; [vm_compute; reflexivity|]. split; [reflexivity|]. vm_compute. discriminate.
Qed.

(** C1, as amended.  At a verification time that comes back from local
    time ([time.mktime] maps [datetime.now()] to it), from the second
    time-step on, [verify_otp] accepts a
    candidate exactly when it has the NFKC normal form of the code of
    time-step T-1, T or T+1, T being the time-step of the verification; for
    an ASCII candidate, exactly when it equals one of these codes.  So a
    code generated at time-step G is accepted when G is T-1, T or T+1, and
    when G is T-2 or T+2 it is rejected exactly when it differs from the
    three codes of the window. *)
Theorem C1_verify_window
    (pl : Platform.t) (settings : Settings) (key : bytes) (candidate : list Z) (clock : Z) :
  Pyotp.byte_secret (Totp._totp settings) = Ok key ->
  round_trip pl clock ->
  30 <= clock ->
  let T := time_step clock in
  let code := Pyotp.hotp 6 key in
  (Totp.verify_otp pl settings candidate clock = Ok true
   <-> same_normal_form pl candidate (code (T - 1))
       \/ same_normal_form pl candidate (code T)
       \/ same_normal_form pl candidate (code (T + 1)))
  /\ (ascii_only candidate = true ->
      (Totp.verify_otp pl settings candidate clock = Ok true
       <-> candidate = codepoints (code (T - 1)) \/ candidate = codepoints (code T)
           \/ candidate = codepoints (code (T + 1))))
  /\ (forall (generated clock_time : Z) (r : Totp.otp_dict),
        round_trip pl generated ->
        0 <= generated ->
        Totp.get_otp pl settings generated clock_time = Ok r ->
        let G := time_step generated in
        (G = T - 1 \/ G = T \/ G = T + 1 ->
         Totp.verify_otp pl settings (codepoints (Totp.otp r)) clock = Ok true)
        /\ (G = T - 2 \/ G = T + 2 ->
            (Totp.verify_otp pl settings (codepoints (Totp.otp r)) clock = Ok false
             <-> Totp.otp r <> code (T - 1) /\ Totp.otp r <> code T
                 /\ Totp.otp r <> code (T + 1)))).
Proof.
  intros Hk Hu Hc T code. split; [|split].
  - now apply (verify_otp_true_iff pl settings key candidate clock clock).
  - intros Ha.
    destruct (verify_otp_ascii pl settings key candidate clock clock Hk Hu Hc Ha)
      as [b [Hb Hiff]].
    rewrite Hb. fold T in Hiff. fold code in Hiff. rewrite <- Hiff.
    split; congruence.
  - intros generated clock_time r Hug Hg Hr G.
    rewrite (get_otp_at pl settings key generated clock_time generated Hk Hug Hg) in Hr.
    injection Hr as <-. cbn [Totp.otp]. fold G. fold code.
    assert (HaG : isascii (code G) = true) by apply hotp_ascii.
    destruct (verify_otp_code pl settings key (code G) clock clock Hk Hu Hc HaG)
      as [b [Hb Hiff]].
    rewrite Hb. fold T in Hiff. fold code in Hiff. split.
    + intros HG. f_equal. apply Hiff.
      destruct HG as [->| [->| ->]]; auto.
    + intros _. split.
      * intros Hf. injection Hf as ->.
        repeat split; intros E; assert (false = true) by (apply Hiff; auto);
          discriminate.
      * intros (H1 & H2 & H3). destruct b; [|reflexivity].
        destruct Hiff as [Hiff _]. destruct (Hiff eq_refl) as [E|[E|E]]; contradiction.
Qed.

Lemma C1_verify_window_witness :
  Totp.verify_otp Sample.utc Sample.settings (codepoints "256847") Sample.clock = Ok true
  <-> codepoints "256847" = codepoints (Pyotp.hotp 6 Sample.key (time_step Sample.clock - 1))
      \/ codepoints "256847" = codepoints (Pyotp.hotp 6 Sample.key (time_step Sample.clock))
      \/ codepoints "256847"
         = codepoints (Pyotp.hotp 6 Sample.key (time_step Sample.clock + 1)).
Proof.
  refine (proj1 (proj2 (C1_verify_window Sample.utc Sample.settings Sample.key
                          (codepoints "256847") Sample.clock _ _ _)) _).
  - vm_compute. reflexivity.
  - vm_compute. reflexivity.
  - vm_compute. discriminate.
  - vm_compute. reflexivity.
Defined.

(** C1, as stated, fails: on a machine on UTC, the code generated at
    time-step 56885100 (unix time 1706553000) is accepted two time-steps
    later, at unix time 1706553060, because the code of time-step 56885102
    is the same. *)
Lemma C1_counterexample :
  Totp.get_otp Sample.utc Sample.settings 1706553000 1706553000
  = Ok {| Totp.otp := "256847"; Totp.valid_for_seconds := 30;
          Totp.timestamp := 1706553000 |}
  /\ round_trip Sample.utc 1706553000 /\ round_trip Sample.utc 1706553060
  /\ time_step 1706553060 = time_step 1706553000 + 2
  /\ Totp.verify_otp Sample.utc Sample.settings (codepoints "256847") 1706553060 = Ok true.
Proof. vm_compute. repeat split; reflexivity. Qed.

(** C7, as amended.  For every candidate whose NFKC normal form holds no
    lone surrogate, from the second time-step on, [verify_otp] returns true
    or false and raises nothing; it returns true only if the candidate has
    the NFKC normal form of one of the three codes it compares with, so an
    ASCII candidate that is not a string of six digits gets false. *)
Theorem C7_verify_total
    (pl : Platform.t) (settings : Settings) (key : bytes) (candidate : list Z) (clock m : Z) :
  Pyotp.byte_secret (Totp._totp settings) = Ok key ->
  totp_time pl clock = Ok m ->
  30 <= m ->
  has_surrogate pl candidate = false ->
  exists b : bool,
    Totp.verify_otp pl settings candidate clock = Ok b
    /\ (b = true ->
        exists i, -1 <= i <= 1
          /\ same_normal_form pl candidate (Pyotp.hotp 6 key (time_step m + i)))
    /\ (ascii_only candidate = true -> six_digits candidate = false -> b = false).
Proof.
  intros Hk Hm Hc Hs.
  rewrite (verify_otp_window pl settings key candidate clock m) by assumption.
  rewrite Hs. eexists; split; [reflexivity|]. split.
  - rewrite !orb_true_iff, !same_normal_formb_spec.
    intros [[H|H]|H]; [exists (-1) | exists 0 | exists 1]; (split; [lia|]).
    + exact H.
    + now rewrite Z.add_0_r.
    + exact H.
  - intros Ha Hp.
    apply not_true_is_false. rewrite !orb_true_iff, !same_normal_formb_spec.
    rewrite !same_normal_form_ascii by (try assumption; apply hotp_ascii).
    intros [[E|E]|E]; rewrite E, <- passcode_six_digits, hotp_passcode in Hp;
      discriminate.
Qed.

Lemma C7_verify_total_witness :
  exists b : bool,
    Totp.verify_otp Sample.utc Sample.settings (codepoints "12345") Sample.clock = Ok b
    /\ b = false.
Proof.
  destruct (C7_verify_total Sample.utc Sample.settings Sample.key (codepoints "12345")
              Sample.clock Sample.clock)
    as [b [Hb [_ Hf]]].
  - vm_compute. reflexivity.
  - vm_compute. reflexivity.
  - vm_compute. discriminate.
  - vm_compute. reflexivity.
  - exists b. split; [exact Hb|]. apply Hf; vm_compute; reflexivity.
Defined.

(** C7, as stated, fails: superscript two followed by "56847" is not a
    string of six digits, yet [verify_otp] returns true for it while the
    code is "256847"; so it does for "256847" in full-width digits. *)
Lemma C7_counterexample :
  six_digits Sample.superscript_candidate = false
  /\ Sample.superscript_candidate <> codepoints "256847"
  /\ has_surrogate Sample.utc Sample.superscript_candidate = false
  /\ Totp.verify_otp Sample.utc Sample.settings Sample.superscript_candidate Sample.clock
     = Ok true
  /\ six_digits Sample.fullwidth_candidate = false
  /\ Totp.verify_otp Sample.utc Sample.settings Sample.fullwidth_candidate Sample.clock
     = Ok true.
Proof.
  split; [vm_compute; reflexivity|]. split; [vm_compute; discriminate|].
  vm_compute. repeat split; reflexivity.
Qed.

(** A candidate whose normal form holds a lone surrogate makes
    [verify_otp] raise UnicodeEncodeError, from the second time-step on:
    [strings_equal] encodes it to UTF-8 for the first comparison. *)
Theorem verify_surrogate_raises
    (pl : Platform.t) (settings : Settings) (key : bytes) (candidate : list Z)
    (clock m : Z) :
  Pyotp.byte_secret (Totp._totp settings) = Ok key ->
  totp_time pl clock = Ok m ->
  30 <= m ->
  has_surrogate pl candidate = true ->
  Totp.verify_otp pl settings candidate clock = Raise UnicodeEncodeError.
Proof.
  intros Hk Hm Hc Hs.
  rewrite (verify_otp_window pl settings key candidate clock m) by assumption.
  now rewrite Hs.
Qed.

Lemma verify_surrogate_raises_witness :
  Totp.verify_otp Sample.utc Sample.settings Sample.surrogate_candidate Sample.clock
  = Raise UnicodeEncodeError.
Proof.
  refine (verify_surrogate_raises Sample.utc Sample.settings Sample.key
            Sample.surrogate_candidate Sample.clock Sample.clock _ _ _ _).
  - vm_compute. reflexivity.
  - vm_compute. reflexivity.
  - vm_compute. discriminate.
  - vm_compute. reflexivity.
Defined.

(** When [datetime.fromtimestamp] returns: the local time and the two
    probes for a repeated hour fall in the years 1 to 9999. *)
Lemma local_ok (pl : Platform.t) (u : Z) :
  Datetime.MIN <= u + Platform.utcoffset pl u <= Datetime.MAX ->
  Datetime.local pl u = Ok (u + Platform.utcoffset pl u).
Proof.
  unfold Datetime.MIN, Datetime.MAX. intros H. unfold Datetime.local. cbv zeta.
  unfold Datetime.TM_MIN, Datetime.TM_MAX, Datetime.MIN, Datetime.MAX.
  destruct (Z.ltb_spec (u + Platform.utcoffset pl u) (-67768040609740800)); [lia|].
  destruct (Z.ltb_spec 67768036191676799 (u + Platform.utcoffset pl u)); [lia|].
  destruct (Z.ltb_spec (u + Platform.utcoffset pl u) (-62135596800)); [lia|].
  destruct (Z.ltb_spec 253402300799 (u + Platform.utcoffset pl u)); [lia|].
  reflexivity.
Qed.

Lemma fromtimestamp_ok (pl : Platform.t) (t : Z) :
  let wall := fun u => u + Platform.utcoffset pl u in
  let transition := wall t - wall (t - 86400) - 86400 in
  - 2 ^ 63 <= t < 2 ^ 63 ->
  Datetime.MIN <= wall t <= Datetime.MAX ->
  Datetime.MIN <= wall (t - 86400) <= Datetime.MAX ->
  (transition < 0 -> Datetime.MIN <= wall (t + transition) <= Datetime.MAX) ->
  Datetime.fromtimestamp pl t = Ok (wall t).
Proof.
  intros wall transition Ht Hw Hp Hq. unfold Datetime.fromtimestamp.
  destruct (Z.ltb_spec t (- 2 ^ 63)); [lia|].
  destruct (Z.leb_spec (2 ^ 63) t); [lia|]. cbn [orb].
  change Datetime.max_fold_seconds with 86400.
  rewrite (local_ok pl t) by exact Hw. cbn [rbind].
  rewrite (local_ok pl (t - 86400)) by exact Hp. cbn [rbind].
  fold (wall t). fold (wall (t - 86400)). fold transition.
  destruct (Z.ltb_spec transition 0) as [Hneg|_]; [|reflexivity].
  rewrite (local_ok pl (t + transition)) by (apply Hq; exact Hneg). reflexivity.
Qed.

(** On a machine on UTC every reading from the second day of year 1 to
    the end of year 9999 comes back from local time. *)
Lemma utc_round_trip (clock : Z) :
  Datetime.MIN + Datetime.max_fold_seconds <= clock <= Datetime.MAX ->
  round_trip Sample.utc clock.
Proof.
  unfold Datetime.MIN, Datetime.MAX, Datetime.max_fold_seconds. intros H.
  unfold round_trip, totp_time, Datetime.now.
  rewrite fromtimestamp_ok;
    unfold Datetime.MIN, Datetime.MAX; cbn [Platform.utcoffset Sample.utc];
    try (change (2 ^ 63) with 9223372036854775808); try lia.
  cbn [rbind]. unfold Datetime.mktime. cbn [Platform.mktime Sample.utc].
  f_equal. lia.
Qed.

(** On the time of Paris, between the changes to summer time of 2024 and
    of 2025, the readings that do not come back from local time are those
    of the hour that follows the return to winter time, in a process that
    has run since before it. *)
Lemma europe_paris_round_trip (clock : Z) :
  1711846800 + 86400 <= clock < 1743296400 ->
  (round_trip Sample.europe_paris clock
   <-> ~ (1729990800 <= clock < 1729990800 + 3600)).
Proof.
  intros H.
  unfold round_trip, totp_time, Datetime.now.
  rewrite fromtimestamp_ok;
    unfold Datetime.MIN, Datetime.MAX; cbn [Platform.utcoffset Sample.europe_paris];
    try (change (2 ^ 63) with 9223372036854775808);
    repeat match goal with
           | |- context [?a <? ?b] => destruct (Z.ltb_spec a b)
           end; try lia.
  all: cbn [rbind]; unfold Datetime.mktime; cbn [Platform.mktime Sample.europe_paris].
  all: repeat match goal with
              | |- context [?a <? ?b] => destruct (Z.ltb_spec a b)
              end; try lia.
  all: split; [intros E; injection E as E; lia | intros E; f_equal; lia].
Qed.

End TotpEngine.

(* ================================================================== *)
(** * The request authenticator: require_api_key, require_hmac_signature *)
(* ================================================================== *)

Section RequestAuthenticator.

Import PyStr Spec Config Auth.

Lemma non_ascii_neq_ascii (a b : string) :
  isascii a = false -> isascii b = true -> a <> b.
Proof. intros Ha Hb E. subst. congruence. Qed.

(** C9. Whatever the configured key, an X-API-Key header holding a
    non-ASCII character gets neither 401 nor 403: the comparison raises
    TypeError, which the application answers with status 500. *)
Theorem C9_non_ascii_api_key_raises (settings : Settings) (x_api_key : string) :
  isascii x_api_key = false ->
  require_api_key settings (Some x_api_key)
  = ([CompareDigest x_api_key (API_KEY settings)], Raise TypeError)
  /\ status_of TypeError = 500.
Proof.
  intros Hx. split; [|reflexivity].
  unfold require_api_key, bind, compare_digest.
  now rewrite compare_digest_str_non_ascii_l.
Qed.

Lemma C9_non_ascii_api_key_raises_witness :
  outcome (require_api_key Sample.settings (Some Sample.non_ascii)) = Raise TypeError.
Proof.
  refine (f_equal snd
            (proj1 (C9_non_ascii_api_key_raises Sample.settings Sample.non_ascii _))).
  vm_compute. reflexivity.
Defined.

(** C4 at its failing input: the header value C3 A9 differs from the
    configured key "k1", and the dependency raises TypeError (status 500)
    where the claim has 403. *)
Lemma C4_non_ascii_key_not_403 :
  Sample.non_ascii <> API_KEY Sample.settings
  /\ outcome (require_api_key Sample.settings (Some Sample.non_ascii)) = Raise TypeError
  /\ status_of TypeError <> 403.
Proof.
  split; [vm_compute; discriminate|]. split; [vm_compute; reflexivity|].
  vm_compute. discriminate.
Qed.

(** C3. With both headers present and the timestamp parsed, the request
    is rejected with 401 "expired" exactly when its age
    |clock - timestamp| exceeds 30; otherwise the dependency goes on to
    the digest and its comparison.  Age 30 passes and age 31 fails, for a
    timestamp in the past as for one in the future. *)
Theorem C3_freshness_window
    (api_key x_timestamp x_signature : string) (clock request_time : Z) :
  PyStr.int x_timestamp = Some request_time ->
  let age := Z.abs (clock - request_time) in
  let r := require_hmac_signature api_key (Some x_timestamp) (Some x_signature) clock in
  let passes :=
    outcome r <> Raise EXPIRED
    /\ trace r = [TimeTime; HmacNew (encode api_key) (encode x_timestamp);
                  CompareDigest x_signature (expected_signature api_key x_timestamp)] in
  (30 < age -> r = ([TimeTime], Raise EXPIRED))
  /\ (age <= 30 -> passes)
  /\ (request_time = clock - 30 \/ request_time = clock + 30 -> passes)
  /\ (request_time = clock - 31 \/ request_time = clock + 31 ->
      outcome r = Raise EXPIRED /\ status_of EXPIRED = 401).
Proof.
  intros Hts age r passes.
  assert (Hfresh : age <= 30 -> passes).
  { intros Hage. subst passes r.
    rewrite (hmac_signature_fresh api_key x_timestamp x_signature clock request_time)
      by assumption.
    split; [|reflexivity]. cbn [outcome snd].
    unfold Hmac.compare_digest_str, INVALID_SIGNATURE, EXPIRED.
    destruct (_ && _); [destruct (String.eqb _ _)|]; discriminate. }
  assert (Hstale : 30 < age -> r = ([TimeTime], Raise EXPIRED)).
  { intros Hage. subst r. now apply hmac_signature_stale with (t := request_time). }
  split; [exact Hstale|]. split; [exact Hfresh|]. split.
  - intros H. apply Hfresh. subst age. lia.
  - intros H. rewrite Hstale by (subst age; lia). split; reflexivity.
Qed.

Lemma C3_freshness_window_witness :
  outcome (require_hmac_signature "k1" (Some "1700000000"%string) (Some "00"%string)
             1700000031)
  = Raise EXPIRED.
Proof.
  refine (f_equal snd
            (proj1 (C3_freshness_window "k1" "1700000000" "00" 1700000031 1700000000 _) _)).
  - vm_compute. reflexivity.
  - vm_compute. reflexivity.
Defined.

(** C10. When the age of the parsed timestamp exceeds 30 the answer is
    401 "expired" whatever the signature header holds, the right digest
    included, and the only primitive called is the clock: no digest is
    computed and nothing is compared. *)
Theorem C10_expired_before_signature
    (api_key x_timestamp x_signature : string) (clock request_time : Z) :
  PyStr.int x_timestamp = Some request_time ->
  30 < Z.abs (clock - request_time) ->
  require_hmac_signature api_key (Some x_timestamp) (Some x_signature) clock
  = ([TimeTime], Raise EXPIRED)
  /\ require_hmac_signature api_key (Some x_timestamp)
       (Some (expected_signature api_key x_timestamp)) clock
     = ([TimeTime], Raise EXPIRED)
  /\ (forall key msg,
        ~ In (HmacNew key msg)
             (trace (require_hmac_signature api_key (Some x_timestamp)
                       (Some x_signature) clock)))
  /\ status_of EXPIRED = 401.
Proof.
  intros Hts Hage.
  rewrite !(hmac_signature_stale api_key x_timestamp _ clock request_time) by assumption.
  repeat split. intros key msg [H|[]]. discriminate H.
Qed.

Lemma C10_expired_before_signature_witness :
  require_hmac_signature "k1" (Some "1700000000"%string)
    (Some (expected_signature "k1" "1700000000")) 1700000100
  = ([TimeTime], Raise EXPIRED).
Proof.
  refine (proj1 (proj2 (C10_expired_before_signature "k1" "1700000000" "00"
                          1700000100 1700000000 _ _))).
  - vm_compute. reflexivity.
  - vm_compute. reflexivity.
Defined.

(** C6. The dependency runs on the value [require_api_key] returned, so a
    request whose key is refused never reaches it.  Then a missing
    X-Timestamp or X-Signature header is answered with 401, and a
    timestamp header that [int] does not parse with 400; in each case no
    primitive has been called: the clock has not been read, no digest
    computed, nothing compared. *)
Theorem C6_header_checks
    (settings : Settings) (api_key : string)
    (x_api_key x_timestamp x_signature : option string) (clock : Z) :
  (forall e,
      outcome (require_api_key settings x_api_key) = Raise e ->
      depends_hmac_signature settings x_api_key x_timestamp x_signature clock
      = (trace (require_api_key settings x_api_key), Raise e))
  /\ (forall k,
        outcome (require_api_key settings x_api_key) = Ok k ->
        x_api_key = Some k
        /\ outcome (depends_hmac_signature settings x_api_key x_timestamp x_signature clock)
           = outcome (require_hmac_signature k x_timestamp x_signature clock))
  /\ (x_timestamp = None \/ x_signature = None ->
      exists detail,
        require_hmac_signature api_key x_timestamp x_signature clock
        = ([], Raise (HTTPException 401 detail)))
  /\ (forall ts sig,
        x_timestamp = Some ts -> x_signature = Some sig -> PyStr.int ts = None ->
        require_hmac_signature api_key x_timestamp x_signature clock
        = ([], Raise (HTTPException 400 "X-Timestamp must be a unix integer"))).
Proof.
  repeat split.
  - intros e He. unfold depends_hmac_signature, bind.
    destruct (require_api_key settings x_api_key) as [tr [k|e']]; simpl in *;
      congruence.
  - destruct x_api_key as [x|]; [|discriminate].
    revert H. unfold require_api_key, bind, compare_digest, outcome. simpl.
    destruct (Hmac.compare_digest_str x (API_KEY settings)) as [[|]|e]; simpl;
      congruence.
  - unfold depends_hmac_signature, bind, outcome in *.
    destruct (require_api_key settings x_api_key) as [tr [k'|e']]; simpl in *;
      [|discriminate].
    injection H as ->.
    destruct (require_hmac_signature k x_timestamp x_signature clock). reflexivity.
  - intros [->| ->].
    + eexists. reflexivity.
    + destruct x_timestamp; eexists; reflexivity.
  - intros ts sig -> -> Hts. unfold require_hmac_signature. now rewrite Hts.
Qed.

Lemma C6_header_checks_witness :
  require_hmac_signature "k1" (Some "17e8"%string) (Some "00"%string) 1700000000
  = ([], Raise (HTTPException 400 "X-Timestamp must be a unix integer")).
Proof.
  refine (proj2 (proj2 (proj2
            (C6_header_checks Sample.settings "k1" (Some "k1"%string)
               (Some "17e8"%string) (Some "00"%string) 1700000000)))
            "17e8"%string "00"%string eq_refl eq_refl _).
  vm_compute. reflexivity.
Defined.

(** C2 at its failing input: with a fresh timestamp, the signature header
    C3 A9 differs from the expected digest, and the dependency raises
    TypeError (status 500) where the claim has 403. *)
Lemma C2_non_ascii_signature_not_403 :
  Sample.non_ascii <> expected_signature "k1" "1700000000"
  /\ outcome (require_hmac_signature "k1" (Some "1700000000"%string)
                (Some Sample.non_ascii) 1700000000)
     = Raise TypeError
  /\ status_of TypeError <> 403.
Proof.
  split; [vm_compute; discriminate|]. split; [vm_compute; reflexivity|].
  vm_compute. discriminate.
Qed.

End RequestAuthenticator.

Section RequestAuthenticatorAscii.

Import PyStr Spec Config Auth.

(** Within ASCII [require_api_key] is the three-way check of section 4.2:
    no header, 401; a key other than the configured one, 403; the
    configured key, returned to the handler.  Each present key goes
    through one call of [hmac.compare_digest]. *)
Theorem api_key_check_ascii (settings : Settings) (x_api_key : string) :
  isascii (API_KEY settings) = true ->
  isascii x_api_key = true ->
  require_api_key settings None
  = ([], Raise (HTTPException 401 "X-API-Key header is required"))
  /\ (x_api_key <> API_KEY settings ->
      require_api_key settings (Some x_api_key)
      = ([CompareDigest x_api_key (API_KEY settings)], Raise INVALID_API_KEY))
  /\ (x_api_key = API_KEY settings ->
      require_api_key settings (Some x_api_key)
      = ([CompareDigest x_api_key (API_KEY settings)], Ok x_api_key)).
Proof.
  intros Hk Hx. split; [reflexivity|].
  unfold require_api_key, bind, compare_digest.
  rewrite compare_digest_str_ascii by assumption.
  destruct (String.eqb_spec x_api_key (API_KEY settings)) as [E|E]; split;
    intros H; try contradiction; reflexivity.
Qed.

Lemma api_key_check_ascii_witness :
  require_api_key Sample.settings (Some "k2"%string)
  = ([CompareDigest "k2" "k1"], Raise INVALID_API_KEY).
Proof.
  refine (proj1 (proj2 (api_key_check_ascii Sample.settings "k2" _ _)) _).
  - vm_compute. reflexivity.
  - vm_compute. reflexivity.
  - vm_compute. discriminate.
Defined.

(** With a fresh timestamp and an ASCII signature header, the digest is
    computed over the UTF-8 bytes of the API key and of the timestamp
    header as received, the header is compared with it by one call of
    [hmac.compare_digest], and a header that differs is answered with
    403. *)
Theorem signature_check_ascii
    (api_key x_timestamp x_signature : string) (clock request_time : Z) :
  PyStr.int x_timestamp = Some request_time ->
  Z.abs (clock - request_time) <= 30 ->
  isascii x_signature = true ->
  let expected := Hmac.hexdigest Hashlib.sha256 (encode api_key) (encode x_timestamp) in
  require_hmac_signature api_key (Some x_timestamp) (Some x_signature) clock
  = ([TimeTime; HmacNew (encode api_key) (encode x_timestamp);
      CompareDigest x_signature expected],
     if String.eqb x_signature expected then Ok tt else Raise INVALID_SIGNATURE)
  /\ (x_signature <> expected ->
      outcome (require_hmac_signature api_key (Some x_timestamp) (Some x_signature) clock)
      = Raise INVALID_SIGNATURE)
  /\ status_of INVALID_SIGNATURE = 403.
Proof.
  intros Hts Hage Hsig expected.
  rewrite (hmac_signature_fresh api_key x_timestamp x_signature clock request_time)
    by assumption.
  fold expected. unfold expected_signature. fold expected.
  rewrite compare_digest_str_ascii
    by (try assumption; apply hexdigest_sha256_ascii).
  split; [|split; [|reflexivity]].
  - destruct (String.eqb x_signature expected); reflexivity.
  - intros Hne. cbn [outcome snd].
    destruct (String.eqb_spec x_signature expected); [contradiction | reflexivity].
Qed.

Lemma signature_check_ascii_witness :
  outcome (require_hmac_signature "k1" (Some "1700000000"%string) (Some "00"%string)
             1700000030)
  = Raise INVALID_SIGNATURE.
Proof.
  refine (proj1 (proj2 (signature_check_ascii "k1" "1700000000" "00"
                          1700000030 1700000000 _ _ _)) _).
  - vm_compute. reflexivity.
  - vm_compute. discriminate.
  - vm_compute. reflexivity.
  - vm_compute. discriminate.
Defined.

(** The digest is taken over the header text, not over the integer it
    parses to: two headers with one value have different digests. *)
Example signature_over_raw_header :
  PyStr.int "+1700000000" = PyStr.int "1700000000"
  /\ expected_signature "k1" "+1700000000" <> expected_signature "k1" "1700000000"
  /\ outcome (require_hmac_signature "k1" (Some "+1700000000"%string)
                (Some (expected_signature "k1" "1700000000")) 1700000000)
     = Raise INVALID_SIGNATURE.
Proof.
  split; [vm_compute; reflexivity|]. split; [vm_compute; discriminate|].
  vm_compute. reflexivity.
Qed.

End RequestAuthenticatorAscii.

(* ================================================================== *)
(** * Start-up: Settings and Settings._validate                         *)
(* ================================================================== *)

Section Startup.

Import PyStr Spec Config.

Lemma validate_fatal (self : Settings) (pl : Platform.t) (clock : Z) :
  API_KEY self = EmptyString \/ OTP_SECRET self = EmptyString
  \/ valid_base32 (OTP_SECRET self) = false ->
  snd (_validate self pl clock) = Raise (SystemExit 1)
  /\ fst (_validate self pl clock) <> [].
Proof.
  intros H.
  destruct (is_empty (API_KEY self)) eqn:Ea.
  { unfold _validate. rewrite Ea. simpl. split; [reflexivity | discriminate]. }
  destruct (is_empty (OTP_SECRET self)) eqn:Es.
  { unfold _validate. rewrite Ea, Es. simpl. split; [reflexivity | discriminate]. }
  destruct H as [H|[H|H]].
  - apply is_empty_spec in H. congruence.
  - apply is_empty_spec in H. congruence.
  - unfold _validate. rewrite Ea, Es. cbn [app].
    destruct (Pyotp.now (Pyotp.new (OTP_SECRET self)) pl clock) as [code|e] eqn:En.
    + apply now_ok in En. apply byte_secret_ok_iff in En. congruence.
    + split; [reflexivity | discriminate].
Qed.

(** C8. When API_KEY or OTP_SECRET is missing or empty, or OTP_SECRET is
    not valid base32, [_validate] prints a fatal message and exits with
    status 1; so [Settings()], which the application evaluates when it is
    imported, raises and no settings object comes to exist for the TOTP
    engine or the authenticator to run with. *)
Theorem C8_invalid_configuration_is_fatal (env : environ) (pl : Platform.t) (clock : Z) :
  getenv env "API_KEY" "" = EmptyString
  \/ getenv env "OTP_SECRET" "" = EmptyString
  \/ valid_base32 (getenv env "OTP_SECRET" "") = false ->
  (forall self : Settings,
      API_KEY self = getenv env "API_KEY" "" ->
      OTP_SECRET self = getenv env "OTP_SECRET" "" ->
      snd (_validate self pl clock) = Raise (SystemExit 1)
      /\ fst (_validate self pl clock) <> [])
  /\ (exists out e,
        Settings_init env pl clock = (out, Raise e)
        /\ (e = SystemExit 1
            \/ e = ValueError /\ PyStr.int (getenv env "PORT" "8000") = None))
  /\ (forall out settings, Settings_init env pl clock <> (out, Ok settings)).
Proof.
  intros H.
  assert (Hv : forall self : Settings,
             API_KEY self = getenv env "API_KEY" "" ->
             OTP_SECRET self = getenv env "OTP_SECRET" "" ->
             snd (_validate self pl clock) = Raise (SystemExit 1)
             /\ fst (_validate self pl clock) <> []).
  { intros self Ha Hs. apply validate_fatal. now rewrite Ha, Hs. }
  assert (Hi : exists out e,
             Settings_init env pl clock = (out, Raise e)
             /\ (e = SystemExit 1
                 \/ e = ValueError /\ PyStr.int (getenv env "PORT" "8000") = None)).
  { unfold Settings_init.
    destruct (PyStr.int (getenv env "PORT" "8000")) as [port|].
    - match goal with |- context [_validate ?s pl clock] => set (self := s) end.
      destruct (Hv self eq_refl eq_refl) as [Hr _].
      destruct (_validate self pl clock) as [out [u|e]]; simpl in Hr; [discriminate|].
      injection Hr as ->. exists out, (SystemExit 1). auto.
    - exists [], ValueError. auto. }
  split; [exact Hv|]. split; [exact Hi|].
  intros out settings E. destruct Hi as (out' & e & Hi & _). congruence.
Qed.

Lemma C8_invalid_configuration_is_fatal_witness :
  exists out,
    Settings_init (Sample.environ (Some "k1"%string) (Some "not base32!"%string))
      Sample.utc 0
    = (out, Raise (SystemExit 1)).
Proof.
  destruct (proj1 (proj2 (C8_invalid_configuration_is_fatal
                            (Sample.environ (Some "k1"%string)
                               (Some "not base32!"%string))
                            Sample.utc 0 (or_intror (or_intror eq_refl)))))
    as (out & e & Hinit & [He|[_ Hport]]).
  - exists out. now rewrite <- He.
  - vm_compute in Hport. discriminate Hport.
Defined.

(** A configuration with both variables set and a valid base32 secret is
    let through without a message (the local time that [pyotp] reads not
    being before 1970). *)
Theorem valid_configuration_accepted
    (self : Settings) (pl : Platform.t) (clock m : Z) :
  API_KEY self <> EmptyString -> OTP_SECRET self <> EmptyString ->
  valid_base32 (OTP_SECRET self) = true ->
  totp_time pl clock = Ok m -> 0 <= m ->
  _validate self pl clock = ([], Ok tt).
Proof.
  intros Ha Hs Hv Hm Hc. unfold _validate.
  destruct (is_empty (API_KEY self)) eqn:Ea; [apply is_empty_spec in Ea; contradiction|].
  destruct (is_empty (OTP_SECRET self)) eqn:Es; [apply is_empty_spec in Es; contradiction|].
  cbn [app]. apply byte_secret_ok_iff in Hv as [key Hk].
  rewrite (now_at pl _ key clock m) by assumption.
  reflexivity.
Qed.

Lemma valid_configuration_accepted_witness :
  _validate Sample.settings Sample.utc Sample.clock = ([], Ok tt).
Proof.
  refine (valid_configuration_accepted Sample.settings Sample.utc Sample.clock
            Sample.clock _ _ _ _ _).
  - vm_compute. discriminate.
  - vm_compute. discriminate.
  - vm_compute. reflexivity.
  - vm_compute. reflexivity.
  - vm_compute. discriminate.
Defined.

End Startup.

Section GenerateThenVerify.

Import PyStr Spec Config.

(** The code [get_otp] returns is accepted by [verify_otp] at the same
    instant, from the second time-step on. *)
Theorem verify_generated_code
    (pl : Platform.t) (settings : Settings) (key : bytes) (now clock_time m : Z) :
  Pyotp.byte_secret (Totp._totp settings) = Ok key ->
  totp_time pl now = Ok m ->
  30 <= m ->
  exists r, Totp.get_otp pl settings now clock_time = Ok r
            /\ Totp.verify_otp pl settings (codepoints (Totp.otp r)) now = Ok true.
Proof.
  intros Hk Hm Hnow. eexists.
  split; [apply (get_otp_at pl settings key now clock_time m); [assumption..| lia]|].
  cbn [Totp.otp].
  pose proof (hotp_ascii key (time_step m)) as Hp.
  destruct (verify_otp_code pl settings key _ now m Hk Hm Hnow Hp) as [b [Hb Hiff]].
  rewrite Hb. f_equal. apply Hiff. auto.
Qed.

Lemma verify_generated_code_witness :
  exists r, Totp.get_otp Sample.utc Sample.settings Sample.clock Sample.clock = Ok r
            /\ Totp.verify_otp Sample.utc Sample.settings (codepoints (Totp.otp r))
                 Sample.clock = Ok true.
Proof.
  refine (verify_generated_code Sample.utc Sample.settings Sample.key Sample.clock
            Sample.clock Sample.clock _ _ _).
  - vm_compute. reflexivity.
  - vm_compute. reflexivity.
  - vm_compute. discriminate.
Defined.

End GenerateThenVerify.

(* ================================================================== *)
(** * Timing of the codes                                               *)
(* ================================================================== *)

Section CodeTiming.

Import PyStr Spec Config.





(** A code is accepted at every verification time within thirty seconds
    of the time it was generated at, earlier or later, when both instants
    come back from local time. *)
Theorem code_accepted_within_30_seconds
    (pl : Platform.t) (settings : Settings) (key : bytes)
    (generated clock_time verified : Z) :
  Pyotp.byte_secret (Totp._totp settings) = Ok key ->
  round_trip pl generated ->
  round_trip pl verified ->
  0 <= generated ->
  30 <= verified ->
  Z.abs (verified - generated) <= 30 ->
  exists r,
    Totp.get_otp pl settings generated clock_time = Ok r
    /\ Totp.verify_otp pl settings (codepoints (Totp.otp r)) verified = Ok true.
Proof.
  intros Hk Hug Huv Hg Hv Hd. eexists.
  split; [now apply (get_otp_at pl settings key generated clock_time generated)|].
  cbn [Totp.otp].
  pose proof (hotp_ascii key (time_step generated)) as Hp.
  destruct (verify_otp_code pl settings key _ verified verified Hk Huv Hv Hp)
    as [b [Hb Hiff]].
  rewrite Hb. f_equal. apply Hiff.
  assert (Hs : time_step generated = time_step verified - 1
               \/ time_step generated = time_step verified
               \/ time_step generated = time_step verified + 1).
  { unfold time_step.
    pose proof (Z.div_mod generated 30 ltac:(lia)).
    pose proof (Z.mod_pos_bound generated 30 ltac:(lia)).
    pose proof (Z.div_mod verified 30 ltac:(lia)).
    pose proof (Z.mod_pos_bound verified 30 ltac:(lia)).
    lia. }
  destruct Hs as [->|[->| ->]]; auto.
Qed.

Lemma code_accepted_within_30_seconds_witness :
  exists r,
    Totp.get_otp Sample.utc Sample.settings 1706553029 1706553029 = Ok r
    /\ Totp.verify_otp Sample.utc Sample.settings (codepoints (Totp.otp r)) 1706553059
       = Ok true.
Proof.
  refine (code_accepted_within_30_seconds Sample.utc Sample.settings Sample.key
            1706553029 1706553029 1706553059 _ _ _ _ _ _).
  - vm_compute. reflexivity.
  - vm_compute. reflexivity.
  - vm_compute. reflexivity.
  - vm_compute. discriminate.
  - vm_compute. discriminate.
  - vm_compute. discriminate.
Defined.

(** When clocks are set back the code of one second is refused in the
    next: on a machine on the time of Paris, in a process that has run
    since before the change, the code generated at unix time
    1729990799 (02:59:59 on 2024-10-27, for the first time) is "306048", and
    at 1729990800 (02:00:00, for the second time) [verify_otp] compares
    with the codes of an hour earlier and rejects it. *)
Theorem code_refused_when_clocks_go_back :
  Totp.get_otp Sample.europe_paris Sample.settings 1729990799 1729990799
  = Ok {| Totp.otp := "306048"; Totp.valid_for_seconds := 1;
          Totp.timestamp := 1729990799 |}
  /\ round_trip Sample.europe_paris 1729990799
  /\ totp_time Sample.europe_paris 1729990800 = Ok (1729990800 - 3600)
  /\ Totp.verify_otp Sample.europe_paris Sample.settings (codepoints "306048") 1729990800
     = Ok false.
Proof. vm_compute. repeat split; reflexivity. Qed.

End CodeTiming.

(* ================================================================== *)
(** * The secret in either case                                         *)
(* ================================================================== *)

Section SecretCase.

Import PyStr Spec Config.

Lemma ord_lower_char (a : ascii) : ord (lower_char a) = Shape.lower_code (ord a).
Proof.
  unfold lower_char, Shape.lower_code. pose proof (ord_range a).
  destruct ((65 <=? ord a) && (ord a <=? 90)) eqn:E; [|reflexivity].
  apply andb_true_iff in E as [E1 E2]. apply Z.leb_le in E1, E2.
  apply ord_chr. lia.
Qed.

Lemma codepoints_lower (s : string) :
  codepoints (lower s) = map Shape.lower_code (codepoints s).
Proof.
  induction s as [|a r IH]; [reflexivity|].
  cbn [lower codepoints map]. now rewrite ord_lower_char, IH.
Qed.

Lemma upper_lower_code (c : Z) : Base64.upper (Shape.lower_code c) = Base64.upper c.
Proof.
  unfold Base64.upper, Shape.lower_code.
  destruct (Z.leb_spec 65 c), (Z.leb_spec c 90); cbn [andb];
    destruct (Z.leb_spec 97 c), (Z.leb_spec c 122); cbn [andb]; try lia;
    destruct (Z.leb_spec 97 (c + 32)), (Z.leb_spec (c + 32) 122); cbn [andb]; lia.
Qed.

Lemma lower_code_ascii (c : Z) : (Shape.lower_code c <? 128) = (c <? 128).
Proof.
  unfold Shape.lower_code.
  destruct (Z.leb_spec 65 c), (Z.leb_spec c 90); cbn [andb]; try reflexivity.
  destruct (Z.ltb_spec (c + 32) 128), (Z.ltb_spec c 128); try reflexivity; lia.
Qed.

(** [b32decode] sees its argument through its length, whether it is
    ASCII, and its upper-case form. *)
Lemma b32decode_casefold_ext (s t : string) :
  isascii s = isascii t ->
  List.length (codepoints s) = List.length (codepoints t) ->
  map Base64.upper (codepoints s) = map Base64.upper (codepoints t) ->
  Base64.b32decode_casefold s = Base64.b32decode_casefold t.
Proof.
  intros Ha Hl Hu. unfold Base64.b32decode_casefold. now rewrite Ha, Hl, Hu.
Qed.

Lemma lower_length (s : string) : String.length (lower s) = String.length s.
Proof. induction s; simpl; congruence. Qed.

Lemma byte_secret_lower (s : string) :
  Pyotp.byte_secret (Pyotp.new (lower s)) = Pyotp.byte_secret (Pyotp.new s).
Proof.
  unfold Pyotp.byte_secret. cbn [Pyotp.secret Pyotp.new]. cbv zeta.
  rewrite lower_length.
  set (pads := of_codepoints (repeat Base64.PAD (8 - String.length s mod 8))).
  assert (H : forall p : string,
             Base64.b32decode_casefold (lower s ++ p) = Base64.b32decode_casefold (s ++ p)).
  { intros p. apply b32decode_casefold_ext.
    - unfold isascii. rewrite !codepoints_append, !forallb_app, codepoints_lower.
      f_equal. induction (codepoints s) as [|c r IH]; [reflexivity|].
      cbn [map forallb]. now rewrite lower_code_ascii, IH.
    - now rewrite !codepoints_append, !length_app, codepoints_lower, length_map.
    - rewrite !codepoints_append, !map_app, codepoints_lower, map_map.
      f_equal. apply map_ext. apply upper_lower_code. }
  destruct (Nat.eqb (String.length s mod 8) 0).
  - generalize (H EmptyString).
    replace (lower s ++ "")%string with (lower s)
      by (clear; induction (lower s); simpl; congruence).
    replace (s ++ "")%string with s by (clear; induction s; simpl; congruence).
    auto.
  - apply H.
Qed.

Lemma generate_otp_lower (s : string) (input : Z) :
  Pyotp.generate_otp (Pyotp.new (lower s)) input = Pyotp.generate_otp (Pyotp.new s) input.
Proof.
  unfold Pyotp.generate_otp. now rewrite byte_secret_lower.
Qed.

(** The secret may be written in lower case: the codes [get_otp] returns
    and the answers of [verify_otp] are those of the secret as given. *)
Theorem secret_case_insensitive
    (pl : Platform.t) (settings : Settings) (candidate : list Z)
    (clock_totp clock_time clock : Z) :
  let lowered := Shape.with_secret settings (lower (OTP_SECRET settings)) in
  Totp.get_otp pl lowered clock_totp clock_time
  = Totp.get_otp pl settings clock_totp clock_time
  /\ Totp.verify_otp pl lowered candidate clock = Totp.verify_otp pl settings candidate clock.
Proof.
  cbv zeta. split.
  - unfold Totp.get_otp, Totp._totp, Pyotp.now. cbn [OTP_SECRET Shape.with_secret].
    destruct (Datetime.now pl clock_totp) as [d|e]; cbn [rbind]; [|reflexivity].
    cbn [Pyotp.timecode Pyotp.interval Pyotp.new].
    now rewrite generate_otp_lower.
  - unfold Totp.verify_otp, Totp._totp, Pyotp.verify. cbn [OTP_SECRET Shape.with_secret].
    cbv zeta.
    destruct (Datetime.now pl clock) as [d|e]; cbn [rbind]; [|reflexivity].
    destruct (negb (1 =? 0)).
    + induction (Pyotp.range (- (1)) (1 + 1)) as [|i rest IH]; [reflexivity|].
      cbn [Pyotp.verify_loop]. unfold Pyotp.at_. rewrite generate_otp_lower.
      cbn [Pyotp.timecode Pyotp.interval Pyotp.new].
      destruct (Pyotp.generate_otp (Pyotp.new (OTP_SECRET settings)) _) as [code|e];
        cbn [rbind]; [|reflexivity].
      destruct (Pyotp.strings_equal pl candidate (codepoints code)) as [[]|e];
        cbn [rbind]; [reflexivity | exact IH | reflexivity].
    + unfold Pyotp.at_. rewrite generate_otp_lower. reflexivity.
Qed.

End SecretCase.

(* ================================================================== *)
(** * Signatures: their shape, their replay, the client's computation   *)
(* ================================================================== *)

Section Signatures.

Import PyStr Spec Config Auth.

Lemma sha256_rounds_length (ks : list Z) :
  forall (w : list Z) (st : Hashlib.sha256_state),
    List.length st = 8%nat -> List.length (Hashlib.sha256_rounds ks w st) = 8%nat.
Proof.
  induction ks as [|k ks IH]; intros w st Hst; [exact Hst|].
  do 8 (destruct st as [|? st]; [discriminate Hst|]).
  destruct st; [|discriminate Hst].
  cbn [Hashlib.sha256_rounds]. apply IH. reflexivity.
Qed.

Lemma add32s_length (xs ys : list Z) :
  List.length xs = List.length ys ->
  List.length (Hashlib.add32s xs ys) = List.length xs.
Proof.
  revert ys. induction xs as [|x xs IH]; intros [|y ys] H; simpl in *;
    try reflexivity; try discriminate.
  f_equal. apply IH. congruence.
Qed.

Lemma sha256_compress_length (st : Hashlib.sha256_state) (block : list Z) :
  List.length st = 8%nat -> List.length (Hashlib.sha256_compress st block) = 8%nat.
Proof.
  intros H. unfold Hashlib.sha256_compress.
  rewrite add32s_length; [exact H|]. now rewrite sha256_rounds_length.
Qed.

Lemma blocks_sha256_length (n : nat) :
  forall (ws : list Z) (st : Hashlib.sha256_state),
    List.length st = 8%nat ->
    List.length (Hashlib.blocks Hashlib.sha256_compress n ws st) = 8%nat.
Proof.
  induction n as [|n IH]; intros ws st H; [exact H|].
  cbn [Hashlib.blocks]. apply IH. now apply sha256_compress_length.
Qed.

Lemma flat_map_be_bytes_length (ws : list Z) :
  List.length (flat_map (Hashlib.be_bytes 4) ws) = (4 * List.length ws)%nat.
Proof.
  induction ws as [|w r IH]; [reflexivity|].
  change (flat_map (Hashlib.be_bytes 4) (w :: r))
    with (Hashlib.be_bytes 4 w ++ flat_map (Hashlib.be_bytes 4) r).
  rewrite length_app, IH. unfold Hashlib.be_bytes.
  rewrite length_map, length_rev, length_seq. cbn [List.length]. lia.
Qed.

Lemma sha256_length (m : bytes) : List.length (Hashlib.sha256 m) = 32%nat.
Proof.
  unfold Hashlib.sha256. cbv zeta.
  rewrite flat_map_be_bytes_length, blocks_sha256_length; reflexivity.
Qed.

Lemma hex_length (b : bytes) : String.length (hex b) = (2 * List.length b)%nat.
Proof. induction b as [|x r IH]; [reflexivity|]. cbn [hex String.length List.length]. lia. Qed.

Lemma hex_digit_lower (d : Z) : 0 <= d < 16 -> Shape.is_lower_hex (ord (hex_digit d)) = true.
Proof.
  intros H. unfold hex_digit, Shape.is_lower_hex.
  destruct (Z.ltb_spec d 10); rewrite ord_chr by lia.
  - apply orb_true_iff. left. apply andb_true_iff. split; apply Z.leb_le; lia.
  - apply orb_true_iff. right. apply andb_true_iff. split; apply Z.leb_le; lia.
Qed.

Lemma hex_lower (b : bytes) :
  Forall is_byte b -> forallb Shape.is_lower_hex (codepoints (hex b)) = true.
Proof.
  induction 1 as [|x r Hx _ IH]; [reflexivity|].
  cbn [hex codepoints forallb]. rewrite IH, andb_true_r.
  unfold is_byte in Hx.
  rewrite !hex_digit_lower; [reflexivity| |].
  - change 15 with (Z.ones 4). rewrite Z.land_ones by lia. apply Z.mod_pos_bound. lia.
  - rewrite Z.shiftr_div_pow2 by lia. change (2 ^ 4) with 16.
    split; [apply Z.div_pos; lia | apply Z.div_lt_upper_bound; lia].
Qed.

Lemma expected_signature_shape (api_key x_timestamp : string) :
  Shape.is_sha256_hex (expected_signature api_key x_timestamp) = true.
Proof.
  unfold Shape.is_sha256_hex, expected_signature, Hmac.hexdigest, Hmac.digest.
  rewrite hex_length, sha256_length, hex_lower by apply sha256_range.
  reflexivity.
Qed.

(** The digest a signature is compared with is a string of 64 lower-case
    hexadecimal digits, so with a fresh timestamp every ASCII signature
    header of another length, or holding another character (an upper-case
    digit for one), is answered with 403. *)
Theorem malformed_signature_rejected
    (api_key x_timestamp x_signature : string) (clock request_time : Z) :
  PyStr.int x_timestamp = Some request_time ->
  Z.abs (clock - request_time) <= 30 ->
  isascii x_signature = true ->
  Shape.is_sha256_hex x_signature = false ->
  Shape.is_sha256_hex (expected_signature api_key x_timestamp) = true
  /\ outcome (require_hmac_signature api_key (Some x_timestamp) (Some x_signature) clock)
     = Raise INVALID_SIGNATURE.
Proof.
  intros Hts Hage Ha Hshape. split; [apply expected_signature_shape|].
  rewrite (hmac_signature_fresh api_key x_timestamp x_signature clock request_time)
    by assumption.
  cbn [outcome snd].
  rewrite compare_digest_str_ascii by (try assumption; apply hexdigest_sha256_ascii).
  destruct (String.eqb_spec x_signature (expected_signature api_key x_timestamp)) as [E|_];
    [|reflexivity].
  rewrite E, expected_signature_shape in Hshape. discriminate.
Qed.

Lemma malformed_signature_rejected_witness :
  outcome (require_hmac_signature "k1" (Some "1700000000"%string)
             (Some "A56CAF8668EE5E3099710111777AAB5278CAA63D6725568D4EA4562DC7C3316F"%string)
             1700000000)
  = Raise INVALID_SIGNATURE.
Proof.
  refine (proj2 (malformed_signature_rejected "k1" "1700000000"
                   "A56CAF8668EE5E3099710111777AAB5278CAA63D6725568D4EA4562DC7C3316F"
                   1700000000 1700000000 _ _ _ _)).
  - vm_compute. reflexivity.
  - vm_compute. discriminate.
  - vm_compute. reflexivity.
  - vm_compute. reflexivity.
Defined.

(** A signed request that is accepted at one reading of the clock is
    accepted at every reading within 30 seconds of its timestamp, with the
    same calls, and at no other reading: nothing of the request is used up. *)
Theorem signature_replay_window
    (api_key x_timestamp x_signature : string) (clock clock' request_time : Z) :
  PyStr.int x_timestamp = Some request_time ->
  outcome (require_hmac_signature api_key (Some x_timestamp) (Some x_signature) clock)
  = Ok tt ->
  (Z.abs (clock' - request_time) <= 30 ->
   require_hmac_signature api_key (Some x_timestamp) (Some x_signature) clock'
   = require_hmac_signature api_key (Some x_timestamp) (Some x_signature) clock)
  /\ (outcome (require_hmac_signature api_key (Some x_timestamp) (Some x_signature) clock')
      = Ok tt
      <-> Z.abs (clock' - request_time) <= 30).
Proof.
  intros Hts Hok.
  assert (Hfresh : Z.abs (clock - request_time) <= 30).
  { destruct (Z.le_gt_cases (Z.abs (clock - request_time)) 30) as [H|H]; [exact H|].
    rewrite (hmac_signature_stale api_key x_timestamp x_signature clock request_time)
      in Hok by (try assumption; lia).
    discriminate Hok. }
  assert (Hsame : Z.abs (clock' - request_time) <= 30 ->
                  require_hmac_signature api_key (Some x_timestamp) (Some x_signature) clock'
                  = require_hmac_signature api_key (Some x_timestamp) (Some x_signature)
                      clock).
  { intros H.
    rewrite !(hmac_signature_fresh api_key x_timestamp x_signature _ request_time)
      by assumption.
    reflexivity. }
  split; [exact Hsame|]. split.
  - intros Hok'.
    destruct (Z.le_gt_cases (Z.abs (clock' - request_time)) 30) as [H|H]; [exact H|].
    rewrite (hmac_signature_stale api_key x_timestamp x_signature clock' request_time)
      in Hok' by (try assumption; lia).
    discriminate Hok'.
  - intros H. now rewrite (Hsame H).
Qed.

Lemma signature_replay_window_witness :
  outcome (require_hmac_signature "k1" (Some "1700000000"%string)
             (Some (expected_signature "k1" "1700000000")) 1700000030)
  = Ok tt.
Proof.
  refine (proj2 (proj2 (signature_replay_window "k1" "1700000000"
                          (expected_signature "k1" "1700000000")
                          1699999970 1700000030 1700000000 _ _)) _).
  - vm_compute. reflexivity.
  - vm_compute. reflexivity.
  - vm_compute. discriminate.
Defined.

End Signatures.

(* ================================================================== *)
(** * The client's computation                                          *)
(* ================================================================== *)

Section ClientComputation.

Import PyStr Spec Config Auth.

Lemma digit_char_code (n : Z) :
  0 <= n -> ord (chr (48 + n mod 10)) = 48 + n mod 10
            /\ is_digit (48 + n mod 10) = true.
Proof.
  intros Hn. pose proof (Z.mod_pos_bound n 10 ltac:(lia)) as Hm.
  split; [apply ord_chr; lia|].
  unfold is_digit. apply andb_true_iff. split; apply Z.leb_le; lia.
Qed.

(** Reading back the digits that [str] writes. *)
Lemma scan_str_digits (fuel : nat) :
  forall (n : Z) (acc : string) (a k : Z),
    0 <= n < 2 ^ Z.of_nat (S fuel) ->
    exists d,
      1 <= d <= Z.of_nat (S fuel)
      /\ scan_digits (codepoints (str_digits (S fuel) n acc)) a k
         = scan_digits (codepoints acc) (a * 10 ^ d + n) (k + d).
Proof.
  induction fuel as [|fuel IH]; intros n acc a k Hn;
    change (str_digits (S ?f) n acc)
      with (let acc' := String (chr (48 + n mod 10)) acc in
            if n / 10 =? 0 then acc' else str_digits f (n / 10) acc');
    cbv zeta;
    destruct (digit_char_code n ltac:(lia)) as [Hord Hdig];
    pose proof (Z.div_mod n 10 ltac:(lia)) as Hdm;
    assert (Hstep : forall a' k',
               scan_digits (codepoints (String (chr (48 + n mod 10)) acc)) a' k'
               = scan_digits (codepoints acc) (10 * a' + n mod 10) (k' + 1))
      by (intros a' k'; cbn [codepoints scan_digits]; rewrite Hord, Hdig;
          f_equal; lia).
  - change (2 ^ Z.of_nat 1) with 2 in Hn.
    replace (n / 10) with 0 by (symmetry; apply Z.div_small; lia).
    cbn [Z.eqb]. exists 1. split; [lia|]. rewrite Hstep, Z.pow_1_r.
    pose proof (Z.mod_small n 10 ltac:(lia)). f_equal; lia.
  - destruct (Z.eqb_spec (n / 10) 0) as [E|E].
    + exists 1. split; [lia|]. rewrite Hstep, Z.pow_1_r. f_equal; lia.
    + assert (Hq : 0 <= n / 10 < 2 ^ Z.of_nat (S fuel)).
      { split; [apply Z.div_pos; lia|].
        rewrite (Nat2Z.inj_succ (S fuel)), Z.pow_succ_r in Hn by lia.
        apply Z.div_lt_upper_bound; lia. }
      destruct (IH (n / 10) (String (chr (48 + n mod 10)) acc) a k Hq) as [d [Hd Hs]].
      exists (d + 1). split; [lia|]. rewrite Hs, Hstep.
      rewrite Z.pow_add_r, Z.pow_1_r by lia. f_equal; lia.
Qed.

Lemma str_digits_head (fuel : nat) :
  forall (n : Z) (acc : string),
    0 <= n ->
    exists c r, codepoints (str_digits (S fuel) n acc) = c :: r /\ is_digit c = true.
Proof.
  induction fuel as [|fuel IH]; intros n acc Hn.
  - cbn [str_digits]. cbv zeta.
    destruct (digit_char_code n Hn) as [Hord Hdig].
    destruct (n / 10 =? 0); cbn [codepoints]; rewrite Hord; eauto.
  - change (str_digits (S (S fuel)) n acc)
      with (let acc' := String (chr (48 + n mod 10)) acc in
            if n / 10 =? 0 then acc' else str_digits (S fuel) (n / 10) acc').
    cbv zeta. destruct (digit_char_code n Hn) as [Hord Hdig].
    destruct (n / 10 =? 0).
    + cbn [codepoints]. rewrite Hord. eauto.
    + apply IH. apply Z.div_pos; lia.
Qed.

Lemma digit_not_space (c : Z) : is_digit c = true -> is_space c = false.
Proof.
  unfold is_digit, is_space. intros H. apply andb_true_iff in H as [H1 H2].
  apply Z.leb_le in H1, H2.
  destruct (Z.leb_spec 9 c), (Z.leb_spec c 13), (Z.eqb_spec c 32),
    (Z.eqb_spec c 0x85), (Z.eqb_spec c 0xA0); cbn [andb orb]; try reflexivity; lia.
Qed.

(** [int] reads back what [str] writes for a natural number (of no more
    than 4300 binary digits, which keeps it below the limit on decimal
    ones). *)
Lemma int_str (n : Z) : 0 <= n < 2 ^ 4300 -> PyStr.int (PyStr.str n) = Some n.
Proof.
  intros Hn. unfold PyStr.str. destruct (Z.ltb_spec n 0) as [|_]; [lia|].
  set (fuel := S (Z.to_nat (Z.log2 n))).
  assert (Hlog : 0 <= Z.log2 n < 4300).
  { split; [apply Z.log2_nonneg|].
    destruct (Z.eq_dec n 0) as [->|Hz]; [reflexivity|].
    apply Z.log2_lt_pow2; lia. }
  assert (Hfuel : 0 <= n < 2 ^ Z.of_nat fuel).
  { split; [lia|]. subst fuel. rewrite Nat2Z.inj_succ, Z2Nat.id by lia.
    destruct (Z.eq_dec n 0) as [->|Hz]; [reflexivity|].
    apply Z.log2_spec. lia. }
  destruct (str_digits_head (Z.to_nat (Z.log2 n)) n EmptyString ltac:(lia))
    as (c & r & Hcr & Hc).
  fold fuel in Hcr.
  destruct (scan_str_digits (Z.to_nat (Z.log2 n)) n EmptyString 0 0 Hfuel) as [d [Hd Hs]].
  fold fuel in Hd, Hs.
  unfold PyStr.int. rewrite Hcr. cbn [lstrip]. rewrite (digit_not_space c Hc).
  assert (H43 : (c =? 43) = false /\ (c =? 45) = false).
  { unfold is_digit in Hc. apply andb_true_iff in Hc as [H1 H2].
    apply Z.leb_le in H1, H2. split; apply Z.eqb_neq; lia. }
  destruct H43 as [-> ->].
  unfold int_unsigned. rewrite Hc, <- Hcr, Hs. cbn [codepoints scan_digits lstrip].
  unfold MAX_STR_DIGITS.
  destruct (Z.leb_spec (0 + d) 4300) as [_|Hbig].
  - f_equal; lia.
  - exfalso. subst fuel. rewrite Nat2Z.inj_succ, Z2Nat.id in Hd by lia. lia.
Qed.

(** The computation the docstring of [require_hmac_signature] gives the
    client is the one the server accepts: with the configured key in
    X-API-Key, the decimal form of a unix time within 30 seconds of the
    server's clock in X-Timestamp, and the HMAC-SHA256 hex digest of that
    text under the key in X-Signature, the dependency returns. *)
Theorem documented_client_accepted (settings : Settings) (timestamp clock : Z) :
  isascii (API_KEY settings) = true ->
  0 <= timestamp < 2 ^ 4300 ->
  Z.abs (clock - timestamp) <= 30 ->
  let x_timestamp := PyStr.str timestamp in
  let x_signature :=
    Hmac.hexdigest Hashlib.sha256 (encode (API_KEY settings)) (encode x_timestamp) in
  PyStr.int x_timestamp = Some timestamp
  /\ outcome (depends_hmac_signature settings (Some (API_KEY settings))
                (Some x_timestamp) (Some x_signature) clock)
     = Ok tt.
Proof.
  intros Ha Ht Hage x_timestamp x_signature.
  assert (Hint : PyStr.int x_timestamp = Some timestamp) by now apply int_str.
  split; [exact Hint|].
  unfold depends_hmac_signature, require_api_key, bind, compare_digest.
  rewrite compare_digest_str_ascii, String.eqb_refl by assumption.
  cbn [negb ret].
  rewrite (hmac_signature_fresh (API_KEY settings) x_timestamp x_signature clock timestamp)
    by assumption.
  cbn [outcome snd]. fold x_signature.
  change (expected_signature (API_KEY settings) x_timestamp) with x_signature.
  rewrite compare_digest_str_ascii by (apply hexdigest_sha256_ascii).
  now rewrite String.eqb_refl.
Qed.

Lemma documented_client_accepted_witness :
  outcome (depends_hmac_signature Sample.settings (Some "k1"%string)
             (Some (PyStr.str 1700000000))
             (Some (Hmac.hexdigest Hashlib.sha256 (encode "k1")
                      (encode (PyStr.str 1700000000))))
             1700000012)
  = Ok tt.
Proof.
  refine (proj2 (documented_client_accepted Sample.settings 1700000000 1700000012 _ _ _)).
  - vm_compute. reflexivity.
  - split; [vm_compute; discriminate | reflexivity].
  - vm_compute. discriminate.
Defined.

End ClientComputation.

(* ================================================================== *)
(** * The routes                                                        *)
(* ================================================================== *)

Section RouteLemmas.

Import PyStr Spec Config Auth Main Routes.

Lemma api_key_outcome (settings : Settings) (x_api_key : option string) :
  outcome (require_api_key settings x_api_key)
  = match x_api_key with
    | None => Raise (HTTPException 401 "X-API-Key header is required")
    | Some x =>
        if isascii x && isascii (API_KEY settings)
        then if String.eqb x (API_KEY settings) then Ok x else Raise INVALID_API_KEY
        else Raise TypeError
    end.
Proof.
  destruct x_api_key as [x|]; [|reflexivity].
  unfold require_api_key, bind, compare_digest, Hmac.compare_digest_str.
  destruct (isascii x && isascii (API_KEY settings)); [|reflexivity].
  destruct (String.eqb x (API_KEY settings)); reflexivity.
Qed.

Lemma api_key_ok (settings : Settings) (x_api_key : option string) (k : string) :
  outcome (require_api_key settings x_api_key) = Ok k ->
  x_api_key = Some (API_KEY settings) /\ k = API_KEY settings.
Proof.
  rewrite api_key_outcome. destruct x_api_key as [x|]; [|discriminate].
  destruct (isascii x && isascii (API_KEY settings)); [|discriminate].
  destruct (String.eqb_spec x (API_KEY settings)) as [->|_]; [|discriminate].
  intros H. injection H as <-. auto.
Qed.

Lemma api_key_raise (settings : Settings) (x_api_key : option string) (e : exn) :
  outcome (require_api_key settings x_api_key) = Raise e ->
  x_api_key <> Some (API_KEY settings) \/ isascii (API_KEY settings) = false.
Proof.
  rewrite api_key_outcome. destruct x_api_key as [x|]; [|left; discriminate].
  destruct (isascii x) eqn:Hx, (isascii (API_KEY settings)) eqn:Hk; cbn [andb].
  - destruct (String.eqb_spec x (API_KEY settings)) as [->|Hne]; [discriminate|].
    intros _. left. congruence.
  - auto.
  - intros _. left. intros E. injection E as ->. congruence.
  - auto.
Qed.

Lemma api_key_raise_status (settings : Settings) (x_api_key : option string) (e : exn) :
  outcome (require_api_key settings x_api_key) = Raise e ->
  respond (Raise e) = respond (Raise (HTTPException 401 "X-API-Key header is required"))
  \/ respond (Raise e) = respond (Raise INVALID_API_KEY)
  \/ respond (Raise e) = respond (Raise TypeError).
Proof.
  rewrite api_key_outcome. destruct x_api_key as [x|].
  - destruct (isascii x && isascii (API_KEY settings)).
    + destruct (String.eqb x (API_KEY settings)); [discriminate|].
      intros H. injection H as <-. auto.
    + intros H. injection H as <-. auto.
  - intros H. injection H as <-. auto.
Qed.

Lemma hmac_signature_ok
    (api_key : string) (x_timestamp x_signature : option string) (clock : Z) (u : unit) :
  outcome (require_hmac_signature api_key x_timestamp x_signature clock) = Ok u ->
  exists ts t,
    x_timestamp = Some ts /\ PyStr.int ts = Some t /\ Z.abs (clock - t) <= 30
    /\ x_signature = Some (expected_signature api_key ts).
Proof.
  destruct x_timestamp as [ts|]; [|discriminate].
  destruct x_signature as [sig|]; [|discriminate].
  destruct (PyStr.int ts) as [t|] eqn:Hts;
    [|unfold require_hmac_signature; rewrite Hts; discriminate].
  destruct (Z.le_gt_cases (Z.abs (clock - t)) 30) as [Hage|Hage].
  - rewrite (hmac_signature_fresh api_key ts sig clock t) by assumption.
    cbn [outcome snd]. unfold Hmac.compare_digest_str.
    destruct (isascii sig && isascii (expected_signature api_key ts)); [|discriminate].
    destruct (String.eqb_spec sig (expected_signature api_key ts)) as [->|_];
      [|discriminate].
    intros _. exists ts, t. auto.
  - rewrite (hmac_signature_stale api_key ts sig clock t) by (try assumption; lia).
    discriminate.
Qed.

Lemma hmac_signature_raise_status
    (api_key : string) (x_timestamp x_signature : option string) (clock : Z) (e : exn) :
  outcome (require_hmac_signature api_key x_timestamp x_signature clock) = Raise e ->
  status_code (respond (Raise e)) <> 200.
Proof.
  destruct x_timestamp as [ts|]; [|intros H; injection H as <-; discriminate].
  destruct x_signature as [sig|]; [|intros H; injection H as <-; discriminate].
  destruct (PyStr.int ts) as [t|] eqn:Hts;
    [|unfold require_hmac_signature; rewrite Hts; intros H; injection H as <-;
      discriminate].
  destruct (Z.le_gt_cases (Z.abs (clock - t)) 30) as [Hage|Hage].
  - rewrite (hmac_signature_fresh api_key ts sig clock t) by assumption.
    cbn [outcome snd]. unfold Hmac.compare_digest_str.
    destruct (isascii sig && isascii (expected_signature api_key ts)).
    + destruct (String.eqb sig (expected_signature api_key ts)); [discriminate|].
      intros H; injection H as <-; discriminate.
    + intros H; injection H as <-; discriminate.
  - rewrite (hmac_signature_stale api_key ts sig clock t) by (try assumption; lia).
    intros H; injection H as <-; discriminate.
Qed.

End RouteLemmas.

Section RouteTheorems.

Import PyStr Spec Config Auth Main Routes.

(** GET /otp/secure answers 200 only to a request that carries the
    configured API key, a timestamp header that [int] parses to a time
    within 30 seconds of the server's clock, and as signature the
    HMAC-SHA256 hex digest of that header under the key.  This holds for
    every configuration and every reading of the clocks. *)
Theorem secure_route_requires_credentials
    (pl : Platform.t) (settings : Settings)
    (x_api_key x_timestamp x_signature : option string)
    (clock_auth clock_totp clock_time : Z) :
  status_code (GET_otp_secure pl settings x_api_key x_timestamp x_signature
                 clock_auth clock_totp clock_time) = 200 ->
  x_api_key = Some (API_KEY settings)
  /\ exists ts t,
       x_timestamp = Some ts /\ PyStr.int ts = Some t
       /\ Z.abs (clock_auth - t) <= 30
       /\ x_signature = Some (expected_signature (API_KEY settings) ts).
Proof.
  unfold GET_otp_secure, behind, depends_hmac_signature, bind.
  destruct (require_api_key settings x_api_key) as [tr [k|e]] eqn:Hk.
  - pose proof (api_key_ok settings x_api_key k) as Hok.
    rewrite Hk in Hok. destruct (Hok eq_refl) as [Hx ->]. clear Hok.
    destruct (require_hmac_signature (API_KEY settings) x_timestamp x_signature clock_auth)
      as [tr' [u|e]] eqn:Hs; cbn [outcome snd].
    + intros _. split; [exact Hx|].
      apply (hmac_signature_ok _ _ _ clock_auth u). now rewrite Hs.
    + intros H. exfalso.
      apply (hmac_signature_raise_status (API_KEY settings) x_timestamp x_signature
               clock_auth e); [now rewrite Hs | exact H].
  - cbn [outcome snd]. intros H. exfalso.
    pose proof (api_key_raise_status settings x_api_key e) as Hr.
    rewrite Hk in Hr. destruct (Hr eq_refl) as [E|[E|E]]; rewrite E in H; discriminate H.
Qed.

Lemma secure_route_requires_credentials_witness :
  Some "k1"%string = Some (API_KEY Sample.settings)
  /\ exists ts t,
       Some "1700000000"%string = Some ts /\ PyStr.int ts = Some t
       /\ Z.abs (1700000005 - t) <= 30
       /\ Some (expected_signature "k1" "1700000000")
          = Some (expected_signature (API_KEY Sample.settings) ts).
Proof.
  refine (secure_route_requires_credentials Sample.utc Sample.settings (Some "k1"%string)
            (Some "1700000000"%string) (Some (expected_signature "k1" "1700000000"))
            1700000005 1700000006 1700000006 _).
  vm_compute. reflexivity.
Defined.

(** With a configuration that passed the start-up check (an ASCII key, a
    secret that decodes), GET /otp answers 200 exactly when the X-API-Key
    header is the configured key, and then with the dict of [get_otp]: the
    code of the time-step that [pyotp] derives from its reading of the
    clock, and [valid_for_seconds] and the timestamp from the reading of
    [time.time()] that follows; to any other request it answers 401, 403
    or 500. *)
Theorem otp_route_key_holder_only
    (pl : Platform.t) (settings : Settings) (key : bytes) (x_api_key : option string)
    (clock_totp clock_time m : Z) :
  isascii (API_KEY settings) = true ->
  Pyotp.byte_secret (Totp._totp settings) = Ok key ->
  totp_time pl clock_totp = Ok m ->
  0 <= m ->
  (x_api_key = Some (API_KEY settings) ->
   GET_otp pl settings x_api_key clock_totp clock_time
   = {| status_code := 200;
        content := [("otp"%string, JStr (Pyotp.hotp 6 key (time_step m)));
                    ("valid_for_seconds"%string, JInt (30 - clock_time mod 30));
                    ("timestamp"%string, JInt clock_time)] |})
  /\ (x_api_key <> Some (API_KEY settings) ->
      let status := status_code (GET_otp pl settings x_api_key clock_totp clock_time) in
      status = 401 \/ status = 403 \/ status = 500).
Proof.
  intros Ha Hk Hm H0. unfold GET_otp, behind. rewrite api_key_outcome. split.
  - intros ->. rewrite Ha, andb_true_r, String.eqb_refl. cbn [andb].
    unfold Routes.get_otp.
    rewrite (get_otp_at pl settings key clock_totp clock_time m) by assumption.
    reflexivity.
  - intros Hne. cbv zeta. destruct x_api_key as [x|]; [|auto].
    destruct (isascii x && isascii (API_KEY settings)); [|auto].
    destruct (String.eqb_spec x (API_KEY settings)) as [->|_]; [congruence | auto].
Qed.

Lemma otp_route_key_holder_only_witness :
  GET_otp Sample.europe_paris Sample.settings (Some "k1"%string) 1729992629 1729992630
  = {| status_code := 200;
       content := [("otp"%string, JStr (Pyotp.hotp 6 Sample.key (time_step 1729989029)));
                   ("valid_for_seconds"%string, JInt (30 - 1729992630 mod 30));
                   ("timestamp"%string, JInt 1729992630)] |}.
Proof.
  refine (proj1 (otp_route_key_holder_only Sample.europe_paris Sample.settings Sample.key
                   (Some "k1"%string) 1729992629 1729992630 1729989029 _ _ _ _) _).
  - vm_compute. reflexivity.
  - vm_compute. reflexivity.
  - vm_compute. reflexivity.
  - vm_compute. discriminate.
  - reflexivity.
Defined.

(** For the key holder POST /otp/verify does not answer with an error,
    from the second time-step on, to a passcode whose normal form holds no
    lone surrogate: one that does not match gives status 200 with "valid"
    false, one that has the normal form of one of the three codes [pyotp]
    compares with gives "valid" true, and the timestamp is the reading of
    [time.time()] that follows the verification. *)
Theorem verify_route_answers_key_holder
    (pl : Platform.t) (settings : Settings) (key : bytes) (body : VerifyRequest)
    (clock_verify clock_time m : Z) :
  isascii (API_KEY settings) = true ->
  Pyotp.byte_secret (Totp._totp settings) = Ok key ->
  totp_time pl clock_verify = Ok m ->
  30 <= m ->
  has_surrogate pl (otp body) = false ->
  exists valid : bool,
    POST_otp_verify pl settings (Some (API_KEY settings)) body clock_verify clock_time
    = {| status_code := 200;
         content := [("valid"%string, JBool valid); ("timestamp"%string, JInt clock_time)] |}
    /\ (valid = true
        <-> exists i, -1 <= i <= 1
              /\ same_normal_form pl (otp body) (Pyotp.hotp 6 key (time_step m + i))).
Proof.
  intros Ha Hk Hm Hc Hs. unfold POST_otp_verify, behind. rewrite api_key_outcome.
  rewrite Ha, andb_true_r, String.eqb_refl. cbn [andb].
  unfold Routes.verify_otp.
  rewrite (verify_otp_window pl settings key (otp body) clock_verify m) by assumption.
  rewrite Hs. cbn [rbind respond]. eexists. split; [reflexivity|].
  rewrite !orb_true_iff, !same_normal_formb_spec. split.
  - intros [[H|H]|H]; [exists (-1) | exists 0 | exists 1]; (split; [lia|]);
      [exact H | now rewrite Z.add_0_r | exact H].
  - intros [i [Hi H]].
    assert (i = -1 \/ i = 0 \/ i = 1) as [->|[->| ->]] by lia.
    + left; left. exact H.
    + left; right. now rewrite Z.add_0_r in H.
    + right. exact H.
Qed.

Lemma verify_route_answers_key_holder_witness :
  exists valid : bool,
    POST_otp_verify Sample.utc Sample.settings (Some "k1"%string)
      {| otp := Sample.fullwidth_candidate |} Sample.clock (Sample.clock + 1)
    = {| status_code := 200;
         content := [("valid"%string, JBool valid);
                     ("timestamp"%string, JInt (Sample.clock + 1))] |}.
Proof.
  destruct (verify_route_answers_key_holder Sample.utc Sample.settings Sample.key
              {| otp := Sample.fullwidth_candidate |} Sample.clock (Sample.clock + 1)
              Sample.clock)
    as [valid [H _]].
  - vm_compute. reflexivity.
  - vm_compute. reflexivity.
  - vm_compute. reflexivity.
  - vm_compute. discriminate.
  - vm_compute. reflexivity.
  - exists valid. exact H.
Defined.

(** What a request without the configured API key gets from the three
    protected routes depends on its X-API-Key header and on the configured
    key alone: not on the TOTP secret, the clock, the passcode submitted or
    the signature headers. *)
Theorem unauthenticated_response_independent
    (pl pl' : Platform.t) (settings settings' : Settings) (x_api_key : option string)
    (x_timestamp x_signature x_timestamp' x_signature' : option string)
    (body body' : VerifyRequest) (c1 c2 c3 c1' c2' c3' : Z) :
  API_KEY settings = API_KEY settings' ->
  x_api_key <> Some (API_KEY settings) ->
  GET_otp pl settings x_api_key c1 c2 = GET_otp pl' settings' x_api_key c1' c2'
  /\ POST_otp_verify pl settings x_api_key body c1 c2
     = POST_otp_verify pl' settings' x_api_key body' c1' c2'
  /\ GET_otp_secure pl settings x_api_key x_timestamp x_signature c1 c2 c3
     = GET_otp_secure pl' settings' x_api_key x_timestamp' x_signature' c1' c2' c3'
  /\ GET_otp_secure pl settings x_api_key x_timestamp x_signature c1 c2 c3
     = GET_otp pl settings x_api_key c1 c2.
Proof.
  intros Hkey Hne.
  assert (Hr : exists e, forall s, API_KEY s = API_KEY settings ->
                 outcome (require_api_key s x_api_key) = Raise e).
  { destruct x_api_key as [x|].
    - destruct (isascii x && isascii (API_KEY settings)) eqn:Ha.
      + exists INVALID_API_KEY. intros s Hs. rewrite api_key_outcome, Hs, Ha.
        destruct (String.eqb_spec x (API_KEY settings)) as [->|_]; [congruence|reflexivity].
      + exists TypeError. intros s Hs. now rewrite api_key_outcome, Hs, Ha.
    - eexists. intros s Hs. reflexivity. }
  destruct Hr as [e He].
  assert (Hdep : forall s xt xs c, API_KEY s = API_KEY settings ->
            outcome (depends_hmac_signature s x_api_key xt xs c) = Raise e).
  { intros s xt xs c Hs. specialize (He s Hs).
    unfold depends_hmac_signature, bind.
    destruct (require_api_key s x_api_key) as [tr [k|e']]; cbn [outcome snd] in *;
      [discriminate | injection He as ->; reflexivity]. }
  unfold GET_otp, POST_otp_verify, GET_otp_secure, behind.
  rewrite !He, !Hdep by congruence. auto.
Qed.

Lemma unauthenticated_response_independent_witness :
  GET_otp Sample.utc Sample.settings (Some "k2"%string) 0 0
  = GET_otp Sample.europe_paris (Shape.with_secret Sample.settings "") (Some "k2"%string)
      1706553000 1706553000.
Proof.
  refine (proj1 (unauthenticated_response_independent Sample.utc Sample.europe_paris
                   Sample.settings
                   (Shape.with_secret Sample.settings "") (Some "k2"%string)
                   None None None None {| otp := [] |} {| otp := [] |}
                   0 0 0 1706553000 1706553000 0 _ _)).
  - reflexivity.
  - vm_compute. discriminate.
Defined.

End RouteTheorems.

Section SecureRouteServes.

Import PyStr Spec Config Auth Main Routes.

(** With a configuration that passed the start-up check, GET /otp/secure
    answers a request carrying the configured key, a fresh timestamp
    header and the digest of that header with status 200 and the dict of
    [get_otp], whatever the three readings of the clock. *)
Theorem secure_route_serves_signed_request
    (pl : Platform.t) (settings : Settings) (key : bytes) (x_timestamp : string)
    (request_time clock_auth clock_totp clock_time m : Z) :
  isascii (API_KEY settings) = true ->
  Pyotp.byte_secret (Totp._totp settings) = Ok key ->
  PyStr.int x_timestamp = Some request_time ->
  Z.abs (clock_auth - request_time) <= 30 ->
  totp_time pl clock_totp = Ok m ->
  0 <= m ->
  GET_otp_secure pl settings (Some (API_KEY settings)) (Some x_timestamp)
    (Some (expected_signature (API_KEY settings) x_timestamp))
    clock_auth clock_totp clock_time
  = {| status_code := 200;
       content := [("otp"%string, JStr (Pyotp.hotp 6 key (time_step m)));
                   ("valid_for_seconds"%string, JInt (30 - clock_time mod 30));
                   ("timestamp"%string, JInt clock_time)] |}.
Proof.
  intros Ha Hk Hts Hage Hm H0.
  unfold GET_otp_secure, behind, depends_hmac_signature, require_api_key, bind,
    compare_digest.
  rewrite compare_digest_str_ascii, String.eqb_refl by assumption.
  cbn [negb ret].
  rewrite (hmac_signature_fresh (API_KEY settings) x_timestamp _ clock_auth request_time)
    by assumption.
  rewrite compare_digest_str_ascii by (apply hexdigest_sha256_ascii).
  rewrite String.eqb_refl. cbn [outcome snd].
  unfold get_otp_secure.
  rewrite (get_otp_at pl settings key clock_totp clock_time m) by assumption.
  reflexivity.
Qed.

Lemma secure_route_serves_signed_request_witness :
  status_code
    (GET_otp_secure Sample.utc Sample.settings (Some "k1"%string)
       (Some "1700000000"%string) (Some (expected_signature "k1" "1700000000"))
       1700000020 1700000021 1700000022)
  = 200.
Proof.
  refine (f_equal status_code
            (secure_route_serves_signed_request Sample.utc Sample.settings Sample.key
               "1700000000" 1700000000 1700000020 1700000021 1700000022 1700000021
               _ _ _ _ _ _)).
  - vm_compute. reflexivity.
  - vm_compute. reflexivity.
  - vm_compute. reflexivity.
  - vm_compute. discriminate.
  - vm_compute. reflexivity.
  - vm_compute. discriminate.
Defined.

End SecureRouteServes.

(* ================================================================== *)
(** * The command-line helper                                           *)
(* ================================================================== *)

Section CommandLineHelper.

Import PyStr Spec Config Totp_a360 Shape.

Lemma filter_lstrip (l : list Z) :
  filter keep (Totp_a360.lstrip l) = Totp_a360.lstrip (filter keep l).
Proof.
  induction l as [|c r IH]; [reflexivity|].
  cbn [Totp_a360.lstrip filter]. unfold keep at 2.
  destruct (isspace c) eqn:Hs.
  - destruct (Z.eqb_spec c 32) as [->|Hne]; cbn [negb]; [exact IH|].
    cbn [Totp_a360.lstrip]. now rewrite Hs.
  - destruct (Z.eqb_spec c 32) as [->|Hne]; [discriminate Hs|].
    cbn [negb Totp_a360.lstrip filter]. rewrite Hs. unfold keep at 1.
    destruct (Z.eqb_spec c 32); [contradiction | reflexivity].
Qed.

Lemma in_range_codepoints (s : string) : Forall (fun c => 0 <= c < 256) (codepoints s).
Proof. induction s; simpl; constructor; [apply ord_range | assumption]. Qed.

Lemma lstrip_range (l : list Z) :
  Forall (fun c => 0 <= c < 256) l -> Forall (fun c => 0 <= c < 256) (Totp_a360.lstrip l).
Proof.
  induction 1 as [|c r Hc Hr IH]; [constructor|].
  cbn [Totp_a360.lstrip]. destruct (isspace c); [exact IH | now constructor].
Qed.

(** The secret [get_totp] hands to pyotp, as code points. *)
Lemma cleaned_codepoints (s : string) :
  codepoints (remove_spaces (strip s))
  = rev (Totp_a360.lstrip (rev (Totp_a360.lstrip (filter keep (codepoints s))))).
Proof.
  unfold remove_spaces, strip. fold keep.
  rewrite (codepoints_of_codepoints (rev _))
    by (apply Forall_rev, lstrip_range, Forall_rev, lstrip_range, in_range_codepoints).
  rewrite filter_rev, filter_lstrip, filter_rev, filter_lstrip.
  apply codepoints_of_codepoints.
  apply Forall_rev, lstrip_range, Forall_rev, lstrip_range.
  apply Forall_forall. intros c Hc. apply filter_In in Hc as [Hc _].
  pose proof (in_range_codepoints s) as H. rewrite Forall_forall in H. now apply H.
Qed.

Lemma cleaned_ignores_space (a b : string) :
  remove_spaces (strip (a ++ " " ++ b)) = remove_spaces (strip (a ++ b)).
Proof.
  apply codepoints_inj. rewrite !cleaned_codepoints, !codepoints_append, !filter_app.
  reflexivity.
Qed.

Lemma b32_char_not_space (c : Z) : b32_char c = true -> isspace c = false.
Proof.
  unfold b32_char, b32_defined, Base64.b32rev, Base64.upper, isspace. intros H.
  destruct (Z.leb_spec 9 c), (Z.leb_spec c 13), (Z.leb_spec 28 c), (Z.leb_spec c 32),
    (Z.eqb_spec c 0x85), (Z.eqb_spec c 0xA0); cbn [andb orb]; try reflexivity; exfalso;
    destruct (Z.leb_spec 97 c), (Z.leb_spec c 122); cbn [andb] in H; try lia;
    destruct (Z.leb_spec 65 c), (Z.leb_spec c 90); cbn [andb] in H; try lia;
    destruct (Z.leb_spec 50 c), (Z.leb_spec c 55); cbn [andb] in H; try lia;
    discriminate H.
Qed.


Lemma valid_base32_no_space (s : string) :
  valid_base32 s = true -> Forall (fun c => isspace c = false) (codepoints s).
Proof.
  unfold valid_base32. cbv zeta. intros H.
  apply andb_true_iff in H as [H _]. apply andb_true_iff in H as [H _].
  rewrite (rstrip_pad_decomp (codepoints s)). apply Forall_app. split.
  - apply Forall_forall. intros c Hc. apply b32_char_not_space.
    rewrite forallb_forall in H. now apply H.
  - apply Forall_forall. intros c Hc. apply repeat_spec in Hc. now subst c.
Qed.




Lemma space_not_valid_base32 (a b : string) : valid_base32 (a ++ " " ++ b) = false.
Proof.
  destruct (valid_base32 (a ++ " " ++ b)) eqn:Hv; [|reflexivity].
  apply valid_base32_no_space in Hv. rewrite !codepoints_append in Hv.
  apply Forall_app in Hv as [_ Hv]. apply Forall_app in Hv as [Hv _].
  inversion Hv as [|c r Hc _]. discriminate Hc.
Qed.

(** A secret written with spaces, in groups as authenticator
    applications show it, is read by [get_totp] as the secret without
    them, whereas the service refuses to start with it. *)
Theorem spaced_secret_helper_only
    (pl : Platform.t) (self : Settings) (a b : string) (clock : Z) :
  OTP_SECRET self = (a ++ " " ++ b)%string ->
  get_totp pl (a ++ " " ++ b) clock = get_totp pl (a ++ b) clock
  /\ snd (_validate self pl clock) = Raise (SystemExit 1).
Proof.
  intros Hs. split.
  - unfold get_totp. cbv zeta. now rewrite cleaned_ignores_space.
  - apply validate_fatal. right. right. rewrite Hs. apply space_not_valid_base32.
Qed.

Lemma spaced_secret_helper_only_witness :
  get_totp Sample.utc "JBSWY3DP EHPK3PXP" Sample.clock
  = get_totp Sample.utc "JBSWY3DPEHPK3PXP" Sample.clock
  /\ snd (_validate (Shape.with_secret Sample.settings "JBSWY3DP EHPK3PXP") Sample.utc
            Sample.clock)
     = Raise (SystemExit 1).
Proof.
  refine (spaced_secret_helper_only Sample.utc
            (Shape.with_secret Sample.settings "JBSWY3DP EHPK3PXP")
            "JBSWY3DP" "EHPK3PXP" Sample.clock _).
  reflexivity.
Defined.

End CommandLineHelper.

(* ================================================================== *)
(** * Start-up: what Settings() returns, and the documentation URLs     *)
(* ================================================================== *)

Section SettingsCreated.

Import PyStr Spec Config Main.

Lemma validate_passes (self : Settings) (pl : Platform.t) (clock m : Z) :
  is_empty (API_KEY self) = false -> is_empty (OTP_SECRET self) = false ->
  valid_base32 (OTP_SECRET self) = true ->
  totp_time pl clock = Ok m -> 0 <= m ->
  _validate self pl clock = ([], Ok tt).
Proof.
  intros Ea Es Hv Hm Hc. unfold _validate. rewrite Ea, Es. cbn [app].
  apply byte_secret_ok_iff in Hv as [key Hk].
  rewrite (now_at pl _ key clock m) by assumption.
  reflexivity.
Qed.

Lemma validate_ok_inv
    (self : Settings) (pl : Platform.t) (clock : Z) (out : list string) (u : unit) :
  _validate self pl clock = (out, Ok u) ->
  API_KEY self <> EmptyString /\ OTP_SECRET self <> EmptyString
  /\ valid_base32 (OTP_SECRET self) = true.
Proof.
  intros H.
  assert (Hn : ~ (API_KEY self = EmptyString \/ OTP_SECRET self = EmptyString
                  \/ valid_base32 (OTP_SECRET self) = false)).
  { intros Hbad. destruct (validate_fatal self pl clock Hbad) as [Hr _].
    rewrite H in Hr. discriminate Hr. }
  repeat split.
  - intros E. apply Hn. auto.
  - intros E. apply Hn. auto.
  - destruct (valid_base32 (OTP_SECRET self)); [reflexivity|]. exfalso. apply Hn. auto.
Qed.

(** [Settings()] returns exactly when PORT (8000 when unset) is an integer
    literal, API_KEY and OTP_SECRET are set and not empty and OTP_SECRET is
    valid base32; it has then printed nothing, and the object holds the
    variables as given, HOST defaulting to 0.0.0.0 and PORT being any
    integer, without a check of its range. *)
Theorem settings_created_iff
    (env : environ) (pl : Platform.t) (clock m : Z) (out : list string) (s : Settings) :
  totp_time pl clock = Ok m ->
  0 <= m ->
  (Settings_init env pl clock = (out, Ok s)
   <-> out = []
       /\ PyStr.int (getenv env "PORT" "8000") = Some (PORT s)
       /\ API_KEY s = getenv env "API_KEY" ""
       /\ OTP_SECRET s = getenv env "OTP_SECRET" ""
       /\ HOST s = getenv env "HOST" "0.0.0.0"
       /\ ENABLE_DOCS s = String.eqb (lower (getenv env "ENABLE_DOCS" "false")) "true"
       /\ API_KEY s <> EmptyString
       /\ OTP_SECRET s <> EmptyString
       /\ valid_base32 (OTP_SECRET s) = true).
Proof.
  intros Hm Hc. unfold Settings_init. split.
  - destruct (PyStr.int (getenv env "PORT" "8000")) as [port|]; [|discriminate].
    match goal with |- context [_validate ?x pl clock] => set (self := x) end.
    destruct (_validate self pl clock) as [out' [u|e]] eqn:Hv; [|discriminate].
    intros H. injection H as Hout Hself. subst out' s.
    destruct (validate_ok_inv self pl clock out u Hv) as (Ha & Hs & Hb).
    assert (Ea : is_empty (API_KEY self) = false)
      by (destruct (is_empty (API_KEY self)) eqn:E;
          [apply is_empty_spec in E; contradiction | reflexivity]).
    assert (Es : is_empty (OTP_SECRET self) = false)
      by (destruct (is_empty (OTP_SECRET self)) eqn:E;
          [apply is_empty_spec in E; contradiction | reflexivity]).
    rewrite (validate_passes self pl clock m Ea Es Hb Hm Hc) in Hv. injection Hv as Hout _.
    subst out. repeat split; assumption.
  - intros (-> & Hp & Ha & Hs & Hh & Hd & Hna & Hns & Hv).
    rewrite Hp. destruct s as [k sec h p d]. cbn in *. subst k sec h d.
    match goal with |- context [_validate ?x pl clock] => set (self := x) end.
    rewrite (validate_passes self pl clock m); try assumption; try reflexivity.
    + subst self. cbn. destruct (getenv env "API_KEY" ""); [contradiction | reflexivity].
    + subst self. cbn. destruct (getenv env "OTP_SECRET" ""); [contradiction | reflexivity].
Qed.

Lemma settings_created_iff_witness :
  Settings_init (Sample.environ (Some "k1"%string) (Some "JBSWY3DPEHPK3PXP"%string))
    Sample.utc Sample.clock
  = ([], Ok Sample.settings).
Proof.
  refine (proj2 (settings_created_iff
                   (Sample.environ (Some "k1"%string) (Some "JBSWY3DPEHPK3PXP"%string))
                   Sample.utc Sample.clock Sample.clock [] Sample.settings _ _) _).
  - vm_compute. reflexivity.
  - vm_compute. discriminate.
  - vm_compute. repeat split; discriminate.
Defined.

Ltac by_cases_on_char c :=
  destruct c as [[] [] [] [] [] [] [] []]; vm_compute;
  (split; [intros H; try discriminate H; auto | intros [H|H]; try discriminate H; reflexivity]).

Lemma lower_char_t (c : ascii) : lower_char c = "t"%char <-> (c = "t" \/ c = "T")%char.
Proof. by_cases_on_char c. Qed.

Lemma lower_char_r (c : ascii) : lower_char c = "r"%char <-> (c = "r" \/ c = "R")%char.
Proof. by_cases_on_char c. Qed.

Lemma lower_char_u (c : ascii) : lower_char c = "u"%char <-> (c = "u" \/ c = "U")%char.
Proof. by_cases_on_char c. Qed.

Lemma lower_char_e (c : ascii) : lower_char c = "e"%char <-> (c = "e" \/ c = "E")%char.
Proof. by_cases_on_char c. Qed.

Lemma lower_is_true (v : string) :
  String.eqb (lower v) "true" = true <-> Shape.spells_true v.
Proof.
  rewrite String.eqb_eq. unfold Shape.spells_true. split.
  - destruct v as [|c1 [|c2 [|c3 [|c4 [|c5 v]]]]]; cbn [lower]; intros H;
      try discriminate H.
    injection H as H1 H2 H3 H4.
    exists c1, c2, c3, c4. split; [reflexivity|].
    rewrite <- lower_char_t, <- lower_char_r, <- lower_char_u, <- lower_char_e. auto.
  - intros (c1 & c2 & c3 & c4 & -> & H1 & H2 & H3 & H4). cbn [lower].
    apply lower_char_t in H1. apply lower_char_r in H2.
    apply lower_char_u in H3. apply lower_char_e in H4.
    now rewrite H1, H2, H3, H4.
Qed.

(** The application built on the settings serves /docs, /redoc and
    /openapi.json together or not at all, and serves them exactly when the
    ENABLE_DOCS variable is the word "true" in any mix of cases; other
    values ("1", "yes") and an unset variable leave them off. *)
Theorem docs_enabled_iff
    (env : environ) (pl : Platform.t) (clock : Z) (out : list string) (s : Settings) :
  Settings_init env pl clock = (out, Ok s) ->
  let app := create_app s in
  (Shape.spells_true (getenv env "ENABLE_DOCS" "false") ->
   docs_url app = Some "/docs"%string /\ redoc_url app = Some "/redoc"%string
   /\ openapi_url app = Some "/openapi.json"%string)
  /\ (~ Shape.spells_true (getenv env "ENABLE_DOCS" "false") ->
      docs_url app = None /\ redoc_url app = None /\ openapi_url app = None)
  /\ (env "ENABLE_DOCS"%string = None ->
      docs_url app = None /\ redoc_url app = None /\ openapi_url app = None).
Proof.
  intros H app.
  assert (Hd : ENABLE_DOCS s = String.eqb (lower (getenv env "ENABLE_DOCS" "false")) "true").
  { unfold Settings_init in H.
    destruct (PyStr.int (getenv env "PORT" "8000")) as [port|]; [|discriminate].
    match type of H with context [_validate ?x pl clock] => set (self := x) in H end.
    destruct (_validate self pl clock) as [out' [u|e]]; [|discriminate].
    injection H as _ <-. reflexivity. }
  assert (Hoff : ENABLE_DOCS s = false ->
                 docs_url app = None /\ redoc_url app = None /\ openapi_url app = None).
  { intros E. subst app. unfold create_app. rewrite E. auto. }
  split; [|split].
  - intros Ht. apply lower_is_true in Ht. subst app. unfold create_app.
    rewrite Hd, Ht. auto.
  - intros Hn. apply Hoff. rewrite Hd.
    destruct (String.eqb _ "true") eqn:E; [|reflexivity].
    apply lower_is_true in E. contradiction.
  - intros Hnone. apply Hoff. rewrite Hd. unfold getenv. rewrite Hnone. reflexivity.
Qed.

Lemma docs_enabled_iff_witness :
  docs_url (create_app Sample.settings) = None
  /\ redoc_url (create_app Sample.settings) = None
  /\ openapi_url (create_app Sample.settings) = None.
Proof.
  refine (proj2 (proj2 (docs_enabled_iff
                          (Sample.environ (Some "k1"%string)
                             (Some "JBSWY3DPEHPK3PXP"%string))
                          Sample.utc Sample.clock [] Sample.settings _)) _).
  - vm_compute. reflexivity.
  - reflexivity.
Defined.

End SettingsCreated.

Section HelperEdges.

Import PyStr Spec Config Totp_a360.

(** [get_totp] checks nothing itself: when the local time that [pyotp]
    reads is not before 1970 it returns a code, of six digits, exactly when
    what is left of its argument once stripped and rid of spaces is valid
    base32, and raises otherwise.  A blank argument is valid in that sense:
    the helper then returns the code of the empty key, where the service
    refuses an empty secret. *)
Theorem helper_returns_iff (pl : Platform.t) (secret_key : string) (clock m : Z) :
  totp_time pl clock = Ok m ->
  0 <= m ->
  ((exists code, get_totp pl secret_key clock = Ok code /\ is_passcode code = true)
   <-> valid_base32 (remove_spaces (strip secret_key)) = true)
  /\ ((exists e, get_totp pl secret_key clock = Raise e)
      <-> valid_base32 (remove_spaces (strip secret_key)) = false)
  /\ (remove_spaces (strip secret_key) = EmptyString ->
      get_totp pl secret_key clock = Ok (Pyotp.hotp 6 [] (time_step m))).
Proof.
  intros Hm Hc. unfold get_totp. cbv zeta.
  set (secret := remove_spaces (strip secret_key)).
  pose proof (byte_secret_ok_iff secret) as Hiff.
  assert (Hstep : 0 <= time_step m) by (apply Z.div_pos; lia).
  destruct (Pyotp.byte_secret (Pyotp.new secret)) as [key|e] eqn:Hk.
  - rewrite (now_at pl secret key clock m) by assumption.
    assert (Hv : valid_base32 secret = true) by (apply Hiff; eauto).
    split; [|split].
    + split; [intros _; exact Hv|]. intros _. eexists. split; [reflexivity|].
      apply hotp_passcode.
    + rewrite Hv. split; [intros [e H]; discriminate H | discriminate].
    + intros E. rewrite E in Hk. vm_compute in Hk. injection Hk as <-. reflexivity.
  - assert (Hv : valid_base32 secret = false).
    { destruct (valid_base32 secret); [|reflexivity].
      destruct Hiff as [_ Hiff]. destruct (Hiff eq_refl) as [key Hkey]. discriminate Hkey. }
    assert (Hr : Pyotp.now (Pyotp.new secret) pl clock = Raise e).
    { apply totp_time_inv in Hm as [d [Hd Hmk]]. subst m.
      unfold Pyotp.now. rewrite Hd. cbn [rbind].
      rewrite timecode_nonneg by assumption.
      unfold Pyotp.generate_otp.
      destruct (Z.ltb_spec (time_step (Datetime.mktime pl d)) 0); [lia|].
      now rewrite Hk. }
    rewrite Hr, Hv. split; [|split].
    + split; [intros [code [H _]]; discriminate H | discriminate].
    + split; [reflexivity | eauto].
    + intros E. rewrite E in Hk. vm_compute in Hk. discriminate Hk.
Qed.

Lemma helper_returns_iff_witness :
  get_totp Sample.utc "   " Sample.clock = Ok (Pyotp.hotp 6 [] (time_step Sample.clock)).
Proof.
  refine (proj2 (proj2 (helper_returns_iff Sample.utc "   " Sample.clock Sample.clock
                          _ _)) _).
  - vm_compute. reflexivity.
  - vm_compute. discriminate.
  - vm_compute. reflexivity.
Defined.

(** In the first thirty seconds of 1970, as local time gives them to
    [pyotp], [verify_otp] raises ValueError for every candidate and every
    secret, a valid one included (the window starts at the counter before
    zero), so that the code [get_otp] returns then is not verified. *)
Theorem verify_raises_in_first_step
    (pl : Platform.t) (settings : Settings) (code : list Z) (clock clock_time m : Z) :
  totp_time pl clock = Ok m ->
  0 <= m < 30 ->
  Totp.verify_otp pl settings code clock = Raise ValueError
  /\ (forall key, Pyotp.byte_secret (Totp._totp settings) = Ok key ->
      exists r, Totp.get_otp pl settings clock clock_time = Ok r
                /\ Totp.verify_otp pl settings (codepoints (Totp.otp r)) clock
                   = Raise ValueError).
Proof.
  intros Hm H.
  assert (Hv : forall c, Totp.verify_otp pl settings c clock = Raise ValueError).
  { intros c. unfold Totp.verify_otp. cbv zeta.
    now apply (verify_first_step_raises pl _ c clock m). }
  split; [apply Hv|].
  intros key Hk. eexists.
  split; [apply (get_otp_at pl settings key clock clock_time m); [assumption..| lia]|].
  apply Hv.
Qed.

Lemma verify_raises_in_first_step_witness :
  Totp.verify_otp Sample.utc Sample.settings (codepoints "755224") 29 = Raise ValueError.
Proof.
  refine (proj1 (verify_raises_in_first_step Sample.utc Sample.settings
                   (codepoints "755224") 29 29 29 _ _)).
  - vm_compute. reflexivity.
  - vm_compute. split; [discriminate | reflexivity].
Defined.

End HelperEdges.
